(** * Band-energy features and synthetic signals of the vibration workshop

    A shallow embedding of the three functions that the KNN and ANN
    notebooks share ([generate_noisy_signal], [extract_features] and
    [generate_database]) together with the properties their design
    document states about them.

    - Python [float] and [np.float64] are IEEE 754 binary64, taken from the
      Standard Library's executable specification [SpecFloat]: every
      operation rounds to nearest, ties to even, and there is one NaN.
    - [np.int32] arrays are lists of [Z] with the two's-complement
      wrap-around written out.
    - Python exceptions are the [Raise] case of [result]; warnings (a
      division by zero inside NumPy) are not modelled.
    - What NumPy provides and the notebooks only call (the real FFT, the
      complex modulus, the array sum, the cosine, the random generators) is
      an interface with the laws the proofs use.
    - The two random generators, the one behind [np.random] and the seeded
      [rs], are threaded through the calls as explicit state. *)

From Stdlib Require Import ZArith Lia Floats.SpecFloat.
From stdpp Require Import gmap strings list pretty.

Local Open Scope Z_scope.

(** ** Binary64 arithmetic *)

Abbreviation float := spec_float.

Definition prec : Z := 53.
Definition emax : Z := 1024.

Definition fadd : float → float → float := SFadd prec emax.
Definition fsub : float → float → float := SFsub prec emax.
Definition fmul : float → float → float := SFmul prec emax.
Definition fdiv : float → float → float := SFdiv prec emax.
Definition fsqrt : float → float := SFsqrt prec emax.

(** [x > y] on floats: false as soon as one side is NaN. *)
Definition fgtb (x y : float) : bool := SFltb y x.
Definition feqb (x y : float) : bool := SFeqb x y.

(** The float nearest to an integer (ties to even); exact below [2^53]. *)
Definition of_Z (z : Z) : float := binary_normalize prec emax z 0 false.

Definition fzero : float := S754_zero false.
Definition fone : float := of_Z 1.
Definition ftwo : float := of_Z 2.

(** [np.pi], the double [0x400921FB54442D18]. *)
Definition np_pi : float := S754_finite false 7074237752028440 (-51).

Definition is_zero (x : float) : bool :=
  match x with S754_zero _ => true | _ => false end.

Definition is_finite (x : float) : bool :=
  match x with S754_zero _ | S754_finite _ _ _ => true | _ => false end.

Definition square (x : float) : float := fmul x x.

#[global] Arguments of_Z : simpl never.
#[global] Arguments fadd : simpl never.
#[global] Arguments fsub : simpl never.
#[global] Arguments fmul : simpl never.
#[global] Arguments fdiv : simpl never.
#[global] Arguments fsqrt : simpl never.

(** ** Exceptions *)

Inductive exn : Type :=
| AssertionError
| ValueError
| ZeroDivisionError
| OverflowError.

Inductive result (A : Type) : Type :=
| Ok (a : A)
| Raise (e : exn).

Arguments Ok {A} a.
Arguments Raise {A} e.

(** Python's [float(n)] for an [int]: [OverflowError] past the largest double. *)
Definition float_of_int (n : Z) : result float :=
  match of_Z n with
  | S754_infinity _ => Raise OverflowError
  | x => Ok x
  end.

(** Python's [int(x)] for a float: truncation toward zero. *)
Definition py_int (x : float) : result Z :=
  match x with
  | S754_zero _ => Ok 0
  | S754_finite s m e =>
      let a := if 0 <=? e then Z.pos m * 2 ^ e else Z.pos m / 2 ^ (- e) in
      Ok (if s then - a else a)
  | S754_infinity _ => Raise OverflowError
  | S754_nan => Raise ValueError
  end.

(** ** [np.int32] *)

Definition wrap32 (z : Z) : Z := (z + 2 ^ 31) mod 2 ^ 32 - 2 ^ 31.
Definition add32 (a b : Z) : Z := wrap32 (a + b).
Definition sub32 (a b : Z) : Z := wrap32 (a - b).

(** ** Slices *)

(** A slice bound as Python resolves it against a sequence of length [n]. *)
Definition slice_index (n i : Z) : Z :=
  if i <? 0 then Z.max (i + n) 0 else Z.min i n.

(** [l[start:stop]]. *)
Definition py_slice {A} (l : list A) (start stop : Z) : list A :=
  let n := Z.of_nat (length l) in
  let a := slice_index n start in
  let b := slice_index n stop in
  take (Z.to_nat (b - a)) (drop (Z.to_nat a) l).

(** [a[:stop] += 1] on an [int32] array. *)
Definition incr_prefix (stop : Z) (a : list Z) : list Z :=
  let r := Z.to_nat (slice_index (Z.of_nat (length a)) stop) in
  ((λ x, add32 x 1) <$> take r a) ++ drop r a.

(** ** The band partition of [extract_features] *)

(** [np.full(N, v, dtype=np.int32)]; a fill value outside [int32] is stored
    modulo [2^32], as the NumPy releases of the notebooks' time did. *)
Definition np_full (N v : Z) : list Z := replicate (Z.to_nat N) (wrap32 v).

Fixpoint cumsum_from (acc : Z) (a : list Z) : list Z :=
  match a with
  | [] => []
  | x :: r => (acc + x) :: cumsum_from (acc + x) r
  end.

(** [np.cumsum] of an integer array, accumulated in the platform integer. *)
Definition np_cumsum (a : list Z) : list Z := cumsum_from 0 a.

(** The [freq_per_band] array for a spectrum of [L] bins and [N > 0] bands. *)
Definition freq_per_band (L N : Z) : list Z :=
  let f_per_band := L / N in
  let rem := L mod N in
  incr_prefix rem (np_full N f_per_band).

(** The [offsets] array: [N + 1] entries of [int32], the first one zero,
    the others the running sums of [freq_per_band] as stored in [int32]. *)
Definition band_offsets (L N : Z) : list Z :=
  0 :: (wrap32 <$> np_cumsum (freq_per_band L N)).

(** Bounds of band [i]: [offsets[i]] and [offsets[i+1]]. *)
Definition band_lo (L N : Z) (i : nat) : Z := band_offsets L N !!! i.
Definition band_hi (L N : Z) (i : nat) : Z := band_offsets L N !!! S i.

(** The size the loop divides by: [offsets[i+1] - offsets[i]] in [int32]. *)
Definition band_size (L N : Z) (i : nat) : Z := sub32 (band_hi L N i) (band_lo L N i).

(** The bins the loop reads for band [i]: the indices of
    [mag[offsets[i]:offsets[i+1]]] in a spectrum of [L] bins. *)
Definition band_bins (L N : Z) (i : nat) : list Z :=
  py_slice (seqZ 0 L) (band_lo L N i) (band_hi L N i).

(** ** What NumPy provides *)

Class NumPy : Type := {
  (** [np.complex128] *)
  complex : Type;
  (** [np.fft.rfft] on a real sequence with at least one sample *)
  np_fft_rfft : list float → list complex;
  (** [np.abs] on one complex value *)
  np_abs : complex → float;
  (** [np.sum] of a [float64] array *)
  np_sum : list float → float;
  (** [np.cos] on one value *)
  np_cos : float → float;
  rfft_length : ∀ s, s ≠ [] → length (np_fft_rfft s) = S (length s / 2)%nat;
  np_sum_nil : np_sum [] = fzero;
}.

(** ** [extract_features] *)

Section Features.
Context {np : NumPy}.

(** One pass of the loop body: the RMS written to [RMS_amplitude[i]]. *)
Definition band_rms (mag : list float) (lo hi : Z) : float :=
  fsqrt (fmul (fdiv fone (of_Z (sub32 hi lo)))
              (np_sum (square <$> py_slice mag lo hi))).

(** [mag = 1/len(signal) * np.abs(rfft)]; the quotient [1/len(signal)] of two
    Python integers is the float nearest to it (for a length below [2^53],
    where the length itself is a float). *)
Definition magnitudes (signal : list float) : list float :=
  let scale := fdiv fone (of_Z (Z.of_nat (length signal))) in
  (λ c, fmul scale (np_abs c)) <$> np_fft_rfft signal.

(** [extract_features]. [np.fft.rfft] refuses a signal with no sample,
    [len(rfft)//N] a band count of zero and [np.full] a negative one. The
    third parameter of the source, [sampling_frequency], is never read and
    is left out. *)
Definition extract_features (signal : list float) (N : Z) : result (list float) :=
  match signal with
  | [] => Raise ValueError
  | _ =>
      let rfft := np_fft_rfft signal in
      let L := Z.of_nat (length rfft) in
      if N =? 0 then Raise ZeroDivisionError
      else if N <? 0 then Raise ValueError
      else
        let offsets := band_offsets L N in
        let mag := magnitudes signal in
        Ok ((λ i : nat, band_rms mag (offsets !!! i) (offsets !!! S i))
              <$> seq 0 (Z.to_nat N))
  end.

End Features.

(** ** Random generators *)

(** A [numpy.random.RandomState]: the notebooks use two of them, the
    module-level one behind [np.random.randn] and the seeded [rs]. A draw
    returns the values and the generator's next state. *)
Class RandomState : Type := {
  rng_state : Type;
  rng_randn : nat → rng_state → list float * rng_state;
  rng_uniform : float → float → nat → rng_state → list float * rng_state;
  rng_random : nat → rng_state → list float * rng_state;
  rng_random_integers : Z → Z → nat → rng_state → list Z * rng_state;
  randn_length : ∀ n g, length (rng_randn n g).1 = n;
  randn_finite : ∀ n g, Forall (λ z, is_finite z = true) (rng_randn n g).1;
  uniform_length : ∀ lo hi n g, length (rng_uniform lo hi n g).1 = n;
  random_length : ∀ n g, length (rng_random n g).1 = n;
  random_integers_length : ∀ lo hi n g, length (rng_random_integers lo hi n g).1 = n;
}.

#[global] Instance float_inhabited : Inhabited float := populate fzero.

(** [np.linspace(0, stop, num, endpoint=False)] with scalar bounds: a
    negative [num] is refused; otherwise the samples are [i * step + 0] for
    [step = (stop * 1.0 - 0 * 1.0) / num], computed as [(i / num) * delta + 0]
    when the step underflows to zero. For [num = 0] the grid is empty. *)
Definition np_linspace (stop : float) (num : Z) : result (list float) :=
  if num <? 0 then Raise ValueError
  else
    let start := fmul fzero fone in
    let delta := fsub (fmul stop fone) start in
    let y := of_Z <$> seqZ 0 num in
    let step := fdiv delta (of_Z num) in
    let y :=
      if feqb step fzero
      then (λ v, fmul (fdiv v (of_Z num)) delta) <$> y
      else (λ v, fmul v step) <$> y in
    Ok ((λ v, fadd v start) <$> y).

(** Python's [sum] over a list of arrays: it starts from the integer [0],
    so an empty list gives [0] ([None] here) and the first array is added
    to zero. *)
Definition py_sum (arrays : list (list float)) : option (list float) :=
  match arrays with
  | [] => None
  | a :: rest => Some (foldl (zip_with fadd) (fadd fzero <$> a) rest)
  end.

(** [n + sum(arrays)]: adding the integer [0] when there is no array. *)
Definition add_sum (n : list float) (arrays : list (list float)) : list float :=
  match py_sum arrays with
  | None => (λ x, fadd x fzero) <$> n
  | Some s => zip_with fadd n s
  end.

Section Notebook.
Context {np : NumPy} {rng : RandomState}.

(** The two generators a call can reach. *)
Record World : Type := mkWorld {
  np_random : rng_state;
  rs : rng_state;
}.

(** Code that may raise and may advance a generator. *)
Definition M (A : Type) : Type := World → result A * World.

#[global] Instance M_ret : MRet M := λ A a w, (Ok a, w).
#[global] Instance M_bind : MBind M := λ A B f m w,
  match m w with
  | (Ok a, w') => f a w'
  | (Raise e, w') => (Raise e, w')
  end.

Definition raise {A} (e : exn) : M A := λ w, (Raise e, w).

Definition lift {A} (r : result A) : M A := λ w, (r, w).

Definition py_assert (b : bool) : M unit :=
  if b then mret () else raise AssertionError.

(** [np.random.randn(n)]. *)
Definition np_random_randn (n : nat) : M (list float) := λ w,
  let '(z, g) := rng_randn n (np_random w) in
  (Ok z, mkWorld g (rs w)).

(** A draw of [size] values from [rs]; a negative size is refused. *)
Definition rs_draw {A} (draw : nat → rng_state → list A * rng_state) (size : Z)
  : M (list A) := λ w,
  if size <? 0 then (Raise ValueError, w)
  else
    let '(v, g) := draw (Z.to_nat size) (rs w) in
    (Ok v, mkWorld (np_random w) g).

Definition rs_uniform (lo hi : float) : Z → M (list float) := rs_draw (rng_uniform lo hi).
Definition rs_random : Z → M (list float) := rs_draw rng_random.
Definition rs_random_integers (lo hi : Z) : Z → M (list Z) :=
  rs_draw (rng_random_integers lo hi).

(** One summand of the signal: [A*np.cos(2*np.pi*f*t+p)] over the grid [t]. *)
Definition cosine_wave (t : list float) (A f p : float) : list float :=
  (λ tk, fmul A (np_cos (fadd (fmul (fmul (fmul ftwo np_pi) f) tk) p))) <$> t.

(** [generate_noisy_signal]. The [noise] argument is a scalar; the one-element
    array that [generate_database] passes broadcasts to the same products.
    [T] is a float; an integer duration gives the same sample count for
    every sample rate below [2^53]. *)
Definition generate_noisy_signal (sample_frequency : Z)
    (amplitudes frequencies phases : list float) (noise T : float)
  : M (list float * list float) :=
  fs ← lift (float_of_int sample_frequency);
  N ← lift (py_int (fmul T fs));
  t ← lift (np_linspace T N);
  _ ← py_assert (bool_decide (length frequencies = length phases));
  _ ← py_assert (bool_decide (length amplitudes = length phases));
  z ← np_random_randn (length t);
  let n := fmul noise <$> z in
  let waves :=
    (λ '(A, (f, p)), cosine_wave t A f p)
      <$> zip amplitudes (zip frequencies phases) in
  mret (t, add_sum n waves).

(** A [for] loop that collects what each pass produces. *)
Fixpoint for_each {A B} (body : A → M B) (l : list A) : M (list B) :=
  match l with
  | [] => mret []
  | x :: r => y ← body x; ys ← for_each body r; mret (y :: ys)
  end.

(** [np.zeros((rows, cols))] refuses a negative dimension. *)
Definition np_zeros_shape (rows cols : Z) : M unit :=
  if (rows <? 0) || (cols <? 0) then raise ValueError else mret ().

Definition feature_names (num_windows : Z) : list string :=
  (λ i, "Signal amplitude integrated in frequency window " +:+ pretty i)
    <$> seqZ 0 num_windows.

(** [labels[i] = v] on an [int32] array: an integer that does not fit the
    platform's C [long] (64 bits) is refused with [OverflowError]; one that
    does is stored modulo [2^32], as the NumPy releases of the notebooks'
    time did. *)
Definition store_int32 (v : Z) : result Z :=
  if (- 2 ^ 63 <=? v) && (v <? 2 ^ 63) then Ok (wrap32 v) else Raise OverflowError.

(** One pass of the loop of [generate_database]: the feature row written to
    [features[i]] and the value stored in [labels[i]], an [int32]. The
    expression [label] turns the drawn frequency into the label; storing
    it comes last and may fail. The arguments [A[i:i+1]],
    [frequencies[i:i+1]] and [phase[i:i+1]] are slices; the slice
    [noise[i:i+1]] is passed as its one element. *)
Definition sample_row (label : float → Z) (sample_rate : Z) (T : float) (num_windows : Z)
    (A frequencies phase noise : list float) (i : nat) : M (list float * Z) :=
  let i0 := Z.of_nat i in
  '(_, signal) ← generate_noisy_signal sample_rate
      (py_slice A i0 (i0 + 1)) (py_slice frequencies i0 (i0 + 1))
      (py_slice phase i0 (i0 + 1)) (noise !!! i) T;
  row ← lift (extract_features signal num_windows);
  l ← lift (store_int32 (label (frequencies !!! i)));
  mret (row, l).

(** The text that the three [generate_database] cells share. They differ in
    the upper end [f_max] of the carrier-frequency range, in the expression
    [label], and in the [target_map] literal. [sample_rate] is the value of
    the notebook's slider. *)
Definition generate_database_with (f_max : float) (label : float → Z)
    (target_map : gmap Z string)
    (sample_rate num_samples : Z) (T : float) (num_windows : Z)
  : M (list (list float) * list Z * list string * gmap Z string) :=
  A ← rs_uniform (of_Z (-4)) (of_Z 4) num_samples;
  r ← rs_random num_samples;
  let phase := fmul np_pi <$> r in
  u ← rs_uniform (of_Z (-2)) (of_Z 2) num_samples;
  b ← rs_random_integers 0 1 num_samples;
  let noise := zip_with fmul u (of_Z <$> b) in
  frequencies ← rs_uniform (of_Z 0) f_max num_samples;
  _ ← np_zeros_shape num_samples num_windows;
  rows ← for_each (sample_row label sample_rate T num_windows A frequencies phase noise)
                  (seq 0 (Z.to_nat num_samples));
  mret (rows.*1, rows.*2, feature_names num_windows, target_map).

End Notebook.

(** [generate_database] of the KNN notebook: labels [1] and [2]. *)
Module Knn.
Section Knn.
Context {np : NumPy} {rng : RandomState}.

Definition label (f : float) : Z := 1 + (if fgtb f (of_Z 8000) then 1 else 0).

Definition target_map : gmap Z string := <[2 := "high"]> (<[1 := "low"]> ∅).

Definition generate_database (sample_rate num_samples : Z) (T : float) (num_windows : Z) :=
  generate_database_with (of_Z 20000) label target_map sample_rate num_samples T num_windows.

End Knn.
End Knn.

(** [generate_database] of the ANN notebook: the labels [high] and [low] and
    the [threshold] are parameters (defaults [3], [7] and [8e3]). *)
Module Ann.
Section Ann.
Context {np : NumPy} {rng : RandomState}.

Definition label (high low : Z) (threshold f : float) : Z :=
  if fgtb f threshold then high else low.

Definition target_map (high low : Z) : gmap Z string :=
  <[high := "high"]> (<[low := "low"]> ∅).

Definition generate_database (sample_rate num_samples : Z) (T : float) (num_windows : Z)
    (high low : Z) (threshold : float) :=
  generate_database_with (of_Z (sample_rate / 2)) (label high low threshold)
    (target_map high low) sample_rate num_samples T num_windows.

Definition default_high : Z := 3.
Definition default_low : Z := 7.
Definition default_threshold : float := of_Z 8000.

End Ann.
End Ann.

(** [generate_database] of the earlier copy of the ANN notebook: the labels of
    the KNN notebook with the map [{0: "low", 1: "high"}]. *)
Module AnnDraft.
Section AnnDraft.
Context {np : NumPy} {rng : RandomState}.

Definition label (f : float) : Z := 1 + (if fgtb f (of_Z 8000) then 1 else 0).

Definition target_map : gmap Z string := <[1 := "high"]> (<[0 := "low"]> ∅).

Definition generate_database (sample_rate num_samples : Z) (T : float) (num_windows : Z) :=
  generate_database_with (of_Z 20000) label target_map sample_rate num_samples T num_windows.

End AnnDraft.
End AnnDraft.

(** ** Quantities the statements refer to *)

Definition Zsum (a : list Z) : Z := foldr Z.add 0 a.

(** The two entries of [freq_per_band]: the first [L mod N] bands and the others. *)
Definition big_band (L N : Z) : Z := add32 (wrap32 (L / N)) 1.
Definition small_band (L N : Z) : Z := wrap32 (L / N).

(** The running sum stored (modulo [2^32]) in [offsets[i]]. *)
Definition offset_sum (L N : Z) (i : nat) : Z :=
  Z.min (Z.of_nat i) (L mod N) * big_band L N
  + (Z.of_nat i - Z.min (Z.of_nat i) (L mod N)) * small_band L N.

(** Closed forms of the partition: where band [i] starts and how many bins
    it holds. *)
Definition band_start (L N : Z) (i : nat) : Z :=
  Z.of_nat i * (L / N) + Z.min (Z.of_nat i) (L mod N).
Definition band_length (L N : Z) (i : nat) : Z :=
  L / N + (if Z.of_nat i <? L mod N then 1 else 0).

(** The root mean square of a band as the design document words it: the
    square root of the mean of the squares, the mean being the sum of the
    values scaled by the reciprocal of their count. *)
Definition mean {np : NumPy} (xs : list float) : float :=
  fmul (fdiv fone (of_Z (Z.of_nat (length xs)))) (np_sum xs).
Definition rms {np : NumPy} (xs : list float) : float :=
  fsqrt (mean (square <$> xs)).

(** The [k]-th point of [np.linspace(0, T, N, endpoint=False)]: [k] steps of
    [T / N] from zero. *)
Definition grid_point (T : float) (N : Z) (k : nat) : float :=
  let start := fmul fzero fone in
  let delta := fsub (fmul T fone) start in
  let step := fdiv delta (of_Z N) in
  fadd (if feqb step fzero
        then fmul (fdiv (of_Z (Z.of_nat k)) (of_Z N)) delta
        else fmul (of_Z (Z.of_nat k)) step)
       start.

(** [A * cos(2*pi*f*t + p)] for one triple at one time [tk]. *)
Definition wave_at {np : NumPy} (tk : float) (triple : float * (float * float)) : float :=
  let '(A, (f, p)) := triple in
  fmul A (np_cos (fadd (fmul (fmul (fmul ftwo np_pi) f) tk) p)).

(** The least exponent of binary64, [-1074], bounds the exponent of every
    finite value that an arithmetic operation returns. *)
Definition emin_ok (x : float) : Prop :=
  match x with
  | S754_finite _ _ e => emin prec emax ≤ e
  | _ => True
  end.

Definition neg_zero : float := S754_zero true.

(** What every running sum of Python's [sum] over arrays satisfies: it is
    never the negative zero. *)
Definition summed (x : float) : Prop := emin_ok x ∧ x ≠ neg_zero.

(** What a run of [generate_database] draws from the seeded generator, in
    the order of the source: the amplitudes [A], the [phase]s, the [noise]
    scales and the carrier [frequencies], with the state [rs] is left in. *)
Definition drawn_parameters {rng : RandomState}
    (f_max : float) (num_samples : Z) (g : rng_state)
  : list float * list float * list float * list float * rng_state :=
  let n := Z.to_nat num_samples in
  let '(A, g1) := rng_uniform (of_Z (-4)) (of_Z 4) n g in
  let '(r, g2) := rng_random n g1 in
  let '(u, g3) := rng_uniform (of_Z (-2)) (of_Z 2) n g2 in
  let '(b, g4) := rng_random_integers 0 1 n g3 in
  let '(frequencies, g5) := rng_uniform (of_Z 0) f_max n g4 in
  (A, fmul np_pi <$> r, zip_with fmul u (of_Z <$> b), frequencies, g5).

Definition drawn_frequencies {rng : RandomState}
    (f_max : float) (num_samples : Z) (g : rng_state) : list float :=
  (drawn_parameters f_max num_samples g).1.2.

(** What a caller reads from the result of [generate_database]. *)
Definition features_of {A B C D} (r : result (A * B * C * D)) : option A :=
  match r with Ok (features, _, _, _) => Some features | Raise _ => None end.
Definition labels_of {A B C D} (r : result (A * B * C * D)) : option B :=
  match r with Ok (_, labels, _, _) => Some labels | Raise _ => None end.
Definition target_map_of {A B C D} (r : result (A * B * C * D)) : option D :=
  match r with Ok (_, _, _, target_map) => Some target_map | Raise _ => None end.

(** Two outcomes of one pass of the loop that agree on everything but the
    feature row: the same error, or the same label. *)
Definition same_label (a b : result (list float * Z)) : Prop :=
  match a, b with
  | Ok ra, Ok rb => ra.2 = rb.2
  | Raise ea, Raise eb => ea = eb
  | _, _ => False
  end.

Definition same_labels (a b : result (list (list float * Z))) : Prop :=
  match a, b with
  | Ok ra, Ok rb => ra.*2 = rb.*2
  | Raise ea, Raise eb => ea = eb
  | _, _ => False
  end.

(** Two outcomes of [generate_database] that agree on everything but the
    feature matrix and the names: both runs fail, with the same error, or
    both return, with the same labels. *)
Definition same_labels_or_error {A B C D} (a b : result (A * B * C * D)) : Prop :=
  match a, b with
  | Ok (_, la, _, _), Ok (_, lb, _, _) => la = lb
  | Raise ea, Raise eb => ea = eb
  | _, _ => False
  end.

(** ** A small provider for running the definitions

    The proofs below use only the laws of [NumPy] and [RandomState]. To
    evaluate the functions on concrete inputs they are instantiated here
    with stand-ins that satisfy the laws: a spectrum that copies the first
    half of the signal, the textbook modulus, a left-to-right sum, a
    second-order cosine, and a linear congruential generator. *)
Module Bench.

Definition rfft (s : list float) : list (float * float) :=
  (λ x, (x, fzero)) <$> take (S (length s / 2)) s.

Definition modulus (c : float * float) : float :=
  fsqrt (fadd (square c.1) (square c.2)).

Definition sum_left (a : list float) : float := foldl fadd fzero a.

Definition cos2 (x : float) : float := fsub fone (fdiv (square x) ftwo).

Lemma rfft_has_length s : s ≠ [] → length (rfft s) = S (length s / 2)%nat.
Proof.
  intros Hs. unfold rfft. rewrite length_fmap, length_take.
  destruct s as [|x s]; [done|]. simpl length.
  pose proof (Nat.Div0.div_le_upper_bound (S (length s)) 2 (S (length s))).
  assert (S (length s) / 2 < S (length s))%nat by (apply Nat.div_lt; lia).
  lia.
Qed.

Definition numpy : NumPy := {|
  complex := float * float;
  np_fft_rfft := rfft;
  np_abs := modulus;
  np_sum := sum_left;
  np_cos := cos2;
  rfft_length := rfft_has_length;
  np_sum_nil := eq_refl;
|}.

(** The generator: a state [s] steps to [(1103515245 s + 12345) mod 2^31]. *)
Definition next (s : Z) : Z := (1103515245 * s + 12345) mod 2 ^ 31.

Fixpoint draws {A} (value : Z → A) (n : nat) (s : Z) : list A * Z :=
  match n with
  | O => ([], s)
  | S n => let '(v, s') := draws value n (next s) in (value s :: v, s')
  end.

Definition gauss (s : Z) : float := of_Z (s mod 5 - 2).
Definition unit_interval (s : Z) : float := fdiv (of_Z (s mod 1000)) (of_Z 1000).
Definition between (lo hi : float) (s : Z) : float :=
  fadd lo (fmul (fsub hi lo) (unit_interval s)).
Definition integer_between (lo hi s : Z) : Z := lo + s mod (hi - lo + 1).

Lemma draws_length {A} (value : Z → A) n s : length (draws value n s).1 = n.
Proof.
  revert s. induction n as [|n IH]; intros s; simpl; [done|].
  specialize (IH (next s)). destruct (draws value n (next s)). simpl in *. lia.
Qed.

Lemma gauss_finite s : is_finite (gauss s) = true.
Proof.
  unfold gauss. pose proof (Z.mod_pos_bound s 5 ltac:(lia)) as Hm.
  assert (Hc : s mod 5 = 0 ∨ s mod 5 = 1 ∨ s mod 5 = 2 ∨ s mod 5 = 3 ∨ s mod 5 = 4) by lia.
  destruct Hc as [-> | [-> | [-> | [-> | ->]]]]; reflexivity.
Qed.

Lemma draws_gauss_finite n s : Forall (λ z, is_finite z = true) (draws gauss n s).1.
Proof.
  revert s. induction n as [|n IH]; intros s; simpl; [constructor|].
  specialize (IH (next s)). destruct (draws gauss n (next s)). simpl in *.
  constructor; [apply gauss_finite | done].
Qed.

Definition generator : RandomState := {|
  rng_state := Z;
  rng_randn := draws gauss;
  rng_uniform lo hi := draws (between lo hi);
  rng_random := draws unit_interval;
  rng_random_integers lo hi := draws (integer_between lo hi);
  randn_length := draws_length gauss;
  randn_finite := draws_gauss_finite;
  uniform_length lo hi := draws_length (between lo hi);
  random_length := draws_length unit_interval;
  random_integers_length lo hi := draws_length (integer_between lo hi);
|}.

(** A signal of [2^32 - 2] samples, all zero except sample [2^31 - 1]. *)
Definition spike (before after : nat) : list float :=
  replicate before fzero ++ [fone] ++ replicate after fzero.
Definition long_signal : list float :=
  spike (Z.to_nat (2 ^ 31 - 1)) (Z.to_nat (2 ^ 31 - 2)).

(** Its one non-zero magnitude: [1 / (2^32 - 2)] times the modulus of [1]. *)
Definition long_peak : float :=
  fmul (fdiv fone (of_Z (2 ^ 32 - 2))) (modulus (fone, fzero)).

(** A world whose two generators are in the states [global] and [seeded]. *)
Definition world (global seeded : Z) : World (rng := generator) :=
  mkWorld (rng := generator) global seeded.

End Bench.



(** ** The cells that call the functions *)

(** The state of NumPy's global generator after [k] calls of
    [np.random.randn(n)]. *)
Definition after_randn {rng : RandomState} (n k : nat) (g : rng_state) : rng_state :=
  Nat.iter k (λ g', (rng_randn n g').2) g.

(** The state in which the five draws of [generate_database] leave [rs]. *)
Definition seed_after {rng : RandomState}
    (f_max : float) (num_samples : Z) (g : rng_state) : rng_state :=
  (drawn_parameters f_max num_samples g).2.

(** The float literal [0.1]. *)
Definition py_0_1 : float := fdiv fone (of_Z 10).

(** The statements that build the data set of each notebook; [sample_rate]
    is the value of the slider, between [10000] and [50000]. *)
Module Cells.
Section Cells.
Context {np : NumPy} {rng : RandomState}.

(** [num_samples = 300; num_windows = 25;
     generate_database(num_samples=num_samples, num_windows=num_windows)],
    with the default [T = 2]. *)
Definition knn_database (sample_rate : Z) :=
  Knn.generate_database sample_rate 300 (of_Z 2) 25.

(** [T = 1; num_samples = 1000; num_windows = 25] and the default labels. *)
Definition ann_database (sample_rate : Z) :=
  Ann.generate_database sample_rate 1000 (of_Z 1) 25
    Ann.default_high Ann.default_low Ann.default_threshold.

(** [T = 0.1; num_samples = 3000; num_windows = 25]. *)
Definition draft_database (sample_rate : Z) :=
  AnnDraft.generate_database sample_rate 3000 py_0_1 25.

End Cells.
End Cells.

(** A label expression all of whose values fit the [int32] array they are
    stored in. *)
Definition fits_int32 (label : float → Z) : Prop :=
  ∀ f, - 2 ^ 31 ≤ label f < 2 ^ 31.

(** Whether [sample_rate] is a position of the slider. *)
Definition on_slider (sample_rate : Z) : Prop := 10000 ≤ sample_rate ≤ 50000.

(** A run of [generate_database] that returned [num_samples] rows of
    [num_windows] features and [num_samples] labels, with the names of the
    bands and the map [target_map], and left the generators in [after]. *)
Definition database_built {rng : RandomState}
    (run : result (list (list float) * list Z * list string * gmap Z string) * World)
    (target_map : gmap Z string) (after : World) (num_samples num_windows : Z) : Prop :=
  ∃ features labels,
    run = (Ok (features, labels, feature_names num_windows, target_map), after)
    ∧ length features = Z.to_nat num_samples
    ∧ Forall (λ row, length row = Z.to_nat num_windows) features
    ∧ length labels = Z.to_nat num_samples.

(** ** The sound cells of the KNN notebook *)

Section Sound.
Context {np : NumPy} {rng : RandomState}.

(** [generate_sound] up to the signal that is played: two seconds of two
    cosines with phase [0]. The sliders give [fA] and [fB] as integers, so
    [np.array([fA, fB])] is an integer array whose entries become floats in
    [2*np.pi*f]; [np.array([pA, pB])] holds the integer [0] twice. An
    integer too large for a double is kept by [np.array] as it is, and
    [2*np.pi*f] raises [OverflowError] when the sum is built: after the
    grid, the two asserts and the draw of the noise, which go as they do
    for any two frequencies. *)
Definition generate_sound (sample_rate : Z) (A B : float) (fA fB : Z) (noise : float)
  : M (list float) :=
  let T := of_Z 2 in
  let '(pA, pB) := (of_Z 0, of_Z 0) in
  match float_of_int fA, float_of_int fB with
  | Ok a, Ok b =>
      '(_, signal) ← generate_noisy_signal sample_rate [A; B] [a; b] [pA; pB] noise T;
      mret signal
  | _, _ =>
      _ ← generate_noisy_signal sample_rate [A; B] [fzero; fzero] [pA; pB] noise T;
      raise OverflowError
  end.

(** The second [generate_sound]: the feature vector [f] given to the
    classifier and the vector [c_f] that is plotted. The classifier itself
    belongs to scikit-learn and is left out. *)
Definition sound_features (sample_rate num_windows : Z) (A B : float) (fA fB : Z)
    (noise : float) : M (list float * list float) :=
  signal ← generate_sound sample_rate A B fA fB noise;
  f ← lift (extract_features signal num_windows);
  c_f ← lift (extract_features signal num_windows);
  mret (f, c_f).

End Sound.

(** ** The cells of the FFT notebooks *)

(** [np.sin], used by the second notebook. *)
Class NumPySin : Type := { np_sin : float → float }.

Definition is_nan (x : float) : bool :=
  match x with S754_nan => true | _ => false end.

(** The loop of [np.argmax] over doubles: a later entry replaces the
    maximum [mp] when [entry <= mp] is false, and a NaN ends the scan. *)
Fixpoint argmax_from (best : nat) (mp : float) (i : nat) (l : list float) : nat :=
  match l with
  | [] => best
  | x :: r =>
      if SFleb x mp then argmax_from best mp (S i) r
      else if is_nan x then i
      else argmax_from i x (S i) r
  end.

Definition np_argmax (l : list float) : result nat :=
  match l with
  | [] => Raise ValueError
  | x :: r => Ok (if is_nan x then 0%nat else argmax_from 0 x 1 r)
  end.

(** Python's [1./n] for an [int]. *)
Definition py_reciprocal (n : Z) : result float :=
  match float_of_int n with
  | Raise e => Raise e
  | Ok x => if is_zero x then Raise ZeroDivisionError else Ok (fdiv fone x)
  end.

(** [np.fft.rfftfreq(n, d)] for a Python float [d]:
    [val = 1.0/(n*d)] and [arange(0, n//2 + 1) * val]. *)
Definition np_fft_rfftfreq (n : Z) (d : float) : result (list float) :=
  match float_of_int n with
  | Raise e => Raise e
  | Ok nf =>
      let nd := fmul nf d in
      if is_zero nd then Raise ZeroDivisionError
      else
        let val := fdiv fone nd in
        Ok ((λ k, fmul (of_Z k) val) <$> seqZ 0 (n / 2 + 1))
  end.

(** The float literals [0.54], [0.46] and [2.3]. *)
Definition py_0_54 : float := fdiv (of_Z 54) (of_Z 100).
Definition py_0_46 : float := fdiv (of_Z 46) (of_Z 100).
Definition py_2_3 : float := fdiv (of_Z 23) (of_Z 10).

Section Spectra.
Context {np : NumPy}.

(** [np.fft.rfft(a, n=n)]: fewer than one point is refused; the input is
    cropped or padded with zeros to [n] points. *)
Definition np_fft_rfft_n (a : list float) (n : Z) : result (list complex) :=
  if n <? 1 then Raise ValueError
  else Ok (np_fft_rfft (take (Z.to_nat n) a
                          ++ replicate (Z.to_nat n - length a) fzero)).

(** [np.hamming(M)]: [0.54 + 0.46*cos(pi*n/(M-1))] over
    [n = arange(1-M, M, 2)]. *)
Definition np_hamming (M : Z) : list float :=
  if M <? 1 then []
  else if M =? 1 then [fone]
  else (λ i, fadd py_0_54
               (fmul py_0_46
                  (np_cos (fdiv (fmul np_pi (of_Z (1 - M + 2 * i))) (of_Z (M - 1))))))
         <$> seqZ 0 M.

(** [np.abs(fft)/n], the heights of a stem plot. *)
Definition stem_heights (fft : list complex) (n : nat) : list float :=
  (λ c, fdiv (np_abs c) (of_Z (Z.of_nat n))) <$> fft.

(** What [FFT_hamming] plots: the window, the windowed signal and the
    signal over [ts], and the two spectra over their frequencies. *)
Record HammingPlots : Type := mkHammingPlots {
  plot_ts : list float;
  plot_hamming : list float;
  plot_hamming_signal : list float;
  plot_signal : list float;
  plot_frequencies : list float;
  plot_fft : list float;
  plot_frequencies_ham : list float;
  plot_fft_ham : list float;
}.

Definition bind_result {A B} (r : result A) (k : A → result B) : result B :=
  match r with Ok a => k a | Raise e => Raise e end.

(** [FFT_hamming] of the second notebook (and its copy in the KNN
    notebook). *)
Definition FFT_hamming (T : float) (sampling_rate : Z) (frequency : float)
  : result HammingPlots :=
  bind_result (float_of_int sampling_rate) (λ fs,
  bind_result (py_int (fmul T fs)) (λ N,
  bind_result (np_linspace T N) (λ ts,
  let signal := (λ tk, np_cos (fmul (fmul (fmul ftwo np_pi) tk) frequency)) <$> ts in
  let n := length signal in
  let hamming := np_hamming (Z.of_nat n) in
  let hamming_signal := zip_with fmul hamming signal in
  bind_result (np_fft_rfft_n hamming_signal (Z.of_nat n)) (λ fft_ham,
  bind_result (py_reciprocal sampling_rate) (λ d,
  bind_result (np_fft_rfftfreq (Z.of_nat n) d) (λ frequencies_ham,
  bind_result (np_fft_rfft_n signal (Z.of_nat n)) (λ fft,
  bind_result (py_reciprocal sampling_rate) (λ d',
  bind_result (np_fft_rfftfreq (Z.of_nat n) d') (λ frequencies,
  Ok (mkHammingPlots ts hamming hamming_signal signal
        frequencies (stem_heights fft n)
        frequencies_ham (stem_heights fft_ham n))))))))))).

End Spectra.

Section FftCells.
Context {np : NumPy} {sin : NumPySin} {rng : RandomState}.

(** What [compute_fft] prints and plots. [view_max_frequency] is
    [frequencies[np.argmax(np.abs(fft))]], [None] when the index is not one
    of [frequencies]. *)
Record FftView : Type := mkFftView {
  view_t : list float;
  view_signal : list float;
  view_noisy_signal : list float;
  view_frequencies : list float;
  view_max_frequency : option float;
  view_stem : list float;
}.

(** [compute_fft] of the first notebook. The slider gives [T] and
    [frequency] as integers; they enter the arithmetic as floats. *)
Definition compute_fft (T : float) (sampling_rate : Z) (frequency noise_A : float)
  : M FftView :=
  fs ← lift (float_of_int sampling_rate);
  N ← lift (py_int (fmul T fs));
  t ← lift (np_linspace T N);
  let signal := (λ tk, np_cos (fmul (fmul (fmul ftwo np_pi) tk) frequency)) <$> t in
  z ← np_random_randn (length signal);
  let noise := fmul noise_A <$> z in
  let noisy_signal := zip_with fadd signal noise in
  fft ← lift (np_fft_rfft_n noisy_signal (Z.of_nat (length signal)));
  d ← lift (py_reciprocal sampling_rate);
  frequencies ← lift (np_fft_rfftfreq (Z.of_nat (length signal)) d);
  k ← lift (np_argmax (np_abs <$> fft));
  mret (mkFftView t signal noisy_signal frequencies (frequencies !! k)
          (stem_heights fft (length signal))).

(** The signal of [generate_signal_and_fft] at time [tk]:
    [2.3 * np.cos(2*np.pi*t) + 4 * np.sin(2*np.pi*6*t)]. *)
Definition two_tone (tk : float) : float :=
  fadd (fmul py_2_3 (np_cos (fmul (fmul ftwo np_pi) tk)))
       (fmul (of_Z 4) (np_sin (fmul (fmul (fmul ftwo np_pi) (of_Z 6)) tk))).

(** [generate_signal_and_fft] of the second notebook. *)
Definition generate_signal_and_fft (T : float) (use_hamming : bool) (sampling_rate : Z)
    (noise : bool)
  : M ((list float * list float * list float) * (list float * list complex)) :=
  fs ← lift (float_of_int sampling_rate);
  count ← lift (py_int (fmul T fs));
  t ← lift (np_linspace T count);
  let N := Z.of_nat (length t) in
  let signal := two_tone <$> t in
  let hamming := if use_hamming then np_hamming N else replicate (Z.to_nat N) fone in
  z ← np_random_randn (Z.to_nat N);
  let noise := fmul (if noise then fone else fzero) <$> z in
  let windowed_signal := zip_with fmul (zip_with fadd signal noise) hamming in
  fft ← lift (np_fft_rfft_n windowed_signal N);
  d ← lift (py_reciprocal sampling_rate);
  frequencies ← lift (np_fft_rfftfreq (Z.of_nat (length windowed_signal)) d);
  mret ((t, zip_with fadd signal noise, windowed_signal), (frequencies, fft)).

End FftCells.

(** Whether the frequency axis [np.fft.rfftfreq(n, 1./sampling_rate)] is
    defined: [1./sampling_rate] and [1.0/(n*d)] divide by no zero. *)
Definition axis_defined (n sampling_rate : Z) : bool :=
  match float_of_int sampling_rate, float_of_int n with
  | Ok x, Ok nf => negb (is_zero x) && negb (is_zero (fmul nf (fdiv fone x)))
  | _, _ => false
  end.

(** ** The operation counts plotted in the first notebook *)

(** [N = np.arange(1, stop, dtype=np.int32)] and [N**2], an [int32] array. *)
Definition counts (stop : Z) : list Z := wrap32 <$> seqZ 1 (stop - 1).
Definition squared_counts (stop : Z) : list Z := (λ n, wrap32 (n * n)) <$> counts stop.

(** Stand-ins for running the cells of the FFT notebooks. *)
Module BenchTrig.

Definition sin3 (x : float) : float := fsub x (fdiv (fmul x (square x)) (of_Z 6)).

Definition numpy_sin : NumPySin := {| np_sin := sin3 |}.

End BenchTrig.

(** * Properties of the band partition *)


Section PartitionFacts.

Lemma Zsum_app a b : Zsum (a ++ b) = Zsum a + Zsum b.
Proof. induction a as [|x a IH]; simpl; [done | rewrite IH; lia]. Qed.

Lemma Zsum_replicate n x : Zsum (replicate n x) = Z.of_nat n * x.
Proof. induction n as [|n IH]; simpl; [done | rewrite IH; lia]. Qed.

Lemma cumsum_from_length acc a : length (cumsum_from acc a) = length a.
Proof. revert acc; induction a as [|x a IH]; intros acc; simpl; [done | by rewrite IH]. Qed.

Lemma cumsum_from_lookup a : ∀ acc i, (i < length a)%nat →
  cumsum_from acc a !! i = Some (acc + Zsum (take (S i) a)).
Proof.
  induction a as [|x a IH]; intros acc i Hi; simpl in *; [lia|].
  destruct i as [|i]; simpl.
  - destruct a; simpl; f_equal; lia.
  - rewrite IH by lia. simpl. f_equal. lia.
Qed.

Lemma wrap32_id z : - 2 ^ 31 ≤ z < 2 ^ 31 → wrap32 z = z.
Proof. intros Hz. unfold wrap32. rewrite Z.mod_small by lia. lia. Qed.

Lemma wrap32_range z : - 2 ^ 31 ≤ wrap32 z < 2 ^ 31.
Proof.
  unfold wrap32. pose proof (Z.mod_pos_bound (z + 2 ^ 31) (2 ^ 32)). lia.
Qed.

Lemma sub32_diag z : sub32 z z = 0.
Proof. unfold sub32. by rewrite Z.sub_diag. Qed.


Lemma freq_per_band_eq L N : 0 < N →
  freq_per_band L N =
    replicate (Z.to_nat (L mod N)) (big_band L N)
    ++ replicate (Z.to_nat (N - L mod N)) (small_band L N).
Proof.
  intros HN. pose proof (Z.mod_pos_bound L N HN) as Hr.
  unfold freq_per_band, incr_prefix, np_full, big_band, small_band.
  rewrite length_replicate, Z2Nat.id by lia.
  unfold slice_index. rewrite (proj2 (Z.ltb_ge _ _)) by lia.
  rewrite Z.min_l by lia.
  rewrite take_replicate, drop_replicate, fmap_replicate.
  do 2 f_equal; lia.
Qed.

Lemma freq_per_band_length L N : 0 < N → length (freq_per_band L N) = Z.to_nat N.
Proof.
  intros HN. pose proof (Z.mod_pos_bound L N HN).
  rewrite freq_per_band_eq, length_app, !length_replicate by done. lia.
Qed.


Lemma Zsum_take_freq L N i : 0 < N → (i ≤ Z.to_nat N)%nat →
  Zsum (take i (freq_per_band L N)) = offset_sum L N i.
Proof.
  intros HN Hi. pose proof (Z.mod_pos_bound L N HN) as Hr.
  rewrite freq_per_band_eq by done. unfold offset_sum.
  rewrite take_app, !take_replicate, length_replicate, Zsum_app, !Zsum_replicate.
  f_equal; f_equal; lia.
Qed.

Lemma band_offsets_length L N : 0 < N → length (band_offsets L N) = S (Z.to_nat N).
Proof.
  intros HN. unfold band_offsets, np_cumsum. simpl.
  by rewrite length_fmap, cumsum_from_length, freq_per_band_length.
Qed.

Lemma band_offsets_lookup L N i : 0 < N → (i ≤ Z.to_nat N)%nat →
  band_offsets L N !! i = Some (wrap32 (offset_sum L N i)).
Proof.
  intros HN Hi. unfold band_offsets, np_cumsum.
  destruct i as [|i]; simpl.
  - unfold offset_sum. f_equal. pose proof (Z.mod_pos_bound L N HN).
    rewrite Z.min_l by lia. reflexivity.
  - rewrite list_lookup_fmap, cumsum_from_lookup
      by (rewrite freq_per_band_length; lia).
    simpl. rewrite Zsum_take_freq by (done || lia). reflexivity.
Qed.

Lemma band_offsets_total L N i : 0 < N → (i ≤ Z.to_nat N)%nat →
  band_offsets L N !!! i = wrap32 (offset_sum L N i).
Proof.
  intros HN Hi. apply list_lookup_total_correct. by apply band_offsets_lookup.
Qed.

End PartitionFacts.

Section PartitionInRange.
Variables L N : Z.
Hypothesis HN : 1 ≤ N.
Hypothesis HNL : N ≤ L.
Hypothesis HL : L < 2 ^ 31.

Lemma div_mod_facts : L = N * (L / N) + L mod N ∧ 0 ≤ L mod N < N ∧ 1 ≤ L / N.
Proof.
  split; [apply Z.div_mod; lia|]. split; [apply Z.mod_pos_bound; lia|].
  apply Z.div_le_lower_bound; lia.
Qed.

Lemma offset_sum_closed i : (i ≤ Z.to_nat N)%nat →
  offset_sum L N i = Z.of_nat i * (L / N) + Z.min (Z.of_nat i) (L mod N)
  ∧ 0 ≤ offset_sum L N i ≤ L.
Proof.
  intros Hi. destruct div_mod_facts as (Hdm & Hr & Hb).
  assert (L / N ≤ L) by nia.
  unfold offset_sum, small_band. rewrite (wrap32_id (L / N)) by lia.
  assert (Hbig : Z.min (Z.of_nat i) (L mod N) * big_band L N
                 = Z.min (Z.of_nat i) (L mod N) * (L / N + 1)).
  { destruct (decide (L mod N = 0)) as [->|Hne].
    - rewrite Z.min_r by lia. lia.
    - unfold big_band, add32. rewrite (wrap32_id (L / N)) by lia.
      rewrite wrap32_id; [done|]. nia. }
  rewrite Hbig. split; [nia|]. split; [nia|].
  assert (Z.of_nat i ≤ N) by lia. nia.
Qed.

Lemma band_offsets_closed i : (i ≤ Z.to_nat N)%nat →
  band_offsets L N !!! i = Z.of_nat i * (L / N) + Z.min (Z.of_nat i) (L mod N).
Proof.
  intros Hi. destruct (offset_sum_closed i Hi) as [Heq Hrange].
  rewrite band_offsets_total by lia. rewrite wrap32_id by lia. done.
Qed.

Lemma band_offsets_bounds i : (i ≤ Z.to_nat N)%nat →
  0 ≤ band_offsets L N !!! i ≤ L.
Proof.
  intros Hi. destruct (offset_sum_closed i Hi) as [Heq Hrange].
  rewrite band_offsets_total by lia. rewrite wrap32_id by lia. done.
Qed.

Lemma band_size_closed i : (i < Z.to_nat N)%nat →
  band_size L N i = L / N + (if Z.of_nat i <? L mod N then 1 else 0)
  ∧ band_hi L N i = band_lo L N i + band_size L N i.
Proof.
  intros Hi. destruct div_mod_facts as (Hdm & Hr & Hb).
  assert (L / N ≤ L) by nia.
  unfold band_size, band_hi, band_lo, sub32.
  rewrite !band_offsets_closed by lia.
  assert (Hd : Z.of_nat (S i) * (L / N) + Z.min (Z.of_nat (S i)) (L mod N)
               - (Z.of_nat i * (L / N) + Z.min (Z.of_nat i) (L mod N))
               = L / N + (if Z.of_nat i <? L mod N then 1 else 0)).
  { destruct (Z.ltb_spec (Z.of_nat i) (L mod N)); nia. }
  rewrite Hd. rewrite wrap32_id by (destruct (Z.of_nat i <? L mod N); lia).
  split; [done|]. lia.
Qed.

End PartitionInRange.

Section SliceFacts.
Context {A : Type}.
Implicit Types l : list A.

Lemma py_slice_in_range l lo hi :
  0 ≤ lo → lo ≤ hi → hi ≤ Z.of_nat (length l) →
  py_slice l lo hi = take (Z.to_nat (hi - lo)) (drop (Z.to_nat lo) l).
Proof.
  intros H0 H1 H2. unfold py_slice, slice_index.
  rewrite !(proj2 (Z.ltb_ge _ _)) by lia.
  by rewrite !Z.min_l by lia.
Qed.

Lemma py_slice_empty l lo hi :
  slice_index (Z.of_nat (length l)) hi ≤ slice_index (Z.of_nat (length l)) lo →
  py_slice l lo hi = [].
Proof.
  intros Hle. unfold py_slice.
  replace (Z.to_nat _) with 0%nat by lia. done.
Qed.

Lemma py_slice_diag l i : py_slice l i i = [].
Proof. apply py_slice_empty. lia. Qed.

Lemma py_slice_length l lo hi :
  0 ≤ lo → lo ≤ hi → hi ≤ Z.of_nat (length l) →
  Z.of_nat (length (py_slice l lo hi)) = hi - lo.
Proof.
  intros. rewrite py_slice_in_range by done.
  rewrite length_take, length_drop. lia.
Qed.

End SliceFacts.

Lemma py_slice_seqZ L lo hi :
  0 ≤ lo → lo ≤ hi → hi ≤ L →
  py_slice (seqZ 0 L) lo hi = seqZ lo (hi - lo).
Proof.
  intros H0 H1 H2.
  rewrite py_slice_in_range by (rewrite ?length_seqZ; lia).
  replace L with (lo + ((hi - lo) + (L - hi))) by lia.
  rewrite (seqZ_app 0 lo) by lia.
  rewrite drop_app_length' by (rewrite length_seqZ; lia).
  rewrite seqZ_app by lia.
  rewrite take_app_length' by (rewrite length_seqZ; lia).
  f_equal.
Qed.

Lemma filter_ext_elem {A} (P1 P2 : A → Prop)
    `{!∀ x, Decision (P1 x), !∀ x, Decision (P2 x)} (l : list A) :
  (∀ x, x ∈ l → P1 x ↔ P2 x) → filter P1 l = filter P2 l.
Proof.
  induction l as [|a l IH]; intros Hiff; [done|].
  assert (Ha : P1 a ↔ P2 a) by (apply Hiff; left).
  assert (Hl : filter P1 l = filter P2 l).
  { apply IH. intros x Hx. apply Hiff. by right. }
  destruct (decide (P1 a)).
  - rewrite !filter_cons_True by tauto. by rewrite Hl.
  - rewrite !filter_cons_False by tauto. done.
Qed.

Lemma filter_below_length (r n : nat) :
  length (filter (λ i : nat, (i < r)%nat) (seq 0 n)) = (r `min` n)%nat.
Proof.
  induction n as [|n IH]; [simpl; lia|].
  rewrite seq_S, filter_app, length_app, IH. simpl.
  destruct (decide (n < r)%nat).
  - rewrite filter_cons_True by done. simpl. lia.
  - rewrite filter_cons_False by done. simpl. lia.
Qed.

Lemma filter_from_length (r n : nat) :
  length (filter (λ i : nat, ¬ (i < r)%nat) (seq 0 n)) = (n - r)%nat.
Proof.
  induction n as [|n IH]; [simpl; lia|].
  rewrite seq_S, filter_app, length_app, IH. simpl.
  destruct (decide (n < r)%nat).
  - rewrite filter_cons_False by tauto. simpl. lia.
  - rewrite filter_cons_True by done. simpl. lia.
Qed.

Section PartitionTheorems.
Variables L N : Z.
Hypothesis HN : 1 ≤ N.
Hypothesis HNL : N ≤ L.
Hypothesis HL : L < 2 ^ 31.

Lemma band_bins_closed i : (i < Z.to_nat N)%nat →
  band_bins L N i = seqZ (band_lo L N i) (band_size L N i).
Proof.
  intros Hi. destruct (band_size_closed L N HN HNL HL i Hi) as [Hs Hh].
  pose proof (band_offsets_bounds L N HN HNL HL i ltac:(lia)) as Hlo.
  pose proof (band_offsets_bounds L N HN HNL HL (S i) ltac:(lia)) as Hhi.
  destruct (div_mod_facts L N HN HNL) as (_ & _ & Hb).
  unfold band_bins. fold (band_lo L N i) in Hlo. fold (band_hi L N i) in Hhi.
  assert (0 < band_size L N i) by (rewrite Hs; destruct (Z.of_nat i <? L mod N); lia).
  rewrite py_slice_seqZ by lia. f_equal. lia.
Qed.

Lemma bands_concat k : (k ≤ Z.to_nat N)%nat →
  concat (band_bins L N <$> seq 0 k) = seqZ 0 (band_offsets L N !!! k).
Proof.
  induction k as [|k IH]; intros Hk.
  - reflexivity.
  - rewrite seq_S, fmap_app, concat_app, IH by lia.
    change (concat (band_bins L N <$> [(0 + k)%nat])) with (band_bins L N k ++ []).
    rewrite app_nil_r, band_bins_closed by lia.
    destruct (band_size_closed L N HN HNL HL k ltac:(lia)) as [Hs Hh].
    pose proof (band_offsets_bounds L N HN HNL HL k ltac:(lia)) as Hlo.
    destruct (div_mod_facts L N HN HNL) as (_ & _ & Hb).
    unfold band_hi, band_lo in *. rewrite Hh.
    rewrite seqZ_app; [done|lia|].
    rewrite Hs. destruct (Z.of_nat k <? L mod N); lia.
Qed.

End PartitionTheorems.

(** C2 (amended): for a spectrum of [L] bins and [N] bands with
    [1 ≤ N ≤ L] and [L] within the [int32] range of the [offsets] array,
    the partition computed by [extract_features] consists of [N]
    contiguous, ordered, non-empty index ranges whose concatenation is
    [0, 1, ..., L-1]; band [i] has [L / N + 1] bins when [i < L mod N] and
    [L / N] bins otherwise, so exactly [L mod N] bands have the larger size
    (which is the rounded-up quotient whenever there is a remainder). *)
Theorem band_partition_in_int32_range (L N : Z) :
  1 ≤ N → N ≤ L → L < 2 ^ 31 →
  length (band_offsets L N) = S (Z.to_nat N)
  ∧ band_lo L N 0 = 0
  ∧ band_offsets L N !!! Z.to_nat N = L
  ∧ (∀ i : nat, (i < Z.to_nat N)%nat →
       band_size L N i = L / N + (if Z.of_nat i <? L mod N then 1 else 0)
       ∧ 0 < band_size L N i
       ∧ band_lo L N i = Z.of_nat i * (L / N) + Z.min (Z.of_nat i) (L mod N)
       ∧ band_hi L N i = band_lo L N i + band_size L N i
       ∧ band_lo L N (S i) = band_hi L N i
       ∧ band_bins L N i = seqZ (band_lo L N i) (band_size L N i))
  ∧ concat (band_bins L N <$> seq 0 (Z.to_nat N)) = seqZ 0 L
  ∧ length (filter (λ i, band_size L N i = L / N + 1) (seq 0 (Z.to_nat N)))
    = Z.to_nat (L mod N)
  ∧ length (filter (λ i, band_size L N i = L / N) (seq 0 (Z.to_nat N)))
    = Z.to_nat (N - L mod N)
  ∧ (L mod N ≠ 0 → (L + N - 1) / N = L / N + 1).
Proof.
  intros HN HNL HL.
  destruct (div_mod_facts L N HN HNL) as (Hdm & Hr & Hb).
  assert (Hlast : band_offsets L N !!! Z.to_nat N = L).
  { rewrite band_offsets_closed by (done || lia).
    rewrite Z2Nat.id, Z.min_r by lia. lia. }
  assert (Hsize : ∀ i : nat, (i < Z.to_nat N)%nat →
            band_size L N i = L / N + (if Z.of_nat i <? L mod N then 1 else 0)).
  { intros i Hi. by destruct (band_size_closed L N HN HNL HL i Hi). }
  split; [apply band_offsets_length; lia|].
  split; [reflexivity|].
  split; [exact Hlast|].
  split.
  { intros i Hi. destruct (band_size_closed L N HN HNL HL i Hi) as [Hs Hh].
    split; [done|].
    split; [rewrite Hs; destruct (Z.of_nat i <? L mod N); lia|].
    split; [unfold band_lo; apply band_offsets_closed; (done || lia)|].
    split; [done|].
    split; [reflexivity|].
    by apply band_bins_closed. }
  split; [by rewrite bands_concat, Hlast|].
  split.
  { rewrite (filter_ext_elem _ (λ i : nat, (i < Z.to_nat (L mod N))%nat)).
    - rewrite filter_below_length. lia.
    - intros i Hi%elem_of_seq. rewrite Hsize by lia.
      destruct (Z.ltb_spec (Z.of_nat i) (L mod N)); lia. }
  split.
  { rewrite (filter_ext_elem _ (λ i : nat, ¬ (i < Z.to_nat (L mod N))%nat)).
    - rewrite filter_from_length. lia.
    - intros i Hi%elem_of_seq. rewrite Hsize by lia.
      destruct (Z.ltb_spec (Z.of_nat i) (L mod N)); lia. }
  intros Hne. symmetry. apply Z.div_unique with (r := L mod N - 1); lia.
Qed.

Lemma band_partition_witness :
  concat (band_bins 10 3 <$> seq 0 (Z.to_nat 3)) = seqZ 0 10
  ∧ (band_size 10 3 <$> seq 0 3) = [4; 3; 3].
Proof.
  split.
  - apply (band_partition_in_int32_range 10 3); lia.
  - reflexivity.
Defined.

(** C2, as stated, at [L = 2^31] and [N = 2]: the second running sum,
    [2^31], is stored in [int32] as [-2^31], and the slice
    [mag[2^30 : -2^31]] that the loop reads for band 1 is empty. *)
Lemma band_partition_wraps_at_2_31 :
  1 ≤ 2 ∧ 2 ≤ 2 ^ 31
  ∧ band_offsets (2 ^ 31) 2 = [0; 2 ^ 30; - 2 ^ 31]
  ∧ band_bins (2 ^ 31) 2 1 = []
  ∧ concat (band_bins (2 ^ 31) 2 <$> seq 0 2) = seqZ 0 (2 ^ 30).
Proof.
  assert (Ho : band_offsets (2 ^ 31) 2 = [0; 2 ^ 30; - 2 ^ 31]) by (vm_compute; reflexivity).
  assert (H1 : band_bins (2 ^ 31) 2 1 = []).
  { unfold band_bins, band_lo, band_hi. rewrite Ho.
    apply py_slice_empty. rewrite length_seqZ, Z2Nat.id by lia.
    vm_compute. discriminate. }
  assert (H0 : band_bins (2 ^ 31) 2 0 = seqZ 0 (2 ^ 30)).
  { unfold band_bins, band_lo, band_hi. rewrite Ho.
    change ([0; 2 ^ 30; - 2 ^ 31] !!! 0%nat) with 0.
    change ([0; 2 ^ 30; - 2 ^ 31] !!! 1%nat) with (2 ^ 30).
    rewrite py_slice_seqZ by lia. f_equal. }
  split; [lia|]. split; [lia|]. split; [exact Ho|]. split; [exact H1|].
  change (seq 0 2) with [0%nat; 1%nat].
  rewrite !fmap_cons, fmap_nil. cbn [concat]. rewrite H0, H1, !app_nil_r. reflexivity.
Qed.

(** * Properties of [extract_features] *)

Section FeatureFacts.
Context {np : NumPy}.

Lemma extract_features_unfold signal N : signal ≠ [] → 1 ≤ N →
  extract_features signal N =
    Ok ((λ i : nat, band_rms (magnitudes signal)
                      (band_lo (Z.of_nat (length (np_fft_rfft signal))) N i)
                      (band_hi (Z.of_nat (length (np_fft_rfft signal))) N i))
          <$> seq 0 (Z.to_nat N)).
Proof.
  intros Hs HN. unfold extract_features. destruct signal as [|x s]; [done|].
  rewrite (proj2 (Z.eqb_neq N 0)) by lia.
  rewrite (proj2 (Z.ltb_ge N 0)) by lia. reflexivity.
Qed.

Lemma magnitudes_length signal : signal ≠ [] →
  length (magnitudes signal) = length (np_fft_rfft signal).
Proof. intros _. unfold magnitudes. by rewrite length_fmap. Qed.

Lemma band_rms_empty mag lo : band_rms mag lo lo = S754_nan.
Proof.
  unfold band_rms. rewrite sub32_diag, py_slice_diag. simpl.
  rewrite np_sum_nil. reflexivity.
Qed.

Lemma sub32_zero_eq a b :
  - 2 ^ 31 ≤ a < 2 ^ 31 → - 2 ^ 31 ≤ b < 2 ^ 31 → sub32 a b = 0 → a = b.
Proof.
  intros Ha Hb. unfold sub32, wrap32. intros Hz.
  pose proof (Z.div_mod (a - b + 2 ^ 31) (2 ^ 32) ltac:(lia)) as Hdm.
  lia.
Qed.

Lemma band_bounds_int32 L N i : 0 < N → (i < Z.to_nat N)%nat →
  - 2 ^ 31 ≤ band_lo L N i < 2 ^ 31 ∧ - 2 ^ 31 ≤ band_hi L N i < 2 ^ 31.
Proof.
  intros HN Hi. unfold band_lo, band_hi.
  rewrite !band_offsets_total by lia. split; apply wrap32_range.
Qed.

(** With more bands than bins every entry of [freq_per_band] is [1] or [0]. *)
Lemma offset_sum_surplus L N i : 0 ≤ L → L < N →
  offset_sum L N i = Z.min (Z.of_nat i) L.
Proof.
  intros HL HLN. unfold offset_sum, big_band, small_band.
  rewrite Z.div_small, Z.mod_small by lia.
  change (wrap32 0) with 0. change (add32 0 1) with 1. lia.
Qed.

End FeatureFacts.

(** C10: for a signal with at least one sample and a band count [N ≥ 1],
    [extract_features] returns a vector of exactly [N] values, also when
    [N] exceeds the number [L] of spectrum bins. Entry [i] is the value the
    loop computes for band [i], from the magnitudes between [offsets[i]]
    and [offsets[i+1]]; the surplus entries, those from index [L] on, are
    the values of empty bands: the band has size zero, reads no bin, and
    its entry is NaN. *)
Theorem extract_features_length {np : NumPy} (signal : list float) (N : Z) :
  signal ≠ [] → 1 ≤ N →
  ∃ v, extract_features signal N = Ok v
    ∧ Z.of_nat (length v) = N
    ∧ (∀ i : nat, (i < Z.to_nat N)%nat →
         v !! i
         = Some (band_rms (magnitudes signal)
                   (band_lo (Z.of_nat (length (np_fft_rfft signal))) N i)
                   (band_hi (Z.of_nat (length (np_fft_rfft signal))) N i)))
    ∧ (∀ i : nat, (length (np_fft_rfft signal) ≤ i < Z.to_nat N)%nat →
         band_size (Z.of_nat (length (np_fft_rfft signal))) N i = 0
         ∧ band_bins (Z.of_nat (length (np_fft_rfft signal))) N i = []
         ∧ v !! i = Some S754_nan).
Proof.
  intros Hs HN. set (L := Z.of_nat (length (np_fft_rfft signal))) in *.
  eexists. split; [by apply extract_features_unfold|].
  split; [rewrite length_fmap, length_seq; lia|]. split.
  { intros i Hi. by rewrite list_lookup_fmap, lookup_seq_lt. }
  intros i [HLi Hi].
  assert (Heq : band_hi L N i = band_lo L N i).
  { unfold band_hi, band_lo. rewrite !band_offsets_total by lia.
    rewrite !offset_sum_surplus by lia. by rewrite !Z.min_r by lia. }
  split; [unfold band_size; rewrite Heq; apply sub32_diag|].
  split; [unfold band_bins; rewrite Heq; apply py_slice_diag|].
  rewrite list_lookup_fmap, lookup_seq_lt by done. simpl. fold L.
  by rewrite Heq, band_rms_empty.
Qed.

Lemma extract_features_length_witness :
  ∃ v, extract_features (np := Bench.numpy) [fone; ftwo; fone] 5 = Ok v
       ∧ Z.of_nat (length v) = 5
       ∧ v !! 2%nat = Some S754_nan
       ∧ v !! 3%nat = Some S754_nan
       ∧ v !! 4%nat = Some S754_nan.
Proof.
  destruct (extract_features_length (np := Bench.numpy) [fone; ftwo; fone] 5)
    as (v & Hv & Hlen & _ & Hnan); [done | lia |].
  exists v. split; [exact Hv|]. split; [exact Hlen|].
  split; [|split]; apply Hnan; simpl; lia.
Defined.

(** C6: when the band count [N] exceeds the number [L] of spectrum bins,
    the bands from index [L] on are empty (size zero, no bin read), and the
    value returned for every band of size zero is NaN: the loop computes
    [sqrt((1/0) * 0)]. Within the [int32] range the bands that read no bin
    are exactly those of size zero. *)
Theorem surplus_bands_are_nan {np : NumPy} (signal : list float) (N : Z) :
  signal ≠ [] →
  Z.of_nat (length (np_fft_rfft signal)) < N →
  ∃ v, extract_features signal N = Ok v
    ∧ (length (np_fft_rfft signal) < Z.to_nat N)%nat
    ∧ (∀ i : nat, (length (np_fft_rfft signal) ≤ i < Z.to_nat N)%nat →
         band_size (Z.of_nat (length (np_fft_rfft signal))) N i = 0)
    ∧ (∀ i : nat, (i < Z.to_nat N)%nat →
         band_size (Z.of_nat (length (np_fft_rfft signal))) N i = 0 →
         band_bins (Z.of_nat (length (np_fft_rfft signal))) N i = []
         ∧ v !! i = Some S754_nan)
    ∧ (Z.of_nat (length (np_fft_rfft signal)) < 2 ^ 31 →
       ∀ i : nat, (i < Z.to_nat N)%nat →
         band_bins (Z.of_nat (length (np_fft_rfft signal))) N i = [] →
         band_size (Z.of_nat (length (np_fft_rfft signal))) N i = 0).
Proof.
  intros Hs HLN. set (L := Z.of_nat (length (np_fft_rfft signal))) in *.
  assert (HL0 : 0 ≤ L) by (subst L; lia).
  assert (HN : 1 ≤ N) by lia.
  eexists. split; [by apply extract_features_unfold|].
  split; [lia|]. split.
  { intros i Hi. unfold band_size, band_hi, band_lo.
    rewrite !band_offsets_total by lia.
    rewrite !offset_sum_surplus by lia.
    rewrite !Z.min_r by lia. apply sub32_diag. }
  split.
  { intros i Hi Hz. unfold band_size in Hz.
    destruct (band_bounds_int32 L N i ltac:(lia) Hi) as [Hlo Hhi].
    apply sub32_zero_eq in Hz; [|done..].
    split.
    - unfold band_bins. rewrite Hz. apply py_slice_diag.
    - rewrite list_lookup_fmap, lookup_seq_lt by done. simpl.
      fold L. rewrite Hz. by rewrite band_rms_empty. }
  intros HL31 i Hi Hnil.
  destruct (decide (Z.of_nat i < L)) as [Hlt|Hge].
  - exfalso. unfold band_bins, band_lo, band_hi in Hnil.
    rewrite !band_offsets_total in Hnil by lia.
    rewrite !offset_sum_surplus in Hnil by lia.
    rewrite Z.min_l, wrap32_id in Hnil by lia.
    rewrite Z.min_l, wrap32_id in Hnil by lia.
    rewrite py_slice_seqZ in Hnil by lia.
    replace (Z.of_nat (S i) - Z.of_nat i) with 1 in Hnil by lia.
    discriminate Hnil.
  - unfold band_size, band_hi, band_lo.
    rewrite !band_offsets_total by lia.
    rewrite !offset_sum_surplus by lia.
    rewrite !Z.min_r by lia. apply sub32_diag.
Qed.

Lemma surplus_bands_are_nan_witness :
  ∃ v, extract_features (np := Bench.numpy) [fone; ftwo; fone] 4 = Ok v
    ∧ (∀ i : nat, (i < 4)%nat →
         band_size 2 4 i = 0 → band_bins 2 4 i = [] ∧ v !! i = Some S754_nan).
Proof.
  destruct (surplus_bands_are_nan (np := Bench.numpy) [fone; ftwo; fone] 4)
    as (v & Hv & _ & _ & Hnan & _); [done | vm_compute; reflexivity |].
  exists v. split; [exact Hv | exact Hnan].
Defined.

Lemma magnitudes_lookup {np : NumPy} (signal : list float) (k : nat) (c : complex) :
  np_fft_rfft signal !! k = Some c →
  magnitudes signal !! k
  = Some (fmul (fdiv fone (of_Z (Z.of_nat (length signal)))) (np_abs c)).
Proof. intros Hk. unfold magnitudes. by rewrite list_lookup_fmap, Hk. Qed.

(** C1 (amended): for a signal with at least one sample, whose spectrum has
    [L] bins with [L] within the [int32] range of the [offsets] array, and
    a band count [1 ≤ N ≤ L], [extract_features] returns exactly [N] values;
    the [i]-th one is the root mean square of the magnitudes of band [i]
    (the [L / N + 1] or [L / N] bins that start at bin
    [i * (L / N) + min i (L mod N)]), and the magnitudes are the moduli of
    the one-sided FFT scaled by [1 / len(signal)]. *)
Theorem extract_features_rms {np : NumPy} (signal : list float) (N : Z) :
  signal ≠ [] →
  1 ≤ N →
  N ≤ Z.of_nat (length (np_fft_rfft signal)) →
  Z.of_nat (length (np_fft_rfft signal)) < 2 ^ 31 →
  ∃ v, extract_features signal N = Ok v
    ∧ Z.of_nat (length v) = N
    ∧ length (magnitudes signal) = S (length signal / 2)
    ∧ (∀ (k : nat) (c : complex), np_fft_rfft signal !! k = Some c →
         magnitudes signal !! k
         = Some (fmul (fdiv fone (of_Z (Z.of_nat (length signal)))) (np_abs c)))
    ∧ (∀ i : nat, (i < Z.to_nat N)%nat →
         v !! i =
           Some (rms (take (Z.to_nat (band_length (Z.of_nat (length (np_fft_rfft signal))) N i))
                        (drop (Z.to_nat (band_start (Z.of_nat (length (np_fft_rfft signal))) N i))
                           (magnitudes signal))))).
Proof.
  intros Hs HN HNL HL. set (L := Z.of_nat (length (np_fft_rfft signal))) in *.
  eexists. split; [by apply extract_features_unfold|].
  split; [rewrite length_fmap, length_seq; lia|].
  split; [rewrite magnitudes_length, rfft_length by done; done|].
  split; [apply magnitudes_lookup|].
  intros i Hi. rewrite list_lookup_fmap, lookup_seq_lt by done. simpl. f_equal.
  fold L.
  destruct (band_size_closed L N HN HNL HL i Hi) as [Hsz Hhi].
  pose proof (band_offsets_closed L N HN HNL HL i ltac:(lia)) as Hlo.
  pose proof (band_offsets_bounds L N HN HNL HL i ltac:(lia)) as Hlob.
  pose proof (band_offsets_bounds L N HN HNL HL (S i) ltac:(lia)) as Hhib.
  fold (band_lo L N i) in Hlo, Hlob. fold (band_hi L N i) in Hhib.
  assert (Hpos : 0 ≤ band_size L N i).
  { rewrite Hsz. destruct (div_mod_facts L N HN HNL) as (_ & _ & Hb).
    destruct (Z.of_nat i <? L mod N); lia. }
  unfold band_rms, rms, mean. fold (band_size L N i).
  assert (Hslice : py_slice (magnitudes signal) (band_lo L N i) (band_hi L N i)
                   = take (Z.to_nat (band_length L N i))
                       (drop (Z.to_nat (band_start L N i)) (magnitudes signal))).
  { rewrite py_slice_in_range by (rewrite ?magnitudes_length by done; fold L; lia).
    unfold band_length, band_start. rewrite <- Hsz, <- Hlo. do 2 f_equal. lia. }
  rewrite Hslice, length_fmap.
  assert (Hlen : Z.of_nat (length (take (Z.to_nat (band_length L N i))
                    (drop (Z.to_nat (band_start L N i)) (magnitudes signal))))
                 = band_size L N i).
  { rewrite <- Hslice. rewrite py_slice_length
      by (rewrite ?magnitudes_length by done; fold L; lia). lia. }
  by rewrite Hlen.
Qed.

Lemma extract_features_rms_witness :
  ∃ v, extract_features (np := Bench.numpy) [fone; ftwo; fone; fzero; ftwo; fone] 3 = Ok v
    ∧ Z.of_nat (length v) = 3.
Proof.
  destruct (extract_features_rms (np := Bench.numpy)
              [fone; ftwo; fone; fzero; ftwo; fone] 3)
    as (v & Hv & Hlen & _); [done | lia | vm_compute; discriminate | vm_compute; reflexivity |].
  exists v. split; [exact Hv | exact Hlen].
Defined.

(** ** A signal too long for the [int32] offsets *)

Section LongSignal.
Variables a b : nat.
Hypothesis Ha : Z.of_nat a = 2 ^ 31 - 1.
Hypothesis Hb : Z.of_nat b = 2 ^ 31 - 2.

Lemma spike_length : Z.of_nat (length (Bench.spike a b)) = 2 ^ 32 - 2.
Proof.
  unfold Bench.spike. rewrite !length_app, !length_replicate. simpl length. lia.
Qed.

Lemma spike_rfft :
  Bench.rfft (Bench.spike a b) = replicate a (fzero, fzero) ++ [(fone, fzero)].
Proof.
  unfold Bench.rfft.
  assert (Hhalf : (length (Bench.spike a b) / 2)%nat = a).
  { pose proof spike_length as Hl.
    assert (Hla : length (Bench.spike a b) = (a * 2)%nat) by lia.
    rewrite Hla. apply Nat.div_mul. lia. }
  rewrite Hhalf. unfold Bench.spike. rewrite app_assoc.
  rewrite take_app_length' by (rewrite length_app, length_replicate; simpl; lia).
  by rewrite fmap_app, fmap_replicate.
Qed.

Lemma spike_magnitudes :
  magnitudes (np := Bench.numpy) (Bench.spike a b) = replicate a fzero ++ [Bench.long_peak].
Proof.
  unfold magnitudes. cbn [np_fft_rfft np_abs Bench.numpy].
  rewrite spike_length, spike_rfft, fmap_app, fmap_replicate. reflexivity.
Qed.

Lemma sum_left_zeros (xs : list float) :
  Forall (λ x, x = fzero) xs → Bench.sum_left (square <$> xs) = fzero.
Proof.
  unfold Bench.sum_left. induction 1 as [|x xs -> _ IH]; [done|].
  rewrite fmap_cons. exact IH.
Qed.

Lemma sum_left_spike (k : nat) (y : float) :
  Bench.sum_left (square <$> (replicate k fzero ++ [y])) = fadd fzero (square y).
Proof.
  unfold Bench.sum_left. rewrite fmap_app, foldl_app.
  fold (Bench.sum_left (square <$> replicate k fzero)).
  rewrite sum_left_zeros; [done|]. apply Forall_replicate. done.
Qed.

Lemma spike_rfft_length :
  Z.of_nat (length (np_fft_rfft (NumPy := Bench.numpy) (Bench.spike a b))) = 2 ^ 31.
Proof.
  cbn [np_fft_rfft Bench.numpy].
  rewrite spike_rfft, length_app, length_replicate. simpl length. lia.
Qed.

(** The loop reads bins [0 .. 2^30 - 1] for band 0 and no bin for band 1. *)
Lemma spike_features :
  extract_features (np := Bench.numpy) (Bench.spike a b) 2 = Ok [fzero; fzero].
Proof.
  rewrite extract_features_unfold by (unfold Bench.spike; try lia; by destruct a).
  rewrite spike_rfft_length, spike_magnitudes.
  change (seq 0 (Z.to_nat 2)) with [0%nat; 1%nat].
  rewrite !fmap_cons, fmap_nil. unfold band_rms. cbn [np_sum Bench.numpy].
  replace (band_lo (2 ^ 31) 2 0) with 0 by (vm_compute; reflexivity).
  replace (band_hi (2 ^ 31) 2 0) with (2 ^ 30) by (vm_compute; reflexivity).
  replace (band_lo (2 ^ 31) 2 1) with (2 ^ 30) by (vm_compute; reflexivity).
  replace (band_hi (2 ^ 31) 2 1) with (- 2 ^ 31) by (vm_compute; reflexivity).
  assert (Hlen : Z.of_nat (length (replicate a fzero ++ [Bench.long_peak])) = 2 ^ 31).
  { rewrite length_app, length_replicate. simpl length. lia. }
  assert (H0 : py_slice (replicate a fzero ++ [Bench.long_peak]) 0 (2 ^ 30)
               = replicate (Z.to_nat (2 ^ 30)) fzero).
  { rewrite py_slice_in_range by lia.
    rewrite Z.sub_0_r. change (Z.to_nat 0) with 0%nat. rewrite drop_0.
    rewrite take_app_le by (rewrite length_replicate; lia).
    rewrite take_replicate. f_equal. lia. }
  assert (H1 : py_slice (replicate a fzero ++ [Bench.long_peak]) (2 ^ 30) (- 2 ^ 31) = []).
  { apply py_slice_empty. rewrite Hlen. vm_compute. discriminate. }
  rewrite H0, H1.
  rewrite sum_left_zeros by (apply Forall_replicate; done).
  do 2 f_equal.
Qed.

(** The root mean square of the bins [2^30 .. 2^31 - 1] of band 1. *)
Lemma spike_band_1_rms :
  rms (np := Bench.numpy)
    (take (Z.to_nat (band_length (2 ^ 31) 2 1))
       (drop (Z.to_nat (band_start (2 ^ 31) 2 1))
          (magnitudes (np := Bench.numpy) (Bench.spike a b))))
  = fsqrt (fmul (fdiv fone (of_Z (2 ^ 30))) (fadd fzero (square Bench.long_peak))).
Proof.
  rewrite spike_magnitudes.
  replace (band_length (2 ^ 31) 2 1) with (2 ^ 30) by (vm_compute; reflexivity).
  replace (band_start (2 ^ 31) 2 1) with (2 ^ 30) by (vm_compute; reflexivity).
  rewrite drop_app_le by (rewrite length_replicate; lia).
  rewrite drop_replicate.
  rewrite take_ge by (rewrite length_app, length_replicate; simpl length; lia).
  unfold rms, mean. cbn [np_sum Bench.numpy].
  rewrite length_fmap, length_app, length_replicate. simpl length.
  replace (Z.of_nat (a - Z.to_nat (2 ^ 30) + 1)) with (2 ^ 30) by lia.
  by rewrite sum_left_spike.
Qed.

End LongSignal.

(** C1, as stated, at a signal of [2^32 - 2] samples and [N = 2]: the
    spectrum has [2^31] bins, so [1 ≤ N ≤ L]; the second offset wraps to
    [-2^31], the loop reads no bin for band 1 and returns [0] for it,
    while the root mean square of the bins of band 1, which hold the one
    non-zero magnitude, is not zero. *)
Lemma long_signal_band_is_lost :
  Bench.long_signal ≠ []
  ∧ 1 ≤ 2
  ∧ 2 ≤ Z.of_nat (length (np_fft_rfft (NumPy := Bench.numpy) Bench.long_signal))
  ∧ extract_features (np := Bench.numpy) Bench.long_signal 2 = Ok [fzero; fzero]
  ∧ rms (np := Bench.numpy)
      (take (Z.to_nat (band_length (2 ^ 31) 2 1))
         (drop (Z.to_nat (band_start (2 ^ 31) 2 1))
            (magnitudes (np := Bench.numpy) Bench.long_signal)))
    = fsqrt (fmul (fdiv fone (of_Z (2 ^ 30)))
               (fadd fzero
                  (square Bench.long_peak)))
  ∧ is_zero (fsqrt (fmul (fdiv fone (of_Z (2 ^ 30)))
               (fadd fzero
                  (square Bench.long_peak))))
    = false.
Proof.
  assert (Ha : Z.of_nat (Z.to_nat (2 ^ 31 - 1)) = 2 ^ 31 - 1) by (apply Z2Nat.id; lia).
  assert (Hb : Z.of_nat (Z.to_nat (2 ^ 31 - 2)) = 2 ^ 31 - 2) by (apply Z2Nat.id; lia).
  unfold Bench.long_signal.
  split.
  { unfold Bench.spike. intros Hnil. apply app_eq_nil in Hnil as [_ Hnil].
    discriminate Hnil. }
  split; [lia|].
  split; [rewrite (spike_rfft_length _ _ Ha Hb); lia|].
  split; [exact (spike_features _ _ Ha Hb)|].
  split; [exact (spike_band_1_rms _ _ Ha Hb)|].
  vm_compute. reflexivity.
Qed.

(** * Properties of [generate_noisy_signal] *)

Section GridFacts.

Lemma np_linspace_negative T N : N < 0 → np_linspace T N = Raise ValueError.
Proof. intros HN. unfold np_linspace. by rewrite (proj2 (Z.ltb_lt N 0)). Qed.

(** The [k]-th point of the grid [np.linspace(0, T, N, endpoint=False)]. *)
Lemma np_linspace_ok T N : 0 ≤ N →
  ∃ t, np_linspace T N = Ok t
    ∧ length t = Z.to_nat N
    ∧ ∀ k : nat, (k < Z.to_nat N)%nat → t !! k = Some (grid_point T N k).
Proof.
  intros HN. unfold np_linspace. rewrite (proj2 (Z.ltb_ge N 0)) by lia.
  eexists. split; [reflexivity|]. split.
  - destruct (feqb _ _); by rewrite !length_fmap, length_seqZ.
  - intros k Hk. unfold grid_point.
    destruct (feqb _ _);
      rewrite !list_lookup_fmap, lookup_seqZ_lt by lia; simpl;
      by rewrite Z.add_0_l.
Qed.

End GridFacts.

Section SumFacts.

Lemma foldl_zip_with_lookup (rest : list (list float)) :
  ∀ (init : list float) (k : nat) (x : float),
  init !! k = Some x →
  Forall (λ w, length w = length init) rest →
  foldl (zip_with fadd) init rest !! k
  = Some (foldl fadd x ((λ w, w !!! k) <$> rest)).
Proof.
  induction rest as [|w rest IH]; intros init k x Hk Hlen; simpl; [done|].
  apply Forall_cons in Hlen as [Hw Hrest].
  assert (Hkw : (k < length w)%nat) by (rewrite Hw; by eapply lookup_lt_Some).
  destruct (lookup_lt_is_Some_2 w k Hkw) as [y Hy].
  apply IH.
  - rewrite lookup_zip_with, Hk, Hy. simpl.
    by rewrite (list_lookup_total_correct _ _ _ Hy).
  - eapply Forall_impl; [exact Hrest|]. intros w' Hw'. simpl in Hw'.
    rewrite length_zip_with_l_eq by done. done.
Qed.

Lemma foldl_zip_with_length (rest : list (list float)) :
  ∀ init : list float,
  Forall (λ w, length w = length init) rest →
  length (foldl (zip_with fadd) init rest) = length init.
Proof.
  induction rest as [|w rest IH]; intros init Hlen; simpl; [done|].
  apply Forall_cons in Hlen as [Hw Hrest].
  rewrite IH; [by rewrite length_zip_with_l_eq|].
  eapply Forall_impl; [exact Hrest|]. intros w' Hw'. simpl in Hw'.
  by rewrite length_zip_with_l_eq.
Qed.

Lemma add_sum_length (n : list float) (arrays : list (list float)) :
  Forall (λ w, length w = length n) arrays →
  length (add_sum n arrays) = length n.
Proof.
  intros Hlen. unfold add_sum, py_sum. destruct arrays as [|a rest].
  - by rewrite length_fmap.
  - apply Forall_cons in Hlen as [Ha Hrest].
    rewrite length_zip_with_l_eq; [done|].
    rewrite foldl_zip_with_length; rewrite length_fmap; [done|].
    eapply Forall_impl; [exact Hrest|]. simpl. congruence.
Qed.

(** Element [k] of [n + sum(arrays)]: the [k]-th entries are added from the
    left, starting from zero, and the total is added to [n[k]]. *)
Lemma add_sum_lookup (n : list float) (arrays : list (list float)) (k : nat) (x : float) :
  n !! k = Some x →
  Forall (λ w, length w = length n) arrays →
  add_sum n arrays !! k
  = Some (fadd x (foldl fadd fzero ((λ w, w !!! k) <$> arrays))).
Proof.
  intros Hk Hlen. unfold add_sum, py_sum. destruct arrays as [|a rest].
  - by rewrite list_lookup_fmap, Hk.
  - apply Forall_cons in Hlen as [Ha Hrest].
    assert (Hka : (k < length a)%nat) by (rewrite Ha; by eapply lookup_lt_Some).
    destruct (lookup_lt_is_Some_2 a k Hka) as [y Hy].
    rewrite lookup_zip_with, Hk. simpl.
    erewrite foldl_zip_with_lookup.
    + simpl. by rewrite (list_lookup_total_correct _ _ _ Hy).
    + by rewrite list_lookup_fmap, Hy.
    + eapply Forall_impl; [exact Hrest|]. simpl. intros w' Hw'.
      rewrite length_fmap. congruence.
Qed.

End SumFacts.

Section SignalFacts.
Context {np : NumPy} {rng : RandomState}.

(** The summand of one (amplitude, frequency, phase) triple at time [tk]. *)
Lemma cosine_wave_lookup t A f p k tk : t !! k = Some tk →
  cosine_wave t A f p !! k = Some (wave_at tk (A, (f, p))).
Proof. intros Hk. unfold cosine_wave. by rewrite list_lookup_fmap, Hk. Qed.

Lemma cosine_wave_length t A f p : length (cosine_wave t A f p) = length t.
Proof. unfold cosine_wave. by rewrite length_fmap. Qed.

Lemma waves_length (t n : list float) (triples : list (float * (float * float))) :
  length n = length t →
  Forall (λ w, length w = length n)
    ((λ '(A, (f, p)), cosine_wave t A f p) <$> triples).
Proof.
  intros Hn. apply Forall_fmap, Forall_forall. intros [A [f p]] _. simpl.
  by rewrite cosine_wave_length.
Qed.

Lemma waves_column (t : list float) (triples : list (float * (float * float))) k tk :
  t !! k = Some tk →
  (λ w, w !!! k) <$> ((λ '(A, (f, p)), cosine_wave t A f p) <$> triples)
  = wave_at tk <$> triples.
Proof.
  intros Hk. rewrite <- list_fmap_compose. apply list_fmap_ext.
  intros _ [A [f p]] _. simpl. apply list_lookup_total_correct.
  by apply cosine_wave_lookup.
Qed.

(** The call, statement by statement. *)
Lemma generate_noisy_signal_unfold sample_frequency amplitudes frequencies phases noise T w :
  generate_noisy_signal sample_frequency amplitudes frequencies phases noise T w =
    match float_of_int sample_frequency with
    | Raise e => (Raise e, w)
    | Ok fs =>
      match py_int (fmul T fs) with
      | Raise e => (Raise e, w)
      | Ok N =>
        match np_linspace T N with
        | Raise e => (Raise e, w)
        | Ok t =>
          if bool_decide (length frequencies = length phases)
             && bool_decide (length amplitudes = length phases)
          then
            (Ok (t, add_sum (fmul noise <$> (rng_randn (length t) (np_random w)).1)
                      ((λ '(A, (f, p)), cosine_wave t A f p)
                         <$> zip amplitudes (zip frequencies phases))),
             mkWorld (rng_randn (length t) (np_random w)).2 (rs w))
          else (Raise AssertionError, w)
        end
      end
    end.
Proof.
  unfold generate_noisy_signal, mbind, M_bind, lift, py_assert, np_random_randn,
    mret, M_ret, raise.
  destruct (float_of_int sample_frequency) as [fs|e]; [|done].
  destruct (py_int (fmul T fs)) as [N|e]; [|done].
  destruct (np_linspace T N) as [t|e]; [|done].
  destruct (bool_decide (length frequencies = length phases)); [|done].
  destruct (bool_decide (length amplitudes = length phases)); [|done].
  simpl. destruct (rng_randn (length t) (np_random w)) as [z g]. reflexivity.
Qed.

End SignalFacts.

(** C3: for equal-length amplitude, frequency and phase arrays, a sample
    rate [fs] and a duration [T] whose product truncates to a length
    [N ≥ 0], [generate_noisy_signal] returns the grid
    [np.linspace(0, T, N, endpoint=False)] of [N] points (point [k] is [k]
    steps of [T / N] from zero) and a signal of [N] values; the value at
    time step [t_k] is the [k]-th of the [N] draws of [np.random.randn]
    times the noise parameter, plus the sum over the triples of
    [A * cos(2*pi*f*t_k + p)]. *)
Theorem generate_noisy_signal_values {np : NumPy} {rng : RandomState}
    (sample_frequency : Z) (amplitudes frequencies phases : list float)
    (noise T : float) (w : World) (fs : float) (N : Z) :
  length amplitudes = length frequencies →
  length frequencies = length phases →
  float_of_int sample_frequency = Ok fs →
  py_int (fmul T fs) = Ok N →
  0 ≤ N →
  ∃ t signal,
    (generate_noisy_signal sample_frequency amplitudes frequencies phases noise T w).1
      = Ok (t, signal)
    ∧ np_linspace T N = Ok t
    ∧ Z.of_nat (length t) = N
    ∧ Z.of_nat (length signal) = N
    ∧ ∀ k : nat, (k < Z.to_nat N)%nat →
        ∃ zk, (rng_randn (Z.to_nat N) (np_random w)).1 !! k = Some zk
          ∧ t !! k = Some (grid_point T N k)
          ∧ signal !! k =
              Some (fadd (fmul noise zk)
                      (foldl fadd fzero
                         (wave_at (grid_point T N k)
                            <$> zip amplitudes (zip frequencies phases)))).
Proof.
  intros Haf Hfp Hfs HN HN0.
  destruct (np_linspace_ok T N HN0) as (t & Ht & Hlen & Hgrid).
  rewrite generate_noisy_signal_unfold, Hfs, HN, Ht.
  rewrite !bool_decide_eq_true_2 by congruence. simpl.
  set (z := (rng_randn (length t) (np_random w)).1).
  assert (Hz : length z = length t) by apply randn_length.
  assert (Hn : length (fmul noise <$> z) = length t) by by rewrite length_fmap.
  eexists _, _. split; [reflexivity|]. split; [done|]. split; [lia|].
  split.
  { rewrite add_sum_length by by apply waves_length. lia. }
  intros k Hk.
  destruct (lookup_lt_is_Some_2 z k ltac:(lia)) as [zk Hzk].
  exists zk. split; [by rewrite <- Hlen|]. split; [by apply Hgrid|].
  erewrite add_sum_lookup.
  - by rewrite (waves_column _ _ _ _ (Hgrid k Hk)).
  - by rewrite list_lookup_fmap, Hzk.
  - by apply waves_length.
Qed.

Lemma generate_noisy_signal_values_witness :
  ∃ t signal,
    (generate_noisy_signal (np := Bench.numpy) (rng := Bench.generator)
       16 [fone] [ftwo] [fzero] fzero fone (Bench.world 1 2)).1 = Ok (t, signal)
    ∧ Z.of_nat (length t) = 16 ∧ Z.of_nat (length signal) = 16.
Proof.
  destruct (generate_noisy_signal_values (np := Bench.numpy) (rng := Bench.generator)
              16 [fone] [ftwo] [fzero] fzero fone (Bench.world 1 2) (of_Z 16) 16)
    as (t & signal & Hrun & _ & Ht & Hs & _);
    [reflexivity | reflexivity | reflexivity | reflexivity | lia |].
  exists t, signal. split; [exact Hrun|]. split; [exact Ht | exact Hs].
Defined.

(** C5, as stated, at [T = -1]: the arrays differ in length, yet
    [np.linspace] refuses the negative sample count before the assertions
    are reached and the call ends in a [ValueError]. *)
Lemma mismatch_after_negative_duration :
  generate_noisy_signal (np := Bench.numpy) (rng := Bench.generator)
    1 [fone] [] [] fone (of_Z (-1)) (Bench.world 0 0)
  = (Raise ValueError, Bench.world 0 0).
Proof. reflexivity. Qed.

(** C5 (amended): when the amplitude, frequency and phase arrays do not all
    have the same length the call returns no signal and leaves both
    generators as they were; it ends in an assertion failure whenever the
    time grid can be built, that is whenever [int(T * fs)] is defined and
    not negative, and otherwise in the error met while building the grid. *)
Theorem mismatched_lengths_fail {np : NumPy} {rng : RandomState}
    (sample_frequency : Z) (amplitudes frequencies phases : list float)
    (noise T : float) (w : World) :
  ¬ (length amplitudes = length frequencies ∧ length frequencies = length phases) →
  (∃ e, generate_noisy_signal sample_frequency amplitudes frequencies phases noise T w
        = (Raise e, w))
  ∧ (∀ fs N, float_of_int sample_frequency = Ok fs → py_int (fmul T fs) = Ok N → 0 ≤ N →
       generate_noisy_signal sample_frequency amplitudes frequencies phases noise T w
       = (Raise AssertionError, w)).
Proof.
  intros Hne.
  assert (Hb : bool_decide (length frequencies = length phases)
               && bool_decide (length amplitudes = length phases) = false).
  { apply andb_false_iff.
    destruct (decide (length frequencies = length phases)) as [Heq|Hneq].
    - right. apply bool_decide_eq_false_2. intros Ha. apply Hne. split; congruence.
    - left. by apply bool_decide_eq_false_2. }
  rewrite generate_noisy_signal_unfold, Hb. split.
  - destruct (float_of_int sample_frequency) as [fs|e]; [|by exists e].
    destruct (py_int (fmul T fs)) as [N|e]; [|by exists e].
    destruct (np_linspace T N) as [t|e]; [|by exists e].
    by exists AssertionError.
  - intros fs N -> -> HN.
    by destruct (np_linspace_ok T N HN) as (t & -> & _).
Qed.

Lemma mismatched_lengths_fail_witness :
  generate_noisy_signal (np := Bench.numpy) (rng := Bench.generator)
    16 [fone; fone] [ftwo] [fzero] fone fone (Bench.world 1 2)
  = (Raise AssertionError, Bench.world 1 2).
Proof.
  apply (proj2 (mismatched_lengths_fail (np := Bench.numpy) (rng := Bench.generator)
                  16 [fone; fone] [ftwo] [fzero] fone fone (Bench.world 1 2)
                  ltac:(simpl; lia)) (of_Z 16) 16);
    [reflexivity | reflexivity | lia].
Defined.



(** * Facts of binary64 arithmetic *)

Section Rounding.

Lemma fexp_ge_emin e : emin prec emax ≤ fexp prec emax e.
Proof. unfold fexp. lia. Qed.

Lemma digits2_pos_bound p : 2 ^ (Z.pos (digits2_pos p) - 1) ≤ Z.pos p.
Proof.
  induction p as [p IH|p IH|]; simpl digits2_pos.
  - rewrite Pos2Z.inj_succ. replace (Z.succ (Z.pos (digits2_pos p)) - 1)
      with (Z.succ (Z.pos (digits2_pos p) - 1)) by lia.
    rewrite Z.pow_succ_r by lia. lia.
  - rewrite Pos2Z.inj_succ. replace (Z.succ (Z.pos (digits2_pos p)) - 1)
      with (Z.succ (Z.pos (digits2_pos p) - 1)) by lia.
    rewrite Z.pow_succ_r by lia. lia.
  - simpl. lia.
Qed.

Lemma shr_1_m mrs : 0 ≤ shr_m mrs → shr_m (shr_1 mrs) = shr_m mrs / 2.
Proof.
  destruct mrs as [m r s]. simpl. intros Hm.
  destruct m as [|p|p]; [done| |lia].
  destruct p as [p|p|]; simpl.
  - rewrite Pos2Z.inj_xI. apply Z.div_unique with (r := 1); lia.
  - rewrite Pos2Z.inj_xO. apply Z.div_unique with (r := 0); lia.
  - reflexivity.
Qed.

Lemma iter_shr_1_m p : ∀ mrs, 0 ≤ shr_m mrs →
  shr_m (SpecFloat.iter_pos shr_1 p mrs) = shr_m mrs / 2 ^ Z.pos p.
Proof.
  induction p as [p IH|p IH|]; intros mrs Hm; simpl SpecFloat.iter_pos.
  - assert (H1 : 0 ≤ shr_m (shr_1 mrs)).
    { rewrite shr_1_m by done. apply Z.div_pos; lia. }
    assert (H2 : 0 ≤ shr_m (SpecFloat.iter_pos shr_1 p (shr_1 mrs))).
    { rewrite IH by done. apply Z.div_pos; lia. }
    rewrite IH, IH, shr_1_m by done.
    rewrite !Z.div_div by lia. f_equal.
    replace (Z.pos p~1) with (1 + Z.pos p + Z.pos p) by lia.
    rewrite !Z.pow_add_r by lia. change (2 ^ 1) with 2. lia.
  - assert (H2 : 0 ≤ shr_m (SpecFloat.iter_pos shr_1 p mrs)).
    { rewrite IH by done. apply Z.div_pos; lia. }
    rewrite IH, IH by done.
    rewrite !Z.div_div by lia. f_equal.
    replace (Z.pos p~0) with (Z.pos p + Z.pos p) by lia.
    rewrite !Z.pow_add_r by lia. lia.
  - rewrite shr_1_m by done. reflexivity.
Qed.

End Rounding.

Section RoundingResults.

Lemma shr_record_of_loc_m m l : shr_m (shr_record_of_loc m l) = m.
Proof. by destruct l as [|[]]. Qed.

Lemma shr_fexp_exp m e l : emin prec emax ≤ (shr_fexp prec emax m e l).2.
Proof.
  unfold shr_fexp, shr. pose proof (fexp_ge_emin (Zdigits2 m + e)) as Hf.
  destruct (fexp prec emax (Zdigits2 m + e) - e) eqn:Hn; simpl; lia.
Qed.

Lemma shr_fexp_pos m e l : 0 < m → emin prec emax ≤ e →
  0 < shr_m (shr_fexp prec emax m e l).1.
Proof.
  intros Hm He. unfold shr_fexp, shr.
  destruct (fexp prec emax (Zdigits2 m + e) - e) as [|q|q] eqn:Hn; simpl;
    rewrite ?shr_record_of_loc_m; try done.
  rewrite iter_shr_1_m by (rewrite shr_record_of_loc_m; lia).
  rewrite shr_record_of_loc_m.
  destruct m as [|p|p]; try lia. simpl Zdigits2 in Hn.
  pose proof (digits2_pos_bound p) as Hd.
  assert (Hq : Z.pos q ≤ Z.pos (digits2_pos p) - 1).
  { unfold fexp, emin, prec, emax in *. lia. }
  apply Z.div_str_pos. split; [lia|].
  etrans; [|exact Hd]. apply Z.pow_le_mono_r; lia.
Qed.

Lemma round_nearest_even_ge m l : m ≤ round_nearest_even m l.
Proof. destruct l as [|[]]; simpl; try destruct (Z.even m); lia. Qed.

Lemma binary_round_aux_nonzero sx m e l s :
  0 < m → emin prec emax ≤ e →
  binary_round_aux prec emax sx m e l ≠ S754_zero s.
Proof.
  intros Hm He. unfold binary_round_aux.
  pose proof (shr_fexp_pos m e l Hm He) as H1.
  pose proof (shr_fexp_exp m e l) as H1e.
  destruct (shr_fexp prec emax m e l) as [mrs' e']. simpl in H1, H1e.
  pose proof (round_nearest_even_ge (shr_m mrs') (loc_of_shr_record mrs')) as Hr.
  pose proof (shr_fexp_pos (round_nearest_even (shr_m mrs') (loc_of_shr_record mrs'))
                e' loc_Exact ltac:(lia) H1e) as H2.
  destruct (shr_fexp prec emax _ e' loc_Exact) as [mrs'' e'']. simpl in H2.
  destruct (shr_m mrs''); [lia| |done].
  by destruct (e'' <=? emax - prec).
Qed.

Lemma binary_round_aux_emin_ok sx m e l : emin_ok (binary_round_aux prec emax sx m e l).
Proof.
  unfold binary_round_aux.
  destruct (shr_fexp prec emax m e l) as [mrs' e'].
  pose proof (shr_fexp_exp (round_nearest_even (shr_m mrs') (loc_of_shr_record mrs'))
                e' loc_Exact) as H2.
  destruct (shr_fexp prec emax _ e' loc_Exact) as [mrs'' e'']. simpl in H2.
  destruct (shr_m mrs''); [done| |done].
  by destruct (e'' <=? emax - prec).
Qed.

Lemma binary_round_aux_sign sx m e l :
  binary_round_aux prec emax sx m e l ≠ S754_zero (negb sx).
Proof.
  unfold binary_round_aux.
  destruct (shr_fexp prec emax m e l) as [mrs' e'].
  destruct (shr_fexp prec emax _ e' loc_Exact) as [mrs'' e''].
  destruct (shr_m mrs''); [by destruct sx| |done].
  by destruct (e'' <=? emax - prec).
Qed.

Lemma shl_align_exp mx ex ex' :
  emin prec emax ≤ ex → emin prec emax ≤ ex' → emin prec emax ≤ (shl_align mx ex ex').2.
Proof. intros. unfold shl_align. by destruct (ex' - ex). Qed.

Lemma binary_round_nonzero sx mx ex s :
  emin prec emax ≤ ex → binary_round prec emax sx mx ex ≠ S754_zero s.
Proof.
  intros He. unfold binary_round.
  pose proof (shl_align_exp mx ex (fexp prec emax (Z.pos (digits2_pos mx) + ex)) He
                (fexp_ge_emin _)) as Ha.
  destruct (shl_align mx ex _) as [mz ez]. simpl in Ha.
  by apply binary_round_aux_nonzero.
Qed.

Lemma binary_round_sign sx mx ex :
  binary_round prec emax sx mx ex ≠ S754_zero (negb sx).
Proof.
  unfold binary_round. destruct (shl_align mx ex _) as [mz ez].
  apply binary_round_aux_sign.
Qed.

Lemma binary_round_emin_ok sx mx ex : emin_ok (binary_round prec emax sx mx ex).
Proof.
  unfold binary_round. destruct (shl_align mx ex _) as [mz ez].
  apply binary_round_aux_emin_ok.
Qed.

Lemma binary_normalize_not_neg_zero m e :
  emin prec emax ≤ e → binary_normalize prec emax m e false ≠ neg_zero.
Proof.
  intros He. destruct m as [|p|p]; simpl.
  - done.
  - apply (binary_round_sign false).
  - by apply binary_round_nonzero.
Qed.

Lemma binary_normalize_emin_ok m e s : emin_ok (binary_normalize prec emax m e s).
Proof. destruct m; simpl; [done|apply binary_round_emin_ok..]. Qed.

Lemma fmul_emin_ok x y : emin_ok (fmul x y).
Proof.
  destruct x as [sx|sx| |sx mx ex], y as [sy|sy| |sy my ey]; try done.
  apply binary_round_aux_emin_ok.
Qed.

Lemma fadd_emin_ok x y : emin_ok x → emin_ok y → emin_ok (fadd x y).
Proof.
  intros Hx Hy.
  destruct x as [sx|sx| |sx mx ex], y as [sy|sy| |sy my ey];
    try done; try (by destruct sx, sy).
  apply binary_normalize_emin_ok.
Qed.

(** A sum is the negative zero only when both summands are. *)
Lemma fadd_not_neg_zero x y :
  emin_ok x → emin_ok y → x ≠ neg_zero → fadd x y ≠ neg_zero.
Proof.
  intros Hx Hy Hnz.
  destruct x as [sx|sx| |sx mx ex], y as [sy|sy| |sy my ey];
    try done; try (by destruct sx, sy).
  simpl in Hx, Hy. apply binary_normalize_not_neg_zero. lia.
Qed.

Lemma fadd_zero_l z y : is_zero z = true → y ≠ neg_zero → fadd z y = y.
Proof.
  intros Hz Hy. destruct z as [sz| | |]; try done.
  destruct y as [sy|sy| |sy my ey]; try done.
  destruct sz, sy; done.
Qed.

Lemma fadd_zero_zero z : is_zero z = true → fadd z fzero = fzero.
Proof. intros Hz. destruct z as [[]| | |]; done. Qed.

Lemma fadd_fzero_not_neg_zero y : fadd fzero y ≠ neg_zero.
Proof. destruct y as [[]|sy| |sy my ey]; done. Qed.

Lemma fadd_fzero_emin_ok y : emin_ok y → emin_ok (fadd fzero y).
Proof. intros Hy. by apply fadd_emin_ok. Qed.

Lemma fmul_zero_finite a z :
  is_zero a = true → is_finite z = true → is_zero (fmul a z) = true.
Proof.
  intros Ha Hz. destruct a as [sa| | |]; try done.
  by destruct z as [sz|sz| |sz mz ez].
Qed.

End RoundingResults.

Section NoiseFree.
Context {np : NumPy} {rng : RandomState}.


Lemma zip_with_fadd_summed (acc w : list float) :
  Forall summed acc → Forall emin_ok w → Forall summed (zip_with fadd acc w).
Proof.
  intros Hacc. revert w. induction Hacc as [|x acc [Hx Hnz] _ IH]; intros w Hw; [done|].
  destruct Hw as [|y w Hy Hw]; [done|]. simpl. constructor; [|by apply IH].
  split; [by apply fadd_emin_ok | by apply fadd_not_neg_zero].
Qed.

Lemma foldl_zip_with_summed (rest : list (list float)) : ∀ acc,
  Forall summed acc → Forall (Forall emin_ok) rest →
  Forall summed (foldl (zip_with fadd) acc rest).
Proof.
  induction rest as [|w rest IH]; intros acc Hacc Hrest; simpl; [done|].
  apply Forall_cons in Hrest as [Hw Hrest].
  apply IH; [by apply zip_with_fadd_summed | done].
Qed.

Lemma zip_with_fadd_zeros (n s : list float) :
  Forall (λ x, is_zero x = true) n → Forall summed s → length n = length s →
  zip_with fadd n s = s.
Proof.
  intros Hn. revert s. induction Hn as [|x n Hx _ IH]; intros s Hs Hlen.
  - by destruct s.
  - destruct Hs as [|y s [_ Hy] Hs]; [done|]. simpl.
    rewrite fadd_zero_l by done. f_equal. apply IH; [done|]. simpl in Hlen. lia.
Qed.

Lemma fmap_fadd_zeros (n : list float) :
  Forall (λ x, is_zero x = true) n →
  (λ x, fadd x fzero) <$> n = replicate (length n) fzero.
Proof.
  induction 1 as [|x n Hx _ IH]; [done|].
  rewrite fmap_cons, IH, fadd_zero_zero by done. reflexivity.
Qed.

(** With a noise array of zeros, [n + sum(arrays)] depends on the length
    of [n] only. *)
Lemma add_sum_zeros (n : list float) (arrays : list (list float)) :
  Forall (λ x, is_zero x = true) n →
  Forall (λ w, length w = length n) arrays →
  Forall (Forall emin_ok) arrays →
  add_sum n arrays =
    match py_sum arrays with
    | None => replicate (length n) fzero
    | Some s => s
    end.
Proof.
  intros Hn Hlen Hok. unfold add_sum, py_sum. destruct arrays as [|a rest].
  - by apply fmap_fadd_zeros.
  - apply Forall_cons in Hlen as [Ha Hrest]. apply Forall_cons in Hok as [Hoka Hokr].
    apply zip_with_fadd_zeros; [done| |].
    + apply foldl_zip_with_summed; [|done].
      apply Forall_fmap. eapply Forall_impl; [exact Hoka|].
      intros y Hy. split; [by apply fadd_fzero_emin_ok | apply fadd_fzero_not_neg_zero].
    + rewrite foldl_zip_with_length; rewrite length_fmap; [done|].
      eapply Forall_impl; [exact Hrest|]. simpl. congruence.
Qed.

Lemma waves_emin_ok (t : list float) (triples : list (float * (float * float))) :
  Forall (Forall emin_ok) ((λ '(A, (f, p)), cosine_wave t A f p) <$> triples).
Proof.
  apply Forall_fmap, Forall_forall. intros [A [f p]] _. simpl.
  unfold cosine_wave. apply Forall_fmap, Forall_forall. intros tk _. simpl.
  apply fmul_emin_ok.
Qed.

Lemma zero_noise (noise : float) (z : list float) :
  is_zero noise = true → Forall (λ x, is_finite x = true) z →
  Forall (λ x, is_zero x = true) (fmul noise <$> z).
Proof.
  intros Hn Hz. apply Forall_fmap. eapply Forall_impl; [exact Hz|].
  intros x Hx. simpl. by apply fmul_zero_finite.
Qed.

End NoiseFree.

(** C8: with a noise scale of zero (of either sign), two calls of
    [generate_noisy_signal] with the same amplitudes, frequencies, phases,
    duration and sample rate give the same result bit for bit, whatever
    the states of the random generators: the same error, or the same grid
    with the same signal. The noise term [0 * randn] is a zero of either
    sign in every sample and adding it changes no bit of the sum of the
    cosines, which is never the negative zero. *)
Theorem noise_free_signal_deterministic {np : NumPy} {rng : RandomState}
    (sample_frequency : Z) (amplitudes frequencies phases : list float)
    (noise T : float) (w1 w2 : World) :
  is_zero noise = true →
  (generate_noisy_signal sample_frequency amplitudes frequencies phases noise T w1).1
  = (generate_noisy_signal sample_frequency amplitudes frequencies phases noise T w2).1.
Proof.
  intros Hnoise. rewrite !generate_noisy_signal_unfold.
  destruct (float_of_int sample_frequency) as [fs|e]; [|done].
  destruct (py_int (fmul T fs)) as [N|e]; [|done].
  destruct (np_linspace T N) as [t|e]; [|done].
  destruct (_ && _); [|done]. simpl. do 2 f_equal.
  rewrite !add_sum_zeros;
    try (apply zero_noise; [done | apply randn_finite]);
    try (apply waves_length; rewrite length_fmap; apply randn_length);
    try apply waves_emin_ok.
  by rewrite !length_fmap, !randn_length.
Qed.

Lemma noise_free_signal_deterministic_witness :
  (generate_noisy_signal (np := Bench.numpy) (rng := Bench.generator)
     16 [fone] [ftwo] [fzero] fzero fone (Bench.world 1 2)).1
  = (generate_noisy_signal (np := Bench.numpy) (rng := Bench.generator)
       16 [fone] [ftwo] [fzero] fzero fone (Bench.world 7 9)).1.
Proof.
  apply (noise_free_signal_deterministic (np := Bench.numpy) (rng := Bench.generator)).
  reflexivity.
Defined.

(** * Properties of [generate_database] *)

Section DatabaseFacts.
Context {np : NumPy} {rng : RandomState}.

Lemma bind_run {A B} (m : M A) (f : A → M B) (w : World) :
  (m ≫= f) w =
    match m w with
    | (Ok a, w') => f a w'
    | (Raise e, w') => (Raise e, w')
    end.
Proof. reflexivity. Qed.

Lemma rs_draw_run {A} (draw : nat → rng_state → list A * rng_state) (size : Z) (w : World) :
  0 ≤ size →
  rs_draw draw size w
  = (Ok (draw (Z.to_nat size) (rs w)).1,
     mkWorld (np_random w) (draw (Z.to_nat size) (rs w)).2).
Proof.
  intros Hs. unfold rs_draw. rewrite (proj2 (Z.ltb_ge size 0)) by lia.
  by destruct (draw (Z.to_nat size) (rs w)).
Qed.

Lemma rs_draw_negative {A} (draw : nat → rng_state → list A * rng_state) (size : Z) (w : World) :
  size < 0 → rs_draw draw size w = (Raise ValueError, w).
Proof. intros Hs. unfold rs_draw. by rewrite (proj2 (Z.ltb_lt size 0)). Qed.

Lemma for_each_Forall2 {A B} (body : A → M B) (P : A → B → Prop) (l : list A) :
  (∀ x w y w', body x w = (Ok y, w') → P x y) →
  ∀ w ys w', for_each body l w = (Ok ys, w') → Forall2 P l ys.
Proof.
  intros Hbody. induction l as [|x l IH]; intros w ys w' Hrun.
  - injection Hrun as <- _. constructor.
  - simpl in Hrun. rewrite bind_run in Hrun.
    destruct (body x w) as [[y|e] w1] eqn:Hx; [|done].
    rewrite bind_run in Hrun.
    destruct (for_each body l w1) as [[ys1|e] w2] eqn:Hl; [|done].
    injection Hrun as <- _. constructor; [by eapply Hbody | by eapply IH].
Qed.

Lemma sample_row_label label sample_rate T num_windows A frequencies phase noise i w row w' :
  sample_row label sample_rate T num_windows A frequencies phase noise i w = (Ok row, w') →
  row.2 = wrap32 (label (frequencies !!! i)).
Proof.
  unfold sample_row. rewrite bind_run.
  destruct (generate_noisy_signal _ _ _ _ _ _ w) as [[[t s]|e] w1]; [|done].
  rewrite bind_run. unfold lift.
  destruct (extract_features s num_windows); [|done].
  rewrite bind_run. unfold store_int32.
  destruct (_ && _); [|done].
  intros Heq. by injection Heq as <- _.
Qed.

(** The call, once the five draws from [rs] are named. *)
Lemma generate_database_with_unfold f_max label target_map sample_rate num_samples T
    num_windows w :
  0 ≤ num_samples →
  generate_database_with f_max label target_map sample_rate num_samples T num_windows w =
    let '(A, phase, noise, frequencies, g5) :=
      drawn_parameters f_max num_samples (rs w) in
    if num_windows <? 0 then (Raise ValueError, mkWorld (np_random w) g5)
    else
      match for_each (sample_row label sample_rate T num_windows A frequencies phase noise)
              (seq 0 (Z.to_nat num_samples)) (mkWorld (np_random w) g5) with
      | (Ok rows, w') =>
          (Ok (rows.*1, rows.*2, feature_names num_windows, target_map), w')
      | (Raise e, w') => (Raise e, w')
      end.
Proof.
  intros Hn.
  unfold generate_database_with, drawn_parameters, rs_uniform, rs_random,
    rs_random_integers.
  rewrite bind_run, rs_draw_run by done.
  destruct (rng_uniform (of_Z (-4)) (of_Z 4) (Z.to_nat num_samples) (rs w)) as [A g1].
  cbn [fst snd rs np_random].
  rewrite bind_run, rs_draw_run by done. cbn [fst snd rs np_random].
  destruct (rng_random (Z.to_nat num_samples) g1) as [r g2].
  cbn [fst snd rs np_random].
  rewrite bind_run, rs_draw_run by done. cbn [fst snd rs np_random].
  destruct (rng_uniform (of_Z (-2)) (of_Z 2) (Z.to_nat num_samples) g2) as [u g3].
  cbn [fst snd rs np_random].
  rewrite bind_run, rs_draw_run by done. cbn [fst snd rs np_random].
  destruct (rng_random_integers 0 1 (Z.to_nat num_samples) g3) as [b g4].
  cbn [fst snd rs np_random].
  rewrite bind_run, rs_draw_run by done. cbn [fst snd rs np_random].
  destruct (rng_uniform (of_Z 0) f_max (Z.to_nat num_samples) g4) as [freqs g5].
  cbn [fst snd rs np_random].
  rewrite bind_run. unfold np_zeros_shape.
  rewrite (proj2 (Z.ltb_ge num_samples 0)) by lia. rewrite orb_false_l.
  destruct (num_windows <? 0); [done|].
  unfold mret at 1, M_ret at 1. rewrite bind_run.
  by destruct (for_each _ _ _) as [[rows|e] w1].
Qed.

Lemma generate_database_with_negative f_max label target_map sample_rate num_samples T
    num_windows w :
  num_samples < 0 →
  generate_database_with f_max label target_map sample_rate num_samples T num_windows w
  = (Raise ValueError, w).
Proof.
  intros Hn. unfold generate_database_with, rs_uniform.
  by rewrite bind_run, rs_draw_negative.
Qed.

Lemma drawn_frequencies_length f_max num_samples g :
  length (drawn_frequencies f_max num_samples g) = Z.to_nat num_samples.
Proof.
  unfold drawn_frequencies, drawn_parameters.
  destruct (rng_uniform (of_Z (-4)) _ _ _) as [A g1].
  destruct (rng_random _ _) as [r g2].
  destruct (rng_uniform (of_Z (-2)) _ _ _) as [u g3].
  destruct (rng_random_integers _ _ _ _) as [b g4].
  pose proof (uniform_length (of_Z 0) f_max (Z.to_nat num_samples) g4) as Hf.
  by destruct (rng_uniform (of_Z 0) _ _ _) as [freqs g5].
Qed.

Lemma labels_of_rows (label : float → Z) (freqs : list float) :
  ∀ (l : list nat) (rows : list (list float * Z)),
    Forall2 (λ (i : nat) (row : list float * Z),
               row.2 = wrap32 (label (freqs !!! i))) l rows →
    rows.*2 = (λ i : nat, wrap32 (label (freqs !!! i))) <$> l.
Proof.
  induction 1 as [|i row l rows Hrow _ IH]; [done|].
  rewrite !fmap_cons. by rewrite Hrow, IH.
Qed.

Lemma fmap_lookup_total_seq (g : float → Z) (freqs : list float) :
  (λ i : nat, g (freqs !!! i)) <$> seq 0 (length freqs) = g <$> freqs.
Proof.
  apply list_eq. intros k. rewrite !list_lookup_fmap.
  destruct (decide (k < length freqs)%nat) as [Hk|Hk].
  - rewrite lookup_seq_lt by done. simpl.
    destruct (lookup_lt_is_Some_2 freqs k Hk) as [f Hf'].
    rewrite Hf'. simpl. by rewrite (list_lookup_total_correct _ _ _ Hf').
  - rewrite lookup_seq_ge by lia. by rewrite lookup_ge_None_2 by lia.
Qed.

(** On success the labels are the stored [label]s of the drawn frequencies,
    in order, one per sample, and the map returned is the literal of the cell. *)
Lemma generate_database_with_labels f_max label target_map sample_rate num_samples T
    num_windows w features labels names tm w' :
  generate_database_with f_max label target_map sample_rate num_samples T num_windows w
    = (Ok (features, labels, names, tm), w') →
  tm = target_map
  ∧ labels = (λ f, wrap32 (label f)) <$> drawn_frequencies f_max num_samples (rs w).
Proof.
  destruct (Z.lt_ge_cases num_samples 0) as [Hneg|Hn].
  { by rewrite generate_database_with_negative. }
  rewrite generate_database_with_unfold by done.
  pose proof (drawn_frequencies_length f_max num_samples (rs w)) as Hlen.
  unfold drawn_frequencies in *.
  destruct (drawn_parameters f_max num_samples (rs w)) as [[[[A phase] noise] freqs] g5].
  cbn [fst snd] in *.
  destruct (num_windows <? 0); [done|].
  destruct (for_each _ _ _) as [[rows|e] w1] eqn:Hloop; [|done].
  intros Heq. injection Heq as <- <- <- <- <-. split; [done|].
  eapply for_each_Forall2 in Hloop; [|intros i w0 row w0'; apply sample_row_label].
  rewrite (labels_of_rows _ _ _ _ Hloop), <- Hlen.
  apply (fmap_lookup_total_seq (λ f, wrap32 (label f))).
Qed.

End DatabaseFacts.

(** The KNN cell names its labels as documented: [2] is "high", [1] is "low". *)
Lemma knn_label_named (f : float) :
  Knn.target_map !! wrap32 (Knn.label f)
  = Some (if fgtb f (of_Z 8000) then "high" else "low").
Proof. unfold Knn.label. by destruct (fgtb f (of_Z 8000)). Qed.

(** So does the ANN cell, for distinct labels that fit [int32]. *)
Lemma ann_label_named (high low : Z) (threshold f : float) :
  high ≠ low → - 2 ^ 31 ≤ high < 2 ^ 31 → - 2 ^ 31 ≤ low < 2 ^ 31 →
  Ann.target_map high low !! wrap32 (Ann.label high low threshold f)
  = Some (if fgtb f threshold then "high" else "low").
Proof.
  intros Hne Hh Hl. unfold Ann.label, Ann.target_map.
  destruct (fgtb f threshold); rewrite wrap32_id by done.
  - by rewrite lookup_insert_eq.
  - rewrite lookup_insert_ne by done. by rewrite lookup_insert_eq.
Qed.

(** C7 on the earlier copy of the ANN notebook: a frequency of 500 is
    labelled [1], which the returned map names "high", and a frequency of
    9000 is labelled [2], which the map does not name. In a run that
    draws the frequencies 3700 and 17720 the labels are [1; 2] and the map
    is [{0: "low", 1: "high"}]. *)
Theorem draft_target_map_misnames_labels :
  AnnDraft.label (of_Z 500) = 1
  ∧ AnnDraft.target_map !! 1 = Some "high"
  ∧ AnnDraft.label (of_Z 9000) = 2
  ∧ AnnDraft.target_map !! 2 = None
  ∧ drawn_frequencies (rng := Bench.generator) (of_Z 20000) 2 1
    = [of_Z 3700; of_Z 17720]
  ∧ labels_of (AnnDraft.generate_database (np := Bench.numpy) (rng := Bench.generator)
                 8 2 fone 2 (Bench.world 0 1)).1
    = Some [1; 2]
  ∧ target_map_of (AnnDraft.generate_database (np := Bench.numpy) (rng := Bench.generator)
                     8 2 fone 2 (Bench.world 0 1)).1
    = Some AnnDraft.target_map.
Proof. repeat split; vm_compute; reflexivity. Qed.

(** C4 on the KNN notebook: two runs that start from the same state of the
    seeded generator [rs], and from different states of the generator
    behind [np.random], return the same labels and different feature
    matrices. *)
Theorem database_features_follow_global_generator :
  rs (Bench.world 0 1) = rs (Bench.world 5 1)
  ∧ labels_of (Knn.generate_database (np := Bench.numpy) (rng := Bench.generator)
                 8 2 fone 2 (Bench.world 0 1)).1
    = Some [1; 2]
  ∧ labels_of (Knn.generate_database (np := Bench.numpy) (rng := Bench.generator)
                 8 2 fone 2 (Bench.world 5 1)).1
    = Some [1; 2]
  ∧ features_of (Knn.generate_database (np := Bench.numpy) (rng := Bench.generator)
                   8 2 fone 2 (Bench.world 0 1)).1
    ≠ features_of (Knn.generate_database (np := Bench.numpy) (rng := Bench.generator)
                     8 2 fone 2 (Bench.world 5 1)).1.
Proof.
  split; [reflexivity|]. split; [vm_compute; reflexivity|].
  split; [vm_compute; reflexivity|].
  intros Heq. vm_compute in Heq. discriminate Heq.
Qed.

(** * Further properties of the dataset builder *)

Section Reproducibility.
Context {np : NumPy} {rng : RandomState}.

Lemma extract_features_outcome (sa sb : list float) (N : Z) :
  length sa = length sb →
  match extract_features sa N, extract_features sb N with
  | Ok _, Ok _ => True
  | Raise ea, Raise eb => ea = eb
  | _, _ => False
  end.
Proof.
  intros Hlen. unfold extract_features.
  destruct sa as [|xa sa], sb as [|xb sb]; try done.
  destruct (N =? 0); [done|]. by destruct (N <? 0).
Qed.

Lemma sample_row_same_label label sample_rate T num_windows A frequencies phase noise i wa wb :
  same_label (sample_row label sample_rate T num_windows A frequencies phase noise i wa).1
             (sample_row label sample_rate T num_windows A frequencies phase noise i wb).1.
Proof.
  unfold sample_row. rewrite !bind_run, !generate_noisy_signal_unfold.
  destruct (float_of_int sample_rate) as [fs|e]; [|done].
  destruct (py_int (fmul T fs)) as [N|e]; [|done].
  destruct (np_linspace T N) as [t|e]; [|done].
  destruct (_ && _); [|done].
  set (sa := add_sum (fmul (noise !!! i) <$> (rng_randn (length t) (np_random wa)).1) _).
  set (sb := add_sum (fmul (noise !!! i) <$> (rng_randn (length t) (np_random wb)).1) _).
  assert (Hlen : length sa = length sb).
  { subst sa sb. rewrite !add_sum_length
      by (apply waves_length; rewrite length_fmap; apply randn_length).
    by rewrite !length_fmap, !randn_length. }
  pose proof (extract_features_outcome sa sb num_windows Hlen) as Hout.
  destruct (extract_features sa num_windows), (extract_features sb num_windows);
    try done.
  rewrite !bind_run. unfold lift.
  by destruct (store_int32 (label (frequencies !!! i))).
Qed.

Lemma for_each_same_labels {A} (body : A → M (list float * Z)) (l : list A) :
  (∀ x wa wb, same_label (body x wa).1 (body x wb).1) →
  ∀ wa wb, same_labels (for_each body l wa).1 (for_each body l wb).1.
Proof.
  intros Hbody. induction l as [|x l IH]; intros wa wb; [done|].
  simpl. rewrite !bind_run.
  specialize (Hbody x wa wb).
  destruct (body x wa) as [[ra|ea] wa1], (body x wb) as [[rb|eb] wb1]; try done.
  rewrite !bind_run. specialize (IH wa1 wb1).
  destruct (for_each body l wa1) as [[rsa|ea] wa2],
           (for_each body l wb1) as [[rsb|eb] wb2]; try done.
  change ((ra :: rsa).*2 = (rb :: rsb).*2). rewrite !fmap_cons.
  f_equal; [exact Hbody | exact IH].
Qed.

End Reproducibility.

(** The labels of a run of [generate_database], whether it fails, and with
    which error, depend on the state of the seeded generator [rs] only: of
    two runs that start from the same [rs], either both fail, with the same
    error, or both return, with the same labels, whatever the state of the
    generator behind [np.random]. *)
Theorem labels_follow_seeded_generator {np : NumPy} {rng : RandomState}
    (f_max : float) (label : float → Z) (target_map : gmap Z string)
    (sample_rate num_samples : Z) (T : float) (num_windows : Z) (w1 w2 : World) :
  rs w1 = rs w2 →
  same_labels_or_error
    (generate_database_with f_max label target_map sample_rate num_samples T
       num_windows w1).1
    (generate_database_with f_max label target_map sample_rate num_samples T
       num_windows w2).1.
Proof.
  intros Hrs. destruct (Z.lt_ge_cases num_samples 0) as [Hneg|Hn].
  { by rewrite !generate_database_with_negative. }
  rewrite !generate_database_with_unfold by done. rewrite Hrs.
  destruct (drawn_parameters f_max num_samples (rs w2)) as [[[[A phase] noise] freqs] g5].
  destruct (num_windows <? 0); [done|].
  pose proof (for_each_same_labels
                (sample_row label sample_rate T num_windows A freqs phase noise)
                (seq 0 (Z.to_nat num_samples))
                (sample_row_same_label label sample_rate T num_windows A freqs phase noise)
                (mkWorld (np_random w1) g5) (mkWorld (np_random w2) g5)) as Hloop.
  destruct (for_each _ _ (mkWorld (np_random w1) g5)) as [[ra|ea] wa],
           (for_each _ _ (mkWorld (np_random w2) g5)) as [[rb|eb] wb]; done.
Qed.

Lemma labels_follow_seeded_generator_witness :
  same_labels_or_error
    (Knn.generate_database (np := Bench.numpy) (rng := Bench.generator)
       8 2 fone 2 (Bench.world 0 1)).1
    (Knn.generate_database (np := Bench.numpy) (rng := Bench.generator)
       8 2 fone 2 (Bench.world 5 1)).1.
Proof.
  apply (labels_follow_seeded_generator (np := Bench.numpy) (rng := Bench.generator)).
  reflexivity.
Defined.

(** In the KNN notebook every label of a successful run is the one the
    returned map names after the sample's frequency: "high" above 8000,
    "low" otherwise. *)
Theorem knn_labels_named {np : NumPy} {rng : RandomState}
    (sample_rate num_samples : Z) (T : float) (num_windows : Z) (w : World)
    (labels : list Z) :
  labels_of (Knn.generate_database sample_rate num_samples T num_windows w).1
    = Some labels →
  target_map_of (Knn.generate_database sample_rate num_samples T num_windows w).1
    = Some Knn.target_map
  ∧ Forall2 (λ f l, Knn.target_map !! l
                    = Some (if fgtb f (of_Z 8000) then "high" else "low"))
      (drawn_frequencies (of_Z 20000) num_samples (rs w)) labels.
Proof.
  unfold Knn.generate_database.
  destruct (generate_database_with _ _ _ _ _ _ _ w) as [[[[[F ls] names] tm]|e] w'] eqn:Hrun;
    [|done].
  apply generate_database_with_labels in Hrun as [-> ->].
  simpl. intros [= <-]. split; [done|].
  apply Forall2_fmap_r, Forall_Forall2_diag, Forall_forall.
  intros f _. apply knn_label_named.
Qed.

Lemma knn_labels_named_witness :
  Forall2 (λ f l, Knn.target_map !! l
                  = Some (if fgtb f (of_Z 8000) then "high" else "low"))
    (drawn_frequencies (rng := Bench.generator) (of_Z 20000) 2 1) [1; 2].
Proof.
  apply (knn_labels_named (np := Bench.numpy) (rng := Bench.generator)
           8 2 fone 2 (Bench.world 0 1) [1; 2]).
  vm_compute. reflexivity.
Defined.

(** In the final ANN notebook, with the default labels [3] and [7] and the
    default threshold, every label of a successful run is the one the
    returned map names after the sample's frequency. *)
Theorem ann_labels_named {np : NumPy} {rng : RandomState}
    (sample_rate num_samples : Z) (T : float) (num_windows : Z) (w : World)
    (labels : list Z) :
  labels_of (Ann.generate_database sample_rate num_samples T num_windows
               Ann.default_high Ann.default_low Ann.default_threshold w).1
    = Some labels →
  target_map_of (Ann.generate_database sample_rate num_samples T num_windows
                   Ann.default_high Ann.default_low Ann.default_threshold w).1
    = Some (Ann.target_map Ann.default_high Ann.default_low)
  ∧ Forall2 (λ f l, Ann.target_map Ann.default_high Ann.default_low !! l
                    = Some (if fgtb f (of_Z 8000) then "high" else "low"))
      (drawn_frequencies (of_Z (sample_rate / 2)) num_samples (rs w)) labels.
Proof.
  unfold Ann.generate_database.
  destruct (generate_database_with _ _ _ _ _ _ _ w) as [[[[[F ls] names] tm]|e] w'] eqn:Hrun;
    [|done].
  apply generate_database_with_labels in Hrun as [-> ->].
  simpl. intros [= <-]. split; [done|].
  apply Forall2_fmap_r, Forall_Forall2_diag, Forall_forall.
  intros f _. apply ann_label_named; unfold Ann.default_high, Ann.default_low; lia.
Qed.

Lemma ann_labels_named_witness :
  Forall2 (λ f l, Ann.target_map Ann.default_high Ann.default_low !! l
                  = Some (if fgtb f (of_Z 8000) then "high" else "low"))
    (drawn_frequencies (rng := Bench.generator) (of_Z (40000 / 2)) 2 1) [7; 3].
Proof.
  apply (ann_labels_named (np := Bench.numpy) (rng := Bench.generator)
           40000 2 (fdiv fone (of_Z 5000)) 2 (Bench.world 0 1) [7; 3]).
  vm_compute. reflexivity.
Defined.

(** The scenario of the design document: a sample rate of 16 over one
    second gives a signal of 16 samples, its spectrum has 9 bins, and 3
    bands hold 3 bins each. *)
Theorem sixteen_samples_three_bands {np : NumPy} {rng : RandomState} (w : World) :
  ∃ t signal v,
    (generate_noisy_signal 16 [fone] [ftwo] [fzero] fzero fone w).1 = Ok (t, signal)
    ∧ length signal = 16%nat
    ∧ length (np_fft_rfft signal) = 9%nat
    ∧ band_size 9 3 <$> seq 0 3 = [3; 3; 3]
    ∧ extract_features signal 3 = Ok v
    ∧ length v = 3%nat.
Proof.
  destruct (np_linspace_ok fone 16 ltac:(lia)) as (t & Ht & Hlen & _).
  rewrite generate_noisy_signal_unfold.
  change (float_of_int 16) with (Ok (of_Z 16)).
  cbv beta iota.
  change (py_int (fmul fone (of_Z 16))) with (Ok 16).
  cbv beta iota.
  rewrite Ht.
  rewrite !bool_decide_eq_true_2 by done.
  cbn [andb fst].
  set (signal := add_sum _ _).
  assert (Hs : length signal = 16%nat).
  { subst signal. rewrite add_sum_length
      by (apply waves_length; rewrite length_fmap; apply randn_length).
    rewrite length_fmap, randn_length, Hlen. reflexivity. }
  assert (Hne : signal ≠ []) by (intros Hnil; by rewrite Hnil in Hs).
  exists t, signal. eexists.
  split; [done|]. split; [done|].
  split; [by rewrite rfft_length, Hs|].
  split; [reflexivity|].
  split; [by apply extract_features_unfold|].
  by rewrite length_fmap, length_seq.
Qed.

(** ** Runs of [generate_database] *)

Section DatabaseRuns.
Context {np : NumPy} {rng : RandomState}.

Lemma drawn_parameters_lengths f_max num_samples g :
  let '(A, phase, noise, frequencies, _) := drawn_parameters f_max num_samples g in
  length A = Z.to_nat num_samples
  ∧ length phase = Z.to_nat num_samples
  ∧ length frequencies = Z.to_nat num_samples.
Proof.
  unfold drawn_parameters.
  pose proof (uniform_length (of_Z (-4)) (of_Z 4) (Z.to_nat num_samples) g) as HA.
  destruct (rng_uniform (of_Z (-4)) _ _ _) as [A g1].
  pose proof (random_length (Z.to_nat num_samples) g1) as Hr.
  destruct (rng_random _ _) as [r g2].
  destruct (rng_uniform (of_Z (-2)) _ _ _) as [u g3].
  destruct (rng_random_integers _ _ _ _) as [b g4].
  pose proof (uniform_length (of_Z 0) f_max (Z.to_nat num_samples) g4) as Hf.
  destruct (rng_uniform (of_Z 0) _ _ _) as [freqs g5].
  simpl in *. by rewrite length_fmap.
Qed.

Lemma py_slice_one_length {A} (l l' : list A) (i : nat) :
  length l = length l' →
  length (py_slice l (Z.of_nat i) (Z.of_nat i + 1))
  = length (py_slice l' (Z.of_nat i) (Z.of_nat i + 1)).
Proof. intros Hl. unfold py_slice. rewrite !length_take, !length_drop, Hl. reflexivity. Qed.

Lemma store_int32_fits v : - 2 ^ 31 ≤ v < 2 ^ 31 → store_int32 v = Ok v.
Proof.
  intros Hv. unfold store_int32.
  assert (H31 : 2 ^ 31 = 2147483648) by reflexivity.
  assert (H63 : 2 ^ 63 = 9223372036854775808) by reflexivity.
  rewrite (proj2 (Z.leb_le (- 2 ^ 63) v)), (proj2 (Z.ltb_lt v (2 ^ 63))) by lia.
  cbn [andb]. by rewrite wrap32_id.
Qed.

Lemma store_int32_refuses v : v < - 2 ^ 63 ∨ 2 ^ 63 ≤ v →
  store_int32 v = Raise OverflowError.
Proof.
  intros Hv. unfold store_int32.
  destruct (Z.leb_spec (- 2 ^ 63) v), (Z.ltb_spec v (2 ^ 63)); try reflexivity. lia.
Qed.

(** The labels of the notebooks' own calls fit the array. *)
Lemma knn_label_fits : fits_int32 Knn.label.
Proof. intros f. unfold Knn.label. destruct (fgtb f (of_Z 8000)); lia. Qed.

Lemma draft_label_fits : fits_int32 AnnDraft.label.
Proof. intros f. unfold AnnDraft.label. destruct (fgtb f (of_Z 8000)); lia. Qed.

Lemma ann_label_fits high low threshold :
  - 2 ^ 31 ≤ high < 2 ^ 31 → - 2 ^ 31 ≤ low < 2 ^ 31 →
  fits_int32 (Ann.label high low threshold).
Proof. intros Hh Hl f. unfold Ann.label. by destruct (fgtb f threshold). Qed.

(** The signal of one pass of the loop, when the grid has [N] points. *)
Lemma row_signal label sample_rate T num_windows A frequencies phase noise i w fs N :
  float_of_int sample_rate = Ok fs → py_int (fmul T fs) = Ok N → 0 ≤ N →
  length A = length frequencies → length phase = length frequencies →
  ∃ signal,
    length signal = Z.to_nat N
    ∧ sample_row label sample_rate T num_windows A frequencies phase noise i w
      = match extract_features signal num_windows with
        | Ok row =>
            match store_int32 (label (frequencies !!! i)) with
            | Ok l => (Ok (row, l),
                       mkWorld (rng_randn (Z.to_nat N) (np_random w)).2 (rs w))
            | Raise e =>
                (Raise e, mkWorld (rng_randn (Z.to_nat N) (np_random w)).2 (rs w))
            end
        | Raise e => (Raise e, mkWorld (rng_randn (Z.to_nat N) (np_random w)).2 (rs w))
        end.
Proof.
  intros Hfs HN H0 HA Hp.
  destruct (np_linspace_ok T N H0) as (t & Ht & Htl & _).
  unfold sample_row. rewrite bind_run, generate_noisy_signal_unfold, Hfs, HN, Ht.
  rewrite (bool_decide_eq_true_2 _ (py_slice_one_length frequencies phase i (eq_sym Hp))).
  rewrite (bool_decide_eq_true_2 _
             (py_slice_one_length A phase i (eq_trans HA (eq_sym Hp)))).
  cbn [andb]. rewrite Htl.
  match goal with |- context [lift (extract_features ?s num_windows)] => exists s end.
  split.
  2: { rewrite bind_run. unfold lift at 1.
       destruct (extract_features _ num_windows); [|reflexivity].
       rewrite bind_run. unfold lift.
       by destruct (store_int32 (label (frequencies !!! i))). }
  rewrite add_sum_length.
  - by rewrite length_fmap, randn_length.
  - apply waves_length. by rewrite length_fmap, randn_length.
Qed.

Lemma row_without_grid label sample_rate T num_windows A frequencies phase noise i w e :
  (float_of_int sample_rate = Raise e
   ∨ (∃ fs, float_of_int sample_rate = Ok fs ∧ py_int (fmul T fs) = Raise e)
   ∨ (∃ fs N, float_of_int sample_rate = Ok fs ∧ py_int (fmul T fs) = Ok N
              ∧ N < 0 ∧ e = ValueError)) →
  sample_row label sample_rate T num_windows A frequencies phase noise i w = (Raise e, w).
Proof.
  intros H. unfold sample_row. rewrite bind_run, generate_noisy_signal_unfold.
  destruct H as [->|[(fs & -> & ->)|(fs & N & -> & -> & HN & ->)]]; [done..|].
  by rewrite np_linspace_negative.
Qed.

Lemma extract_features_row signal N :
  signal ≠ [] → 1 ≤ N →
  ∃ row, extract_features signal N = Ok row ∧ length row = Z.to_nat N.
Proof.
  intros Hs HN. rewrite extract_features_unfold by done.
  eexists. split; [reflexivity|]. by rewrite length_fmap, length_seq.
Qed.

Lemma for_each_run {A B} (body : A → M B) (step : World → World) (P : A → B → Prop)
    (l : list A) :
  (∀ x w, ∃ y, body x w = (Ok y, step w) ∧ P x y) →
  ∀ w, ∃ ys, for_each body l w = (Ok ys, Nat.iter (length l) step w) ∧ Forall2 P l ys.
Proof.
  intros Hbody. induction l as [|x l IH]; intros w.
  - exists []. split; [reflexivity|constructor].
  - destruct (Hbody x w) as (y & Hy & HP).
    destruct (IH (step w)) as (ys & Hys & HPs).
    exists (y :: ys). split; [|by constructor].
    cbn [for_each length]. rewrite bind_run, Hy, bind_run, Hys.
    by rewrite Nat.iter_succ_r.
Qed.

Lemma for_each_first_fails {A B} (body : A → M B) (x : A) (l : list A) w e w' :
  body x w = (Raise e, w') → for_each body (x :: l) w = (Raise e, w').
Proof. intros Hx. cbn [for_each]. by rewrite bind_run, Hx. Qed.

Lemma iter_randn (n k : nat) (w : World) :
  Nat.iter k (λ w0, mkWorld (rng_randn n (np_random w0)).2 (rs w0)) w
  = mkWorld (after_randn n k (np_random w)) (rs w).
Proof.
  unfold after_randn. induction k as [|k IH]; [by destruct w|].
  rewrite !Nat.iter_succ, IH. reflexivity.
Qed.

Lemma seq_first (n : Z) : 1 ≤ n → seq 0 (Z.to_nat n) = 0%nat :: seq 1 (Z.to_nat n - 1).
Proof.
  intros Hn. replace (Z.to_nat n) with (S (Z.to_nat n - 1)) at 1 by lia. reflexivity.
Qed.

(** A run in which every signal has at least one sample and at least one
    band is asked for. *)
Lemma generate_database_with_built f_max label target_map sample_rate num_samples T
    num_windows fs N w :
  fits_int32 label → 0 ≤ num_samples → 1 ≤ num_windows →
  float_of_int sample_rate = Ok fs → py_int (fmul T fs) = Ok N → 1 ≤ N →
  database_built
    (generate_database_with f_max label target_map sample_rate num_samples T num_windows w)
    target_map
    (mkWorld (after_randn (Z.to_nat N) (Z.to_nat num_samples) (np_random w))
             (seed_after f_max num_samples (rs w)))
    num_samples num_windows.
Proof.
  intros Hfit Hn Hw Hfs HN H1. unfold database_built.
  rewrite generate_database_with_unfold by done. unfold seed_after.
  pose proof (drawn_parameters_lengths f_max num_samples (rs w)) as Hlen.
  destruct (drawn_parameters f_max num_samples (rs w)) as [[[[A phase] noise] freqs] g5].
  destruct Hlen as (HA & Hp & Hf). cbn [snd].
  rewrite (proj2 (Z.ltb_ge num_windows 0)) by lia.
  destruct (for_each_run
              (sample_row label sample_rate T num_windows A freqs phase noise)
              (λ w0, mkWorld (rng_randn (Z.to_nat N) (np_random w0)).2 (rs w0))
              (λ _ row, length row.1 = Z.to_nat num_windows)
              (seq 0 (Z.to_nat num_samples))) with (w := mkWorld (np_random w) g5)
    as (rows & Hrun & Hrows).
  { intros i w0.
    destruct (row_signal label sample_rate T num_windows A freqs phase noise i w0 fs N)
      as (signal & Hsl & Hrow); [done|done|lia|congruence|congruence|].
    destruct (extract_features_row signal num_windows) as (row & Hrow' & Hrl); [|done|].
    { intros ->. simpl in Hsl. lia. }
    rewrite Hrow', (store_int32_fits _ (Hfit _)) in Hrow.
    eexists. split; [exact Hrow|exact Hrl]. }
  rewrite Hrun, length_seq, iter_randn. cbn [np_random rs].
  exists (rows.*1), (rows.*2). split; [reflexivity|].
  apply Forall2_length in Hrows as Hl. rewrite length_seq in Hl.
  rewrite !length_fmap. split; [done|]. split; [|done].
  apply Forall_fmap. clear -Hrows. induction Hrows; constructor; auto.
Qed.

(** [generate_database] returns when every label fits the [int32] array
    it is stored in, every signal has at least one sample and at least one
    band is asked for: one feature row of [num_windows] values and one
    label per sample, one name per band, and the map of the cell. The run
    leaves the seeded generator after its five draws and the global
    generator after [num_samples] draws of [N] normal values. *)
Theorem generate_database_shapes f_max label target_map sample_rate num_samples T
    num_windows fs N w :
  fits_int32 label → 0 ≤ num_samples → 1 ≤ num_windows →
  float_of_int sample_rate = Ok fs → py_int (fmul T fs) = Ok N → 1 ≤ N →
  ∃ features labels,
    generate_database_with f_max label target_map sample_rate num_samples T num_windows w
    = (Ok (features, labels, feature_names num_windows, target_map),
       mkWorld (after_randn (Z.to_nat N) (Z.to_nat num_samples) (np_random w))
               (seed_after f_max num_samples (rs w)))
    ∧ length features = Z.to_nat num_samples
    ∧ Forall (λ row, length row = Z.to_nat num_windows) features
    ∧ length labels = Z.to_nat num_samples
    ∧ length (feature_names num_windows) = Z.to_nat num_windows.
Proof.
  intros Hfit Hn Hw Hfs HN H1.
  destruct (generate_database_with_built f_max label target_map sample_rate num_samples
              T num_windows fs N w Hfit Hn Hw Hfs HN H1)
    as (features & labels & Hrun & Hf & Hrows & Hl).
  exists features, labels. split; [exact Hrun|]. split; [exact Hf|].
  split; [exact Hrows|]. split; [exact Hl|].
  unfold feature_names. by rewrite length_fmap, length_seqZ.
Qed.

(** A negative [num_samples] is refused by the first draw, before any
    generator moves; a negative [num_windows] is refused by [np.zeros],
    after the five draws from [rs]. *)
Theorem generate_database_negative_sizes f_max label target_map sample_rate num_samples T
    num_windows w :
  (num_samples < 0 →
   generate_database_with f_max label target_map sample_rate num_samples T num_windows w
   = (Raise ValueError, w))
  ∧ (0 ≤ num_samples → num_windows < 0 →
     generate_database_with f_max label target_map sample_rate num_samples T num_windows w
     = (Raise ValueError,
        mkWorld (np_random w) (seed_after f_max num_samples (rs w)))).
Proof.
  split.
  - apply generate_database_with_negative.
  - intros Hn Hw. rewrite generate_database_with_unfold by done. unfold seed_after.
    destruct (drawn_parameters f_max num_samples (rs w)) as [[[[A phase] noise] freqs] g5].
    by rewrite (proj2 (Z.ltb_lt num_windows 0)).
Qed.

(** With no sample asked for, the loop body never runs: the result is the
    empty data set whatever the duration and the sample rate are. *)
Theorem generate_database_no_samples f_max label target_map sample_rate T num_windows w :
  0 ≤ num_windows →
  generate_database_with f_max label target_map sample_rate 0 T num_windows w
  = (Ok ([], [], feature_names num_windows, target_map),
     mkWorld (np_random w) (seed_after f_max 0 (rs w))).
Proof.
  intros Hw. rewrite generate_database_with_unfold by done. unfold seed_after.
  destruct (drawn_parameters f_max 0 (rs w)) as [[[[A phase] noise] freqs] g5].
  by rewrite (proj2 (Z.ltb_ge num_windows 0)) by lia.
Qed.

(** When at least one sample is asked for and the time grid cannot be
    built, the run ends with the error of the first pass: the error of
    [int(T*fs)] for a duration that is not a number or is infinite,
    [ValueError] for a negative one. The five draws from [rs] are spent, the
    global generator is untouched. *)
Theorem generate_database_without_grid f_max label target_map sample_rate num_samples T
    num_windows fs w :
  1 ≤ num_samples → 0 ≤ num_windows → float_of_int sample_rate = Ok fs →
  (∀ e, py_int (fmul T fs) = Raise e →
     generate_database_with f_max label target_map sample_rate num_samples T num_windows w
     = (Raise e, mkWorld (np_random w) (seed_after f_max num_samples (rs w))))
  ∧ (∀ N, py_int (fmul T fs) = Ok N → N < 0 →
     generate_database_with f_max label target_map sample_rate num_samples T num_windows w
     = (Raise ValueError, mkWorld (np_random w) (seed_after f_max num_samples (rs w)))).
Proof.
  intros Hn Hw Hfs.
  assert (∀ e,
    (float_of_int sample_rate = Raise e
     ∨ (∃ fs, float_of_int sample_rate = Ok fs ∧ py_int (fmul T fs) = Raise e)
     ∨ (∃ fs N, float_of_int sample_rate = Ok fs ∧ py_int (fmul T fs) = Ok N
                ∧ N < 0 ∧ e = ValueError)) →
    generate_database_with f_max label target_map sample_rate num_samples T num_windows w
    = (Raise e, mkWorld (np_random w) (seed_after f_max num_samples (rs w)))) as Hfail.
  { intros e He. rewrite generate_database_with_unfold by lia. unfold seed_after.
    destruct (drawn_parameters f_max num_samples (rs w)) as [[[[A phase] noise] freqs] g5].
    rewrite (proj2 (Z.ltb_ge num_windows 0)) by lia. rewrite seq_first by done.
    erewrite for_each_first_fails; [reflexivity|]. by apply row_without_grid. }
  split.
  - intros e He. apply Hfail. right; left. by exists fs.
  - intros N HN Hneg. apply Hfail. right; right. by exists fs, N.
Qed.

(** When at least one sample is asked for, a duration too short for one
    grid point ([int(T*fs) = 0]) ends the run with the [ValueError] of
    [np.fft.rfft] on the empty first signal, and [num_windows = 0] ends it
    with [ZeroDivisionError]; in both cases after the noise of the first
    signal has been drawn from the global generator. *)
Theorem generate_database_first_pass_fails f_max label target_map sample_rate num_samples T
    num_windows fs N w :
  1 ≤ num_samples → 0 ≤ num_windows →
  float_of_int sample_rate = Ok fs → py_int (fmul T fs) = Ok N → 0 ≤ N →
  N = 0 ∨ num_windows = 0 →
  generate_database_with f_max label target_map sample_rate num_samples T num_windows w
  = (Raise (if N =? 0 then ValueError else ZeroDivisionError),
     mkWorld (rng_randn (Z.to_nat N) (np_random w)).2
             (seed_after f_max num_samples (rs w))).
Proof.
  intros Hn Hw Hfs HN H0 Hcase.
  rewrite generate_database_with_unfold by lia. unfold seed_after.
  pose proof (drawn_parameters_lengths f_max num_samples (rs w)) as Hlen.
  destruct (drawn_parameters f_max num_samples (rs w)) as [[[[A phase] noise] freqs] g5].
  destruct Hlen as (HA & Hp & Hf).
  rewrite (proj2 (Z.ltb_ge num_windows 0)) by lia. rewrite seq_first by done.
  destruct (row_signal label sample_rate T num_windows A freqs phase noise 0%nat
              (mkWorld (np_random w) g5) fs N)
    as (signal & Hsl & Hrow); [done|done|lia|congruence|congruence|].
  erewrite for_each_first_fails; [reflexivity|]. rewrite Hrow. cbn [np_random rs snd].
  destruct (N =? 0) eqn:HN0.
  - apply Z.eqb_eq in HN0. subst N. destruct signal; [reflexivity|done].
  - apply Z.eqb_neq in HN0. destruct Hcase as [?| ->]; [done|].
    destruct signal; [simpl in Hsl; lia|reflexivity].
Qed.

(** A label that does not fit the platform's 64-bit C [long] (in the ANN
    notebook, [high] or [low] chosen that large) cannot be stored in the
    [int32] array of labels: when the label of the first drawn frequency
    is such a value, the run fails with [OverflowError] on its first pass,
    after the first signal has been drawn and its features computed. *)
Theorem generate_database_label_overflow f_max label target_map sample_rate num_samples T
    num_windows fs N w :
  1 ≤ num_samples → 1 ≤ num_windows →
  float_of_int sample_rate = Ok fs → py_int (fmul T fs) = Ok N → 1 ≤ N →
  (let v := label (drawn_frequencies f_max num_samples (rs w) !!! 0%nat) in
   v < - 2 ^ 63 ∨ 2 ^ 63 ≤ v) →
  generate_database_with f_max label target_map sample_rate num_samples T num_windows w
  = (Raise OverflowError,
     mkWorld (rng_randn (Z.to_nat N) (np_random w)).2
             (seed_after f_max num_samples (rs w))).
Proof.
  intros Hn Hw Hfs HN H1 Hv.
  rewrite generate_database_with_unfold by lia. unfold seed_after.
  pose proof (drawn_parameters_lengths f_max num_samples (rs w)) as Hlen.
  unfold drawn_frequencies in Hv.
  destruct (drawn_parameters f_max num_samples (rs w)) as [[[[A phase] noise] freqs] g5].
  destruct Hlen as (HA & Hp & Hf). cbn [fst snd] in Hv.
  rewrite (proj2 (Z.ltb_ge num_windows 0)) by lia. rewrite seq_first by done.
  destruct (row_signal label sample_rate T num_windows A freqs phase noise 0%nat
              (mkWorld (np_random w) g5) fs N)
    as (signal & Hsl & Hrow); [done|done|lia|congruence|congruence|].
  destruct (extract_features_row signal num_windows) as (row & Hrow' & _); [|done|].
  { intros ->. simpl in Hsl. lia. }
  erewrite for_each_first_fails; [reflexivity|].
  rewrite Hrow, Hrow', (store_int32_refuses _ Hv). reflexivity.
Qed.

(** Whatever the arguments and the outcome, a run leaves the seeded
    generator in the state after its five draws (or untouched, when
    [num_samples] is negative): the loop never draws from [rs]. *)
Theorem generate_database_seed_state f_max label target_map sample_rate num_samples T
    num_windows w :
  rs (generate_database_with f_max label target_map sample_rate num_samples T
        num_windows w).2
  = if num_samples <? 0 then rs w else seed_after f_max num_samples (rs w).
Proof.
  destruct (num_samples <? 0) eqn:Hn.
  - apply Z.ltb_lt in Hn. by rewrite generate_database_with_negative.
  - apply Z.ltb_ge in Hn. rewrite generate_database_with_unfold by done.
    unfold seed_after.
    destruct (drawn_parameters f_max num_samples (rs w)) as [[[[A phase] noise] freqs] g5].
    destruct (num_windows <? 0); [reflexivity|]. cbn [snd].
    assert (∀ l w0, rs (for_each
              (sample_row label sample_rate T num_windows A freqs phase noise) l w0).2
            = rs w0) as Hloop.
    { induction l as [|i l IH]; intros w0; [reflexivity|].
      cbn [for_each]. rewrite bind_run.
      assert (rs (sample_row label sample_rate T num_windows A freqs phase noise i w0).2
              = rs w0) as Hrow.
      { unfold sample_row. rewrite bind_run, generate_noisy_signal_unfold.
        destruct (float_of_int sample_rate); [|reflexivity].
        destruct (py_int _); [|reflexivity].
        destruct (np_linspace _ _); [|reflexivity].
        destruct (_ && _); [|reflexivity].
        rewrite bind_run. unfold lift at 1.
        destruct (extract_features _ _); [|reflexivity].
        rewrite bind_run. unfold lift. by destruct (store_int32 _). }
      destruct (sample_row _ _ _ _ _ _ _ _ _ _) as [[row|e] w1]; [|exact Hrow].
      rewrite bind_run. specialize (IH w1).
      destruct (for_each _ l w1) as [[rows|e] w2]; simpl in *; congruence. }
    specialize (Hloop (seq 0 (Z.to_nat num_samples)) (mkWorld (np_random w) g5)).
    by destruct (for_each _ _ _) as [[rows|e] w1].
Qed.

End DatabaseRuns.

Lemma generate_database_shapes_witness :
  ∃ features labels,
    (Knn.generate_database (np := Bench.numpy) (rng := Bench.generator)
       8 2 fone 2 (Bench.world 0 1)).1
    = Ok (features, labels, feature_names 2, Knn.target_map)
    ∧ length features = 2%nat
    ∧ Forall (λ row, length row = 2%nat) features
    ∧ length labels = 2%nat.
Proof.
  destruct (generate_database_shapes (np := Bench.numpy) (rng := Bench.generator)
              (of_Z 20000) Knn.label Knn.target_map 8 2 fone 2 (of_Z 8) 8
              (Bench.world 0 1))
    as (features & labels & Hrun & Hf & Hrows & Hl & _);
    [apply knn_label_fits | lia | lia | reflexivity | reflexivity | lia |].
  exists features, labels. unfold Knn.generate_database. rewrite Hrun.
  split; [reflexivity|]. split; [exact Hf|]. split; [exact Hrows | exact Hl].
Defined.

Lemma generate_database_negative_sizes_witness :
  Knn.generate_database (np := Bench.numpy) (rng := Bench.generator)
    8 (-1) fone 2 (Bench.world 0 1)
  = (Raise ValueError, Bench.world 0 1)
  ∧ Knn.generate_database (np := Bench.numpy) (rng := Bench.generator)
      8 2 fone (-1) (Bench.world 0 1)
    = (Raise ValueError,
       Bench.world 0 (seed_after (rng := Bench.generator) (of_Z 20000) 2 1)).
Proof.
  split.
  - apply (proj1 (generate_database_negative_sizes (np := Bench.numpy)
                    (rng := Bench.generator) (of_Z 20000) Knn.label Knn.target_map
                    8 (-1) fone 2 (Bench.world 0 1))). lia.
  - apply (proj2 (generate_database_negative_sizes (np := Bench.numpy)
                    (rng := Bench.generator) (of_Z 20000) Knn.label Knn.target_map
                    8 2 fone (-1) (Bench.world 0 1))); lia.
Defined.

Lemma generate_database_no_samples_witness :
  Knn.generate_database (np := Bench.numpy) (rng := Bench.generator)
    8 0 S754_nan 2 (Bench.world 0 1)
  = (Ok ([], [], feature_names 2, Knn.target_map),
     Bench.world 0 (seed_after (rng := Bench.generator) (of_Z 20000) 0 1)).
Proof.
  apply (generate_database_no_samples (np := Bench.numpy) (rng := Bench.generator)
           (of_Z 20000) Knn.label Knn.target_map 8 S754_nan 2 (Bench.world 0 1)).
  lia.
Defined.

Lemma generate_database_without_grid_witness :
  Knn.generate_database (np := Bench.numpy) (rng := Bench.generator)
    8 2 S754_nan 2 (Bench.world 0 1)
  = (Raise ValueError,
     Bench.world 0 (seed_after (rng := Bench.generator) (of_Z 20000) 2 1))
  ∧ Knn.generate_database (np := Bench.numpy) (rng := Bench.generator)
      8 2 (of_Z (-1)) 2 (Bench.world 0 1)
    = (Raise ValueError,
       Bench.world 0 (seed_after (rng := Bench.generator) (of_Z 20000) 2 1)).
Proof.
  split.
  - apply (proj1 (generate_database_without_grid (np := Bench.numpy)
                    (rng := Bench.generator) (of_Z 20000) Knn.label Knn.target_map
                    8 2 S754_nan 2 (of_Z 8) (Bench.world 0 1)
                    ltac:(lia) ltac:(lia) eq_refl)).
    reflexivity.
  - apply (proj2 (generate_database_without_grid (np := Bench.numpy)
                    (rng := Bench.generator) (of_Z 20000) Knn.label Knn.target_map
                    8 2 (of_Z (-1)) 2 (of_Z 8) (Bench.world 0 1)
                    ltac:(lia) ltac:(lia) eq_refl) (-8)); [reflexivity | lia].
Defined.

Lemma generate_database_first_pass_fails_witness :
  Knn.generate_database (np := Bench.numpy) (rng := Bench.generator)
    8 2 fzero 2 (Bench.world 0 1)
  = (Raise ValueError,
     Bench.world 0 (seed_after (rng := Bench.generator) (of_Z 20000) 2 1))
  ∧ Knn.generate_database (np := Bench.numpy) (rng := Bench.generator)
      8 2 fone 0 (Bench.world 0 1)
    = (Raise ZeroDivisionError,
       Bench.world (rng_randn (RandomState := Bench.generator) 8 0).2
         (seed_after (rng := Bench.generator) (of_Z 20000) 2 1)).
Proof.
  split.
  - apply (generate_database_first_pass_fails (np := Bench.numpy)
             (rng := Bench.generator) (of_Z 20000) Knn.label Knn.target_map
             8 2 fzero 2 (of_Z 8) 0 (Bench.world 0 1));
      [lia | lia | reflexivity | reflexivity | lia | left; reflexivity].
  - apply (generate_database_first_pass_fails (np := Bench.numpy)
             (rng := Bench.generator) (of_Z 20000) Knn.label Knn.target_map
             8 2 fone 0 (of_Z 8) 8 (Bench.world 0 1));
      [lia | lia | reflexivity | reflexivity | lia | right; reflexivity].
Defined.

Lemma generate_database_label_overflow_witness :
  generate_database_with (np := Bench.numpy) (rng := Bench.generator)
    (of_Z (8 / 2)) (Ann.label (2 ^ 64) (2 ^ 64) Ann.default_threshold)
    (Ann.target_map (2 ^ 64) (2 ^ 64)) 8 2 fone 2 (Bench.world 0 1)
  = (Raise OverflowError,
     Bench.world (rng_randn (RandomState := Bench.generator) 8 0).2
       (seed_after (rng := Bench.generator) (of_Z (8 / 2)) 2 1)).
Proof.
  apply (generate_database_label_overflow (np := Bench.numpy) (rng := Bench.generator)
           (of_Z (8 / 2)) (Ann.label (2 ^ 64) (2 ^ 64) Ann.default_threshold)
           (Ann.target_map (2 ^ 64) (2 ^ 64)) 8 2 fone 2 (of_Z 8) 8 (Bench.world 0 1));
    [lia | lia | reflexivity | reflexivity | lia | right; vm_compute; discriminate].
Defined.

(** ** Integers as doubles

    Python converts an [int] to the nearest double; below [2^53] the
    conversion and the products of such integers are exact. *)

Section ExactIntegers.

Lemma digits2_pos_upper p : Z.pos p < 2 ^ Z.pos (digits2_pos p).
Proof.
  induction p as [p IH|p IH|]; simpl digits2_pos.
  - rewrite Pos2Z.inj_succ, Z.pow_succ_r by lia. lia.
  - rewrite Pos2Z.inj_succ, Z.pow_succ_r by lia. lia.
  - simpl. lia.
Qed.

(** The number of binary digits is the [d] with [2^(d-1) ≤ p < 2^d]. *)
Lemma digits2_pos_unique p d :
  2 ^ (d - 1) ≤ Z.pos p < 2 ^ d → Z.pos (digits2_pos p) = d.
Proof.
  intros [Hlo Hhi].
  pose proof (digits2_pos_bound p) as Hl. pose proof (digits2_pos_upper p) as Hu.
  assert (0 ≤ d).
  { destruct (Z.lt_ge_cases d 0) as [Hneg|]; [|done].
    rewrite (Z.pow_neg_r 2 d) in Hhi by done. lia. }
  destruct (Z.lt_trichotomy (Z.pos (digits2_pos p)) d) as [Hlt|[Heq|Hgt]]; [|done|].
  - pose proof (Z.pow_le_mono_r 2 (Z.pos (digits2_pos p)) (d - 1) ltac:(lia) ltac:(lia)).
    lia.
  - pose proof (Z.pow_le_mono_r 2 d (Z.pos (digits2_pos p) - 1) ltac:(lia) ltac:(lia)).
    lia.
Qed.

Lemma digits2_pos_shift m q n :
  0 ≤ n → Z.pos m = Z.pos q * 2 ^ n →
  Z.pos (digits2_pos m) = Z.pos (digits2_pos q) + n.
Proof.
  intros Hn Hm. apply digits2_pos_unique. rewrite Hm.
  pose proof (digits2_pos_bound q) as Hl. pose proof (digits2_pos_upper q) as Hu.
  assert (0 < 2 ^ n) by (apply Z.pow_pos_nonneg; lia).
  replace (Z.pos (digits2_pos q) + n - 1) with (Z.pos (digits2_pos q) - 1 + n) by lia.
  rewrite !Z.pow_add_r by lia. nia.
Qed.

Lemma pos_iter_xO p k : Z.pos (Pos.iter xO p k) = Z.pos p * 2 ^ Z.pos k.
Proof.
  induction k as [|k IH] using Pos.peano_ind.
  - simpl. lia.
  - rewrite Pos.iter_succ, Pos2Z.inj_succ, Z.pow_succ_r by lia.
    rewrite Pos2Z.inj_xO, IH. lia.
Qed.

(** Shifting out [n] zero bits loses nothing. *)
Lemma iter_shr_1_exact (n : positive) :
  ∀ m, 0 < m → (2 ^ Z.pos n | m) →
  SpecFloat.iter_pos shr_1 n (Build_shr_record m false false)
  = Build_shr_record (m / 2 ^ Z.pos n) false false.
Proof.
  assert (Hone : ∀ m, 0 < m → (2 | m) →
            shr_1 (Build_shr_record m false false)
            = Build_shr_record (m / 2) false false).
  { intros m Hm [k Hk]. subst m. destruct k as [|k|k]; try lia.
    rewrite Z.div_mul by lia. replace (Z.pos k * 2) with (Z.pos k~0) by lia.
    reflexivity. }
  induction n as [n IH|n IH|]; intros m Hm Hdiv; cbn [SpecFloat.iter_pos].
  - assert (Hp : 0 < 2 ^ Z.pos n) by (apply Z.pow_pos_nonneg; lia).
    set (P := 2 ^ Z.pos n) in *.
    replace (2 ^ Z.pos n~1) with (2 * P * P) in *
      by (replace (Z.pos n~1) with (1 + Z.pos n + Z.pos n) by lia;
          unfold P; rewrite !Z.pow_add_r by lia; lia).
    destruct Hdiv as [k Hk].
    assert (Hk0 : 0 < k) by nia.
    assert (Hm2 : m / 2 = k * P * P).
    { symmetry. apply Z.div_unique_exact; [lia|]. rewrite Hk. ring. }
    assert (HkP : 0 < k * P) by nia.
    rewrite Hone; [|lia|exists (k * P * P); rewrite Hk; ring].
    rewrite Hm2.
    rewrite IH; [|nia|exists (k * P); ring].
    rewrite Z.div_mul by lia.
    rewrite IH; [|nia|exists k; ring].
    rewrite Z.div_mul by lia. f_equal.
    apply Z.div_unique_exact; [nia|]. rewrite Hk. ring.
  - assert (Hp : 0 < 2 ^ Z.pos n) by (apply Z.pow_pos_nonneg; lia).
    set (P := 2 ^ Z.pos n) in *.
    replace (2 ^ Z.pos n~0) with (P * P) in *
      by (replace (Z.pos n~0) with (Z.pos n + Z.pos n) by lia;
          unfold P; rewrite !Z.pow_add_r by lia; lia).
    destruct Hdiv as [k Hk].
    assert (Hk0 : 0 < k) by nia.
    assert (Hm2 : m / P = k * P).
    { symmetry. apply Z.div_unique_exact; [lia|]. rewrite Hk. ring. }
    rewrite IH; [|lia|exists (k * P); rewrite Hk; ring].
    rewrite Hm2.
    rewrite IH; [|nia|exists k; ring].
    rewrite Z.div_mul by lia. f_equal.
    apply Z.div_unique_exact; [nia|]. rewrite Hk. ring.
  - change (2 ^ 1) with 2 in *. by apply Hone.
Qed.

(** Rounding a mantissa that is a 53-digit number followed by [n] zero
    bits returns the 53-digit number. *)
Lemma binary_round_aux_exact sx m q n e :
  0 ≤ n → Z.pos m = Z.pos q * 2 ^ n → Z.pos (digits2_pos q) = 53 →
  emin prec emax ≤ e + n → e + n ≤ emax - prec →
  binary_round_aux prec emax sx (Z.pos m) e loc_Exact = S754_finite sx q (e + n).
Proof.
  intros Hn Hm Hq Hlo Hhi.
  pose proof (digits2_pos_shift m q n Hn Hm) as Hd.
  unfold binary_round_aux.
  assert (Hfirst : shr_fexp prec emax (Z.pos m) e loc_Exact
                   = (Build_shr_record (Z.pos q) false false, e + n)).
  { unfold shr_fexp, shr. cbn [Zdigits2 shr_record_of_loc]. rewrite Hd, Hq.
    unfold fexp, emin, prec, emax in *.
    replace (Z.max (53 + n + e - 53) (3 - 1024 - 53) - e) with n by lia.
    destruct n as [|p|p]; [|clear Hn|lia].
    - f_equal; [|lia]. f_equal. lia.
    - rewrite iter_shr_1_exact; [|lia|exists (Z.pos q); lia].
      rewrite Hm, Z.div_mul; [reflexivity|].
      pose proof (Z.pow_pos_nonneg 2 (Z.pos p)). lia. }
  rewrite Hfirst. cbn [shr_m loc_of_shr_record round_nearest_even].
  assert (Hsecond : shr_fexp prec emax (Z.pos q) (e + n) loc_Exact
                    = (Build_shr_record (Z.pos q) false false, e + n)).
  { unfold shr_fexp, shr. cbn [Zdigits2 shr_record_of_loc]. rewrite Hq.
    unfold fexp, emin, prec, emax in *.
    replace (Z.max (53 + (e + n) - 53) (3 - 1024 - 53) - (e + n)) with 0 by lia.
    reflexivity. }
  rewrite Hsecond. cbn [shr_m].
  by rewrite (proj2 (Z.leb_le _ _) Hhi).
Qed.

(** The double of a positive integer below [2^53]: its digits, shifted to
    53 places. *)
Lemma of_Z_pos p :
  Z.pos p < 2 ^ 53 →
  ∃ q, of_Z (Z.pos p) = S754_finite false q (Z.pos (digits2_pos p) - 53)
     ∧ Z.pos q = Z.pos p * 2 ^ (53 - Z.pos (digits2_pos p))
     ∧ Z.pos (digits2_pos q) = 53.
Proof.
  intros Hp. set (d := Z.pos (digits2_pos p)).
  assert (Hd : 1 ≤ d ≤ 53).
  { split; [unfold d; lia|].
    pose proof (digits2_pos_bound p) as Hl. fold d in Hl.
    destruct (Z.le_gt_cases d 53) as [|Hgt]; [done|].
    pose proof (Z.pow_le_mono_r 2 53 (d - 1) ltac:(lia) ltac:(lia)). lia. }
  assert (Hf : fexp prec emax (Z.pos (digits2_pos p) + 0) = d - 53).
  { unfold fexp, emin, prec, emax. fold d. lia. }
  unfold of_Z, binary_normalize, binary_round, shl_align.
  rewrite Hf, Z.sub_0_r.
  destruct (d - 53) as [|k|k] eqn:Hk; [|lia|].
  - exists p. replace (53 - d) with 0 by lia. rewrite Z.mul_1_r.
    split; [|split; [done|unfold d in *; lia]].
    rewrite (binary_round_aux_exact false p p 0 0); unfold emin, prec, emax;
      [reflexivity|lia|lia|unfold d in *; lia|lia|lia].
  - exists (Pos.iter xO p k).
    assert (Hval : Z.pos (Pos.iter xO p k) = Z.pos p * 2 ^ (53 - d)).
    { rewrite pos_iter_xO. f_equal. f_equal. lia. }
    assert (Hdig : Z.pos (digits2_pos (Pos.iter xO p k)) = 53).
    { rewrite (digits2_pos_shift _ p (Z.pos k)); [fold d; lia|lia|apply pos_iter_xO]. }
    split; [|done].
    rewrite (binary_round_aux_exact false _ (Pos.iter xO p k) 0 (Z.neg k));
      unfold emin, prec, emax; [|lia|lia|done|lia|lia].
    by rewrite Z.add_0_r.
Qed.

Lemma float_of_int_small z : 0 ≤ z < 2 ^ 53 → float_of_int z = Ok (of_Z z).
Proof.
  intros [Hz0 Hz]. unfold float_of_int. destruct z as [|p|p]; [reflexivity| |lia].
  destruct (of_Z_pos p Hz) as (q & -> & _). reflexivity.
Qed.

(** [int(float(z)) = z] below [2^53]. *)
Lemma py_int_of_Z z : 0 ≤ z < 2 ^ 53 → py_int (of_Z z) = Ok z.
Proof.
  intros [Hz0 Hz]. destruct z as [|p|p]; [reflexivity| |lia].
  destruct (of_Z_pos p Hz) as (q & -> & Hq & Hdq).
  pose proof (digits2_pos_bound p) as Hl. pose proof (digits2_pos_upper p) as Hu.
  set (d := Z.pos (digits2_pos p)) in *.
  assert (Hd : 1 ≤ d ≤ 53).
  { split; [unfold d; lia|].
    destruct (Z.le_gt_cases d 53) as [|Hgt]; [done|].
    pose proof (Z.pow_le_mono_r 2 53 (d - 1) ltac:(lia) ltac:(lia)). lia. }
  unfold py_int. f_equal.
  destruct (0 <=? d - 53) eqn:He.
  - apply Z.leb_le in He. assert (Hd53 : d = 53) by lia.
    rewrite Hd53 in Hq |- *. rewrite Hq. simpl. lia.
  - replace (- (d - 53)) with (53 - d) by lia. rewrite Hq.
    apply Z.div_mul. pose proof (Z.pow_pos_nonneg 2 (53 - d)). lia.
Qed.

Lemma digits2_pos_above p k : 2 ^ k ≤ Z.pos p → k < Z.pos (digits2_pos p).
Proof.
  intros Hk. pose proof (digits2_pos_upper p) as Hu.
  destruct (Z.lt_ge_cases k (Z.pos (digits2_pos p))) as [|Hge]; [done|].
  pose proof (Z.pow_le_mono_r 2 (Z.pos (digits2_pos p)) k ltac:(lia) ltac:(lia)). lia.
Qed.

(** The product of two integers is exact when it stays below [2^53]. *)
Lemma fmul_of_Z a b :
  0 ≤ a < 2 ^ 53 → 0 ≤ b < 2 ^ 53 → a * b < 2 ^ 53 →
  fmul (of_Z a) (of_Z b) = of_Z (a * b).
Proof.
  intros [Ha0 Ha] [Hb0 Hb] Hab.
  destruct a as [|pa|pa]; [|clear Ha0|lia].
  { destruct b as [|pb|pb]; [reflexivity| |lia].
    destruct (of_Z_pos pb Hb) as (q & -> & _). reflexivity. }
  destruct b as [|pb|pb]; [|clear Hb0|lia].
  { destruct (of_Z_pos pa Ha) as (q & -> & _). reflexivity. }
  change (Z.pos pa * Z.pos pb) with (Z.pos (pa * pb)) in *.
  destruct (of_Z_pos pa Ha) as (qa & -> & Hqa & Hda).
  destruct (of_Z_pos pb Hb) as (qb & -> & Hqb & Hdb).
  destruct (of_Z_pos (pa * pb) Hab) as (qab & -> & Hqab & Hdab).
  pose proof (digits2_pos_bound pa) as Hla. pose proof (digits2_pos_upper pa) as Hua.
  pose proof (digits2_pos_bound pb) as Hlb. pose proof (digits2_pos_upper pb) as Hub.
  pose proof (digits2_pos_upper (pa * pb)) as Huab.
  set (da := Z.pos (digits2_pos pa)) in *.
  set (db := Z.pos (digits2_pos pb)) in *.
  set (dab := Z.pos (digits2_pos (pa * pb))) in *.
  assert (Hda1 : 1 ≤ da) by (unfold da; lia).
  assert (Hdb1 : 1 ≤ db) by (unfold db; lia).
  assert (Hd53 : dab ≤ 53).
  { destruct (Z.le_gt_cases dab 53) as [|Hgt]; [done|].
    pose proof (digits2_pos_bound (pa * pb)) as Hl. fold dab in Hl.
    pose proof (Z.pow_le_mono_r 2 53 (dab - 1) ltac:(lia) ltac:(lia)). lia. }
  assert (Hn : da + db - 2 < dab).
  { apply digits2_pos_above. rewrite Pos2Z.inj_mul.
    replace (da + db - 2) with ((da - 1) + (db - 1)) by lia.
    rewrite Z.pow_add_r by lia.
    apply Z.mul_le_mono_nonneg; try done; apply Z.pow_nonneg; lia. }
  assert (Hda53 : da ≤ 53).
  { destruct (Z.le_gt_cases da 53) as [|Hgt]; [done|].
    pose proof (Z.pow_le_mono_r 2 53 (da - 1) ltac:(lia) ltac:(lia)). lia. }
  assert (Hdb53 : db ≤ 53).
  { destruct (Z.le_gt_cases db 53) as [|Hgt]; [done|].
    pose proof (Z.pow_le_mono_r 2 53 (db - 1) ltac:(lia) ltac:(lia)). lia. }
  unfold fmul, SFmul. cbn [xorb].
  rewrite (binary_round_aux_exact false (qa * qb) qab (dab - da - db + 53)
             (da - 53 + (db - 53))); unfold emin, prec, emax; [|lia| |done|lia|lia].
  - f_equal. lia.
  - rewrite Pos2Z.inj_mul, Hqa, Hqb, Hqab, Pos2Z.inj_mul.
    assert (Hpow : 2 ^ (53 - da) * 2 ^ (53 - db)
                   = 2 ^ (53 - dab) * 2 ^ (dab - da - db + 53)).
    { rewrite <- !Z.pow_add_r by lia. f_equal. lia. }
    replace (Z.pos pa * 2 ^ (53 - da) * (Z.pos pb * 2 ^ (53 - db)))
      with (Z.pos pa * Z.pos pb * (2 ^ (53 - da) * 2 ^ (53 - db))) by ring.
    rewrite Hpow. ring.
Qed.

(** [int(T*sample_rate)] for an integer duration [T]: the exact product. *)
Lemma integer_sample_count T sample_rate :
  0 ≤ T < 2 ^ 53 → 0 ≤ sample_rate < 2 ^ 53 → T * sample_rate < 2 ^ 53 →
  float_of_int sample_rate = Ok (of_Z sample_rate)
  ∧ py_int (fmul (of_Z T) (of_Z sample_rate)) = Ok (T * sample_rate).
Proof.
  intros HT Hr Hp. split; [by apply float_of_int_small|].
  rewrite fmul_of_Z by done. apply py_int_of_Z. nia.
Qed.

Lemma shr_fexp_exp_ge m e l : e ≤ (shr_fexp prec emax m e l).2.
Proof.
  unfold shr_fexp, shr.
  destruct (fexp prec emax (Zdigits2 m + e) - e) eqn:Hn; simpl; lia.
Qed.

(** Rounding never lowers the exponent. *)
Lemma binary_round_aux_exp_ge sx m e l s' m' e' :
  binary_round_aux prec emax sx m e l = S754_finite s' m' e' → e ≤ e'.
Proof.
  unfold binary_round_aux.
  pose proof (shr_fexp_exp_ge m e l) as H1.
  destruct (shr_fexp prec emax m e l) as [mrs1 e1]. cbn [snd] in H1.
  pose proof (shr_fexp_exp_ge (round_nearest_even (shr_m mrs1) (loc_of_shr_record mrs1))
                e1 loc_Exact) as H2.
  destruct (shr_fexp prec emax _ e1 loc_Exact) as [mrs2 e2]. cbn [snd] in H2.
  destruct (shr_m mrs2); [done| |done].
  destruct (e2 <=? emax - prec); [|done].
  intros [= _ _ <-]. lia.
Qed.

(** [1.0/float(rate)] for a positive integer below [2^53]: not zero, and
    when finite its exponent is at least [-105]. *)
Lemma reciprocal_of_Z rate :
  1 ≤ rate < 2 ^ 53 →
  is_zero (fdiv fone (of_Z rate)) = false
  ∧ ∀ s m e, fdiv fone (of_Z rate) = S754_finite s m e → -105 ≤ e.
Proof.
  intros [Hr1 Hr]. destruct rate as [|p|p]; try lia.
  destruct (of_Z_pos p Hr) as (q & -> & Hq & Hdq).
  pose proof (digits2_pos_bound p) as Hl. pose proof (digits2_pos_upper p) as Hu.
  pose proof (digits2_pos_upper q) as Huq. rewrite Hdq in Huq.
  set (d := Z.pos (digits2_pos p)) in *.
  assert (Hd : 1 ≤ d ≤ 53).
  { split; [unfold d; lia|].
    destruct (Z.le_gt_cases d 53) as [|Hgt]; [done|].
    pose proof (Z.pow_le_mono_r 2 53 (d - 1) ltac:(lia) ltac:(lia)). lia. }
  change fone with (S754_finite false 4503599627370496 (-52)).
  unfold fdiv, SFdiv, SFdiv_core_binary. cbn [Zdigits2 xorb]. rewrite Hdq.
  change (Z.pos (digits2_pos 4503599627370496)) with 53.
  assert (He : Z.min (fexp prec emax (53 + -52 - (53 + (d - 53)))) (-52 - (d - 53))
               = -52 - d).
  { unfold fexp, emin, prec, emax. lia. }
  rewrite He. replace (-52 - (d - 53) - (-52 - d)) with 53 by lia.
  change (Z.shiftl 4503599627370496 53) with (2 ^ 105).
  pose proof (Z_div_mod (2 ^ 105) (Z.pos q) ltac:(lia)) as Hdiv.
  destruct (Z.div_eucl (2 ^ 105) (Z.pos q)) as [quot rem].
  assert (Hquot : 0 < quot).
  { destruct Hdiv as [Heq Hrem].
    destruct (Z.lt_ge_cases 0 quot) as [|Hle]; [done|].
    assert (Z.pos q * quot ≤ 0) by nia.
    change (2 ^ 105) with 40564819207303340847894502572032 in Heq.
    change (2 ^ 53) with 9007199254740992 in Huq. lia. }
  split.
  - assert (Hmin : emin prec emax ≤ -52 - d) by (unfold emin, prec, emax; lia).
    pose proof (λ s, binary_round_aux_nonzero false quot (-52 - d)
                       (new_location (Z.pos q) rem) s Hquot Hmin) as Hnz.
    destruct (binary_round_aux prec emax false quot (-52 - d) _) as [s0| | |];
      try reflexivity.
    exfalso. by apply (Hnz s0).
  - intros s m e Hfin. apply binary_round_aux_exp_ge in Hfin. lia.
Qed.

(** The frequency axis of a spectrum is defined for every positive sample
    count and sampling rate below [2^53]. *)
Lemma axis_defined_small n sampling_rate :
  1 ≤ n < 2 ^ 53 → 1 ≤ sampling_rate < 2 ^ 53 → axis_defined n sampling_rate = true.
Proof.
  intros Hn Hr. unfold axis_defined.
  rewrite !float_of_int_small by lia.
  destruct (reciprocal_of_Z sampling_rate Hr) as [Hnz Hexp].
  destruct sampling_rate as [|pr|pr]; try lia.
  destruct n as [|pn|pn]; try lia.
  destruct (of_Z_pos pr (proj2 Hr)) as (qr & Hxr & _).
  destruct (of_Z_pos pn (proj2 Hn)) as (qn & Hxn & _).
  rewrite Hxr in *. rewrite Hxn. cbn [is_zero negb andb].
  pose proof (digits2_pos_bound pn) as Hl.
  assert (Hdn : 1 ≤ Z.pos (digits2_pos pn)) by lia.
  destruct (fdiv fone (S754_finite false qr _)) as [sd|sd| |sd md ed] eqn:Hd;
    [done|reflexivity|reflexivity|].
  specialize (Hexp sd md ed eq_refl).
  unfold fmul, SFmul.
  assert (Hmin : emin prec emax ≤ Z.pos (digits2_pos pn) - 53 + ed)
    by (unfold emin, prec, emax; lia).
  pose proof (λ s, binary_round_aux_nonzero (xorb false sd) (Z.pos (qn * md))
                     (Z.pos (digits2_pos pn) - 53 + ed) loc_Exact s
                     ltac:(lia) Hmin) as Hnz'.
  destruct (binary_round_aux prec emax _ _ _ _) as [s0| | |]; try reflexivity.
  exfalso. by apply (Hnz' s0).
Qed.

End ExactIntegers.

(** ** The duration [0.1] *)

Section TenthOfARate.

Lemma round_nearest_even_le m l : round_nearest_even m l ≤ m + 1.
Proof. destruct l as [|[]]; simpl; try destruct (Z.even m); lia. Qed.

Lemma digits2_pos_below p n : 0 ≤ n → Z.pos p < 2 ^ n → Z.pos (digits2_pos p) ≤ n.
Proof.
  intros Hn Hp. pose proof (digits2_pos_bound p) as Hl.
  destruct (Z.le_gt_cases (Z.pos (digits2_pos p)) n) as [|Hgt]; [done|].
  pose proof (Z.pow_le_mono_r 2 n (Z.pos (digits2_pos p) - 1) ltac:(lia) ltac:(lia)). lia.
Qed.

(** Rounding a mantissa of more than 53 digits keeps its first 53 digits
    or adds one to them, when that does not carry into a 54th digit. *)
Lemma binary_round_aux_near sx M e D :
  Z.pos (digits2_pos M) = D → 54 ≤ D →
  emin prec emax ≤ e + (D - 53) → e + (D - 53) ≤ emax - prec →
  Z.pos M / 2 ^ (D - 53) + 1 < 2 ^ 53 →
  ∃ r1, binary_round_aux prec emax sx (Z.pos M) e loc_Exact
        = S754_finite sx r1 (e + (D - 53))
      ∧ Z.pos M / 2 ^ (D - 53) ≤ Z.pos r1 ≤ Z.pos M / 2 ^ (D - 53) + 1.
Proof.
  intros HD H54 Hlo Hhi Hcarry.
  set (r0 := Z.pos M / 2 ^ (D - 53)) in *.
  pose proof (digits2_pos_bound M) as HMl. rewrite HD in HMl.
  assert (Hr0 : 2 ^ 52 ≤ r0).
  { unfold r0. apply Z.div_le_lower_bound; [apply Z.pow_pos_nonneg; lia|].
    rewrite <- Z.pow_add_r by lia. replace (D - 53 + 52) with (D - 1) by lia. done. }
  unfold binary_round_aux.
  destruct (D - 53) as [|s|s] eqn:Hs; [lia| |lia].
  assert (Hfirst : ∃ mrs, shr_fexp prec emax (Z.pos M) e loc_Exact = (mrs, e + Z.pos s)
                          ∧ shr_m mrs = r0).
  { unfold shr_fexp, shr. cbn [Zdigits2 shr_record_of_loc]. rewrite HD.
    unfold fexp, emin, prec, emax in *.
    replace (Z.max (D + e - 53) (3 - 1024 - 53) - e) with (Z.pos s) by lia.
    eexists. split; [reflexivity|].
    rewrite iter_shr_1_m by (simpl; lia). reflexivity. }
  destruct Hfirst as (mrs & -> & Hm). rewrite Hm.
  pose proof (round_nearest_even_ge r0 (loc_of_shr_record mrs)) as Hge.
  pose proof (round_nearest_even_le r0 (loc_of_shr_record mrs)) as Hle.
  destruct (round_nearest_even r0 (loc_of_shr_record mrs)) as [|r1|r1] eqn:Hr1;
    [lia| |lia].
  assert (Hd1 : Z.pos (digits2_pos r1) = 53).
  { apply digits2_pos_unique. change (53 - 1) with 52. lia. }
  exists r1. split; [|lia].
  assert (Hsecond : shr_fexp prec emax (Z.pos r1) (e + Z.pos s) loc_Exact
                    = (Build_shr_record (Z.pos r1) false false, e + Z.pos s)).
  { unfold shr_fexp, shr. cbn [Zdigits2 shr_record_of_loc]. rewrite Hd1.
    unfold fexp, emin, prec, emax in *.
    replace (Z.max (53 + (e + Z.pos s) - 53) (3 - 1024 - 53) - (e + Z.pos s)) with 0
      by lia.
    reflexivity. }
  rewrite Hsecond. cbn [shr_m].
  by rewrite (proj2 (Z.leb_le _ _) Hhi).
Qed.

(** [int(0.1*sample_rate)] is [sample_rate // 10]: the double nearest to
    [0.1] is a little above a tenth, and the rounded product never reaches
    the next integer. *)
Lemma tenth_sample_count sample_rate :
  2 ^ 10 ≤ sample_rate < 2 ^ 45 →
  py_int (fmul py_0_1 (of_Z sample_rate)) = Ok (sample_rate / 10).
Proof.
  intros [Hlo Hhi]. destruct sample_rate as [|p|p]; try lia.
  assert (Hp53 : Z.pos p < 2 ^ 53).
  { pose proof (Z.pow_lt_mono_r 2 45 53 ltac:(lia) ltac:(lia) ltac:(lia)). lia. }
  destruct (of_Z_pos p Hp53) as (q & -> & Hq & Hdq).
  pose proof (digits2_pos_above p 10 Hlo) as Hd10.
  pose proof (digits2_pos_below p 45 ltac:(lia) Hhi) as Hd45.
  set (d := Z.pos (digits2_pos p)) in *.
  change py_0_1 with (S754_finite false 7205759403792794 (-56)).
  unfold fmul, SFmul. cbn [xorb].
  set (M := (7205759403792794 * q)%positive).
  pose proof (digits2_pos_bound q) as Hql. pose proof (digits2_pos_upper q) as Hqu.
  rewrite Hdq in Hql, Hqu. change (53 - 1) with 52 in Hql.
  assert (HM : Z.pos M = 7205759403792794 * Z.pos q) by (unfold M; lia).
  assert (HMlo : 2 ^ 104 ≤ Z.pos M).
  { rewrite HM. change (2 ^ 104) with (2 ^ 52 * 2 ^ 52).
    apply Z.mul_le_mono_nonneg; [|change (2 ^ 52) with 4503599627370496| |done]; lia. }
  assert (HMhi : Z.pos M < 2 ^ 106).
  { rewrite HM. change (2 ^ 106) with (2 ^ 53 * 2 ^ 53).
    apply Z.mul_lt_mono_nonneg; [lia|change (2 ^ 53) with 9007199254740992; lia|lia|done]. }
  pose proof (digits2_pos_above M 104 HMlo) as HD1.
  pose proof (digits2_pos_below M 106 ltac:(lia) HMhi) as HD2.
  set (D := Z.pos (digits2_pos M)) in *.
  set (a := Z.pos p / 10).
  pose proof (Z.div_mod (Z.pos p) 10 ltac:(lia)) as Hdm. fold a in Hdm.
  pose proof (Z.mod_pos_bound (Z.pos p) 10 ltac:(lia)) as Hb.
  set (b := Z.pos p mod 10) in *.
  assert (Ha : 0 ≤ a) by (apply Z.div_pos; lia).
  set (P := 2 ^ (53 - d)) in *.
  set (S := 2 ^ (D - 53)).
  set (K := 2 ^ (162 - d - D)).
  assert (HP : 2 ^ 8 ≤ P) by (apply Z.pow_le_mono_r; lia).
  assert (HSpos : 0 < S) by (apply Z.pow_pos_nonneg; lia).
  assert (HKpos : 0 < K) by (apply Z.pow_pos_nonneg; lia).
  assert (HS : S ≤ 2 ^ 53) by (apply Z.pow_le_mono_r; lia).
  assert (HSK : S * K = 2 ^ 56 * P).
  { unfold S, K, P. rewrite <- !Z.pow_add_r by lia. f_equal. lia. }
  assert (H45 : 2 ^ 45 = 35184372088832) by reflexivity.
  assert (H56 : 2 ^ 56 = 72057594037927936) by reflexivity.
  assert (H53 : 2 ^ 53 = 9007199254740992) by reflexivity.
  assert (H8 : 2 ^ 8 = 256) by reflexivity.
  (* the exact product, between two multiples of [2^56 * P] *)
  assert (HMval : Z.pos M = (a * 2 ^ 56 + (4 * a + b * 7205759403792794)) * P).
  { rewrite HM, Hq, Hdm. fold P. ring. }
  set (c := 4 * a + b * 7205759403792794) in *.
  assert (Hc : 0 ≤ c ∧ c + 2 ^ 52 ≤ 2 ^ 56).
  { unfold c. change (2 ^ 52) with 4503599627370496. lia. }
  set (r0 := Z.pos M / S).
  pose proof (Z.mul_div_le (Z.pos M) S HSpos) as Hr0l.
  pose proof (Z.mul_succ_div_gt (Z.pos M) S HSpos) as Hr0u.
  fold r0 in Hr0l, Hr0u.
  assert (HcP : 0 ≤ c * P) by (apply Z.mul_nonneg_nonneg; lia).
  assert (Hlow : a * K ≤ r0).
  { unfold r0. apply Z.div_le_lower_bound; [done|].
    rewrite Z.mul_assoc, (Z.mul_comm S a), <- Z.mul_assoc, HSK, HMval.
    replace ((a * 2 ^ 56 + c) * P) with (a * (2 ^ 56 * P) + c * P) by ring. lia. }
  assert (Hup : r0 + 2 ≤ (a + 1) * K).
  { apply (Z.mul_le_mono_pos_l _ _ S HSpos).
    replace (S * ((a + 1) * K)) with ((a + 1) * (S * K)) by ring. rewrite HSK.
    assert (2 * S ≤ 2 ^ 52 * P).
    { pose proof (Z.mul_le_mono_nonneg_l (2 ^ 8) P (2 ^ 52) ltac:(lia) HP) as HPl.
      change (2 ^ 52 * 2 ^ 8) with 1152921504606846976 in HPl. lia. }
    assert (Z.pos M + 2 ^ 52 * P ≤ (a + 1) * (2 ^ 56 * P)).
    { rewrite HMval.
      replace ((a * 2 ^ 56 + c) * P + 2 ^ 52 * P) with ((a * 2 ^ 56 + (c + 2 ^ 52)) * P)
        by ring.
      replace ((a + 1) * (2 ^ 56 * P)) with ((a * 2 ^ 56 + 2 ^ 56) * P) by ring.
      apply Z.mul_le_mono_nonneg_r; lia. }
    lia. }
  assert (Hr053 : r0 < 2 ^ 53).
  { unfold r0. apply Z.div_lt_upper_bound; [done|].
    pose proof (digits2_pos_upper M) as HMu. fold D in HMu.
    unfold S. rewrite <- Z.pow_add_r by lia. replace (D - 53 + 53) with D by lia. done. }
  assert (Hcarry : r0 + 1 < 2 ^ 53).
  { assert (HK53 : (a + 1) * K ≤ 2 ^ 53).
    { assert (H53K : 2 ^ 53 = 2 ^ (53 - (162 - d - D)) * K).
      { unfold K. rewrite <- Z.pow_add_r by lia. f_equal. lia. }
      set (Q := 2 ^ (53 - (162 - d - D))) in *.
      assert (HaQ : a < Q).
      { destruct (Z.lt_ge_cases a Q) as [|Hge]; [done|].
        pose proof (Z.mul_le_mono_nonneg_r Q a K ltac:(lia) Hge). lia. }
      rewrite H53K. apply Z.mul_le_mono_nonneg_r; lia. }
    lia. }
  destruct (binary_round_aux_near false M (-56 + (d - 53)) D eq_refl ltac:(lia))
    as (r1 & -> & Hr1); [unfold emin, prec, emax; lia|unfold emin, prec, emax; lia
                         |exact Hcarry|].
  fold S in Hr1. fold r0 in Hr1.
  unfold py_int. rewrite (proj2 (Z.leb_gt 0 (-56 + (d - 53) + (D - 53)))) by lia.
  replace (- (-56 + (d - 53) + (D - 53))) with (162 - d - D) by lia. fold K.
  f_equal. symmetry. apply (Z.div_unique (Z.pos r1) K a (Z.pos r1 - a * K)); lia.
Qed.

End TenthOfARate.

(** ** The data sets of the three notebooks *)

Lemma on_slider_counts sample_rate : on_slider sample_rate →
  float_of_int sample_rate = Ok (of_Z sample_rate)
  ∧ py_int (fmul (of_Z 2) (of_Z sample_rate)) = Ok (2 * sample_rate)
  ∧ py_int (fmul (of_Z 1) (of_Z sample_rate)) = Ok (1 * sample_rate)
  ∧ py_int (fmul py_0_1 (of_Z sample_rate)) = Ok (sample_rate / 10).
Proof.
  intros [Hlo Hhi].
  assert (Hb : 2 ^ 53 = 9007199254740992) by reflexivity.
  destruct (integer_sample_count 2 sample_rate) as [Hfs H2]; [lia..|].
  destruct (integer_sample_count 1 sample_rate) as [_ H1]; [lia..|].
  split; [done|]. split; [done|]. split; [done|].
  apply tenth_sample_count.
  change (2 ^ 10) with 1024. change (2 ^ 45) with 35184372088832. lia.
Qed.

Section NotebookData.
Context {np : NumPy} {rng : RandomState}.

(** At every position of the sample-rate slider the three notebooks build
    their data sets: 300 rows of 25 features from signals of
    [2*sample_rate] samples in the KNN notebook, 1000 rows from signals of
    [sample_rate] samples in the ANN notebook, and 3000 rows from signals of
    [sample_rate // 10] samples in its draft. *)
Theorem notebook_databases_built (sample_rate : Z) (w : World) :
  on_slider sample_rate →
  database_built (Cells.knn_database sample_rate w) Knn.target_map
    (mkWorld (after_randn (Z.to_nat (2 * sample_rate)) 300 (np_random w))
             (seed_after (of_Z 20000) 300 (rs w))) 300 25
  ∧ database_built (Cells.ann_database sample_rate w)
      (Ann.target_map Ann.default_high Ann.default_low)
      (mkWorld (after_randn (Z.to_nat sample_rate) 1000 (np_random w))
               (seed_after (of_Z (sample_rate / 2)) 1000 (rs w))) 1000 25
  ∧ database_built (Cells.draft_database sample_rate w) AnnDraft.target_map
      (mkWorld (after_randn (Z.to_nat (sample_rate / 10)) 3000 (np_random w))
               (seed_after (of_Z 20000) 3000 (rs w))) 3000 25.
Proof.
  intros Hsr. destruct (on_slider_counts sample_rate Hsr) as (Hfs & H2 & H1 & H01).
  rewrite Z.mul_1_l in H1. set (fs := of_Z sample_rate) in *.
  destruct Hsr as [Hlo Hhi].
  assert (1 ≤ sample_rate / 10).
  { apply Z.div_le_lower_bound; lia. }
  unfold Cells.knn_database, Cells.ann_database, Cells.draft_database,
    Knn.generate_database, Ann.generate_database, AnnDraft.generate_database.
  split; [|split].
  - apply (generate_database_with_built (of_Z 20000) Knn.label Knn.target_map
             sample_rate 300 (of_Z 2) 25 fs (2 * sample_rate) w);
      [apply knn_label_fits|lia|lia|done|done|lia].
  - apply (generate_database_with_built (of_Z (sample_rate / 2))
             (Ann.label Ann.default_high Ann.default_low Ann.default_threshold)
             (Ann.target_map Ann.default_high Ann.default_low)
             sample_rate 1000 (of_Z 1) 25 fs sample_rate w);
      [apply ann_label_fits; unfold Ann.default_high, Ann.default_low; lia
      |lia|lia|done|done|lia].
  - apply (generate_database_with_built (of_Z 20000) AnnDraft.label AnnDraft.target_map
             sample_rate 3000 py_0_1 25 fs (sample_rate / 10) w);
      [apply draft_label_fits|lia|lia|done|done|lia].
Qed.

End NotebookData.

(** In these data sets no band is short of bins: a signal of [N] samples
    has a spectrum of [N // 2 + 1] bins, and for the three sample counts
    of the notebooks ([2*sample_rate], [sample_rate] and
    [sample_rate // 10]) at every position of the slider each of the 25
    bands reads at least 20 of them, a contiguous run from its offset. *)
Theorem notebook_bands_hold_bins (sample_rate N : Z) (i : nat) :
  on_slider sample_rate →
  N = 2 * sample_rate ∨ N = sample_rate ∨ N = sample_rate / 10 →
  (i < 25)%nat →
  20 ≤ band_size (N / 2 + 1) 25 i
  ∧ band_bins (N / 2 + 1) 25 i
    = seqZ (band_lo (N / 2 + 1) 25 i) (band_size (N / 2 + 1) 25 i).
Proof.
  intros [Hlo Hhi] HN Hi.
  assert (H10 : 1000 ≤ sample_rate / 10) by (apply Z.div_le_lower_bound; lia).
  assert (H10' : sample_rate / 10 ≤ 5000) by (apply Z.div_le_upper_bound; lia).
  assert (HNb : 1000 ≤ N ≤ 100000) by (destruct HN as [->|[->| ->]]; lia).
  assert (HL : 501 ≤ N / 2 + 1 ≤ 50001).
  { pose proof (Z.div_le_lower_bound N 2 500 ltac:(lia) ltac:(lia)).
    pose proof (Z.div_le_upper_bound N 2 50000 ltac:(lia) ltac:(lia)). lia. }
  assert (H31 : N / 2 + 1 < 2 ^ 31) by (change (2 ^ 31) with 2147483648; lia).
  destruct (band_size_closed (N / 2 + 1) 25 ltac:(lia) ltac:(lia) H31 i ltac:(lia))
    as [Hsize _].
  split.
  - rewrite Hsize.
    pose proof (Z.div_le_lower_bound (N / 2 + 1) 25 20 ltac:(lia) ltac:(lia)).
    destruct (Z.of_nat i <? (N / 2 + 1) mod 25); lia.
  - apply band_bins_closed; lia.
Qed.

Lemma notebook_databases_built_witness :
  database_built
    (Cells.knn_database (np := Bench.numpy) (rng := Bench.generator)
       40000 (Bench.world 0 1))
    Knn.target_map
    (mkWorld (rng := Bench.generator)
       (after_randn (rng := Bench.generator) (Z.to_nat (2 * 40000)) 300 0)
       (seed_after (rng := Bench.generator) (of_Z 20000) 300 1))
    300 25.
Proof.
  refine (proj1 (notebook_databases_built (np := Bench.numpy) (rng := Bench.generator)
                   40000 (Bench.world 0 1) _)).
  unfold on_slider. lia.
Defined.

Lemma notebook_bands_hold_bins_witness : 20 ≤ band_size (2 * 40000 / 2 + 1) 25 24.
Proof.
  apply (notebook_bands_hold_bins 40000 (2 * 40000) 24).
  - unfold on_slider. lia.
  - left. reflexivity.
  - lia.
Defined.

(** ** The sound cells *)

Section SoundFacts.
Context {np : NumPy} {rng : RandomState}.

(** A call of [generate_noisy_signal] that returns: the world it leaves and
    each sample of the signal. *)
Lemma generate_noisy_signal_run sample_frequency amplitudes frequencies phases noise T w
    fs N :
  length amplitudes = length frequencies → length frequencies = length phases →
  float_of_int sample_frequency = Ok fs → py_int (fmul T fs) = Ok N → 0 ≤ N →
  ∃ t signal,
    generate_noisy_signal sample_frequency amplitudes frequencies phases noise T w
    = (Ok (t, signal), mkWorld (rng_randn (Z.to_nat N) (np_random w)).2 (rs w))
    ∧ length t = Z.to_nat N
    ∧ length signal = Z.to_nat N
    ∧ ∀ k : nat, (k < Z.to_nat N)%nat →
        signal !! k
        = Some (fadd (fmul noise ((rng_randn (Z.to_nat N) (np_random w)).1 !!! k))
                  (foldl fadd fzero
                     (wave_at (grid_point T N k)
                        <$> zip amplitudes (zip frequencies phases)))).
Proof.
  intros Haf Hfp Hfs HN HN0.
  destruct (np_linspace_ok T N HN0) as (t & Ht & Hlen & Hgrid).
  rewrite generate_noisy_signal_unfold, Hfs, HN, Ht.
  rewrite !bool_decide_eq_true_2 by congruence. cbn [andb]. rewrite Hlen.
  set (z := (rng_randn (Z.to_nat N) (np_random w)).1).
  assert (Hz : length z = length t) by (rewrite Hlen; apply randn_length).
  assert (Hn : length (fmul noise <$> z) = length t) by by rewrite length_fmap.
  eexists _, _. split; [reflexivity|]. split; [done|]. split.
  { rewrite add_sum_length by by apply waves_length. lia. }
  intros k Hk.
  destruct (lookup_lt_is_Some_2 z k ltac:(lia)) as [zk Hzk].
  erewrite add_sum_lookup.
  - rewrite (waves_column _ _ _ _ (Hgrid k Hk)).
    by rewrite (list_lookup_total_correct _ _ _ Hzk).
  - by rewrite list_lookup_fmap, Hzk.
  - by apply waves_length.
Qed.

(** With an integer duration [T], as every caller in the notebooks but one
    passes it, [int(T*sample_frequency)] is the exact product: for equal
    array lengths and [T*sample_frequency] below [2^53] the call returns a
    grid and a signal of exactly [T*sample_frequency] values, and draws
    that many normal values from the global generator. *)
Theorem generate_noisy_signal_integer_duration (sample_frequency : Z)
    (amplitudes frequencies phases : list float) (noise : float) (T : Z) (w : World) :
  length amplitudes = length frequencies → length frequencies = length phases →
  0 ≤ T < 2 ^ 53 → 0 ≤ sample_frequency < 2 ^ 53 → T * sample_frequency < 2 ^ 53 →
  ∃ t signal,
    generate_noisy_signal sample_frequency amplitudes frequencies phases noise (of_Z T) w
    = (Ok (t, signal),
       mkWorld (rng_randn (Z.to_nat (T * sample_frequency)) (np_random w)).2 (rs w))
    ∧ Z.of_nat (length t) = T * sample_frequency
    ∧ Z.of_nat (length signal) = T * sample_frequency.
Proof.
  intros Haf Hfp HT Hsf Hp.
  destruct (integer_sample_count T sample_frequency HT Hsf Hp) as [Hfs HN].
  destruct (generate_noisy_signal_run sample_frequency amplitudes frequencies phases
              noise (of_Z T) w (of_Z sample_frequency) (T * sample_frequency))
    as (t & signal & Hrun & Ht & Hs & _); [done|done|done|done|nia|].
  exists t, signal. split; [exact Hrun|]. split; nia.
Qed.

(** With the duration [0.1] of the draft notebook, [int(0.1*sample_frequency)]
    is [sample_frequency // 10] for every sample frequency from [2^10] to
    below [2^45]: the product with the double nearest to [0.1], which is a
    little above a tenth, never rounds up to the next integer. *)
Theorem generate_noisy_signal_tenth_second (sample_frequency : Z)
    (amplitudes frequencies phases : list float) (noise : float) (w : World) :
  length amplitudes = length frequencies → length frequencies = length phases →
  2 ^ 10 ≤ sample_frequency < 2 ^ 45 →
  ∃ t signal,
    generate_noisy_signal sample_frequency amplitudes frequencies phases noise py_0_1 w
    = (Ok (t, signal),
       mkWorld (rng_randn (Z.to_nat (sample_frequency / 10)) (np_random w)).2 (rs w))
    ∧ Z.of_nat (length t) = sample_frequency / 10
    ∧ Z.of_nat (length signal) = sample_frequency / 10.
Proof.
  intros Haf Hfp Hsf.
  pose proof (tenth_sample_count sample_frequency Hsf) as HN.
  assert (H10 : 2 ^ 10 = 1024) by reflexivity.
  assert (H45 : 2 ^ 45 = 35184372088832) by reflexivity.
  assert (H53 : 2 ^ 53 = 9007199254740992) by reflexivity.
  assert (Hpos : 0 ≤ sample_frequency / 10) by (apply Z.div_pos; lia).
  destruct (generate_noisy_signal_run sample_frequency amplitudes frequencies phases
              noise py_0_1 w (of_Z sample_frequency) (sample_frequency / 10))
    as (t & signal & Hrun & Ht & Hs & _);
    [done|done|apply float_of_int_small; lia|done|done|].
  exists t, signal. split; [exact Hrun|]. split; lia.
Qed.

(** The run of [generate_sound] when both frequencies convert to doubles
    [a] and [b]. *)
Lemma generate_sound_run (sample_rate : Z) (A B : float) (fA fB : Z) (noise : float)
    (w : World) (a b : float) :
  1 ≤ sample_rate < 2 ^ 52 →
  float_of_int fA = Ok a → float_of_int fB = Ok b →
  ∃ signal,
    generate_sound sample_rate A B fA fB noise w
    = (Ok signal,
       mkWorld (rng_randn (Z.to_nat (2 * sample_rate)) (np_random w)).2 (rs w))
    ∧ length signal = Z.to_nat (2 * sample_rate)
    ∧ ∀ k : nat, (k < Z.to_nat (2 * sample_rate))%nat →
        signal !! k
        = Some (fadd (fmul noise
                        ((rng_randn (Z.to_nat (2 * sample_rate)) (np_random w)).1 !!! k))
                  (foldl fadd fzero
                     (wave_at (grid_point (of_Z 2) (2 * sample_rate) k)
                        <$> zip [A; B] (zip [a; b] [of_Z 0; of_Z 0])))).
Proof.
  intros [Hlo Hhi] Ha Hb'.
  assert (Hb : 2 ^ 53 = 2 * 2 ^ 52) by reflexivity.
  destruct (integer_sample_count 2 sample_rate) as [Hfs H2]; [lia..|].
  destruct (generate_noisy_signal_run sample_rate [A; B] [a; b]
              [of_Z 0; of_Z 0] noise (of_Z 2) w (of_Z sample_rate) (2 * sample_rate))
    as (t & signal & Hrun & _ & Hlen & Hk); [done|done|done|done|lia|].
  exists signal. unfold generate_sound. cbv zeta. rewrite Ha, Hb', bind_run, Hrun.
  split; [reflexivity|]. split; [done|]. exact Hk.
Qed.

(** For every positive sample rate below [2^52], so at every position of
    the slider, and integer frequencies from [0] to below [2^53], which a
    double holds exactly, [generate_sound] plays [2*sample_rate] samples,
    two seconds of sound: sample [k] is the noise scale times the [k]-th
    normal draw, plus the two cosines added to zero from the left. The
    global generator moves by that one draw. *)
Theorem generate_sound_signal (sample_rate : Z) (A B : float) (fA fB : Z) (noise : float)
    (w : World) :
  1 ≤ sample_rate < 2 ^ 52 → 0 ≤ fA < 2 ^ 53 → 0 ≤ fB < 2 ^ 53 →
  ∃ signal,
    generate_sound sample_rate A B fA fB noise w
    = (Ok signal,
       mkWorld (rng_randn (Z.to_nat (2 * sample_rate)) (np_random w)).2 (rs w))
    ∧ length signal = Z.to_nat (2 * sample_rate)
    ∧ ∀ k : nat, (k < Z.to_nat (2 * sample_rate))%nat →
        let tk := grid_point (of_Z 2) (2 * sample_rate) k in
        signal !! k
        = Some (fadd (fmul noise
                        ((rng_randn (Z.to_nat (2 * sample_rate)) (np_random w)).1 !!! k))
                  (fadd (fadd fzero (wave_at tk (A, (of_Z fA, of_Z 0))))
                        (wave_at tk (B, (of_Z fB, of_Z 0))))).
Proof.
  intros Hsr HfA HfB.
  destruct (generate_sound_run sample_rate A B fA fB noise w (of_Z fA) (of_Z fB) Hsr
              (float_of_int_small fA HfA) (float_of_int_small fB HfB))
    as (signal & Hrun & Hlen & Hk).
  exists signal. split; [exact Hrun|]. split; [done|]. intros k Hlt. by rewrite Hk.
Qed.

(** A frequency too large for a double ([10**400], say) stops
    [generate_sound] with [OverflowError]: the product [2*np.pi*f] cannot
    be formed. This happens when the sum of the cosines is built, so after
    the noise has been drawn: the global generator has moved by the
    [2*sample_rate] normal values of the call. *)
Theorem generate_sound_overflow (sample_rate : Z) (A B : float) (fA fB : Z)
    (noise : float) (w : World) :
  1 ≤ sample_rate < 2 ^ 52 →
  float_of_int fA = Raise OverflowError ∨ float_of_int fB = Raise OverflowError →
  generate_sound sample_rate A B fA fB noise w
  = (Raise OverflowError,
     mkWorld (rng_randn (Z.to_nat (2 * sample_rate)) (np_random w)).2 (rs w)).
Proof.
  intros [Hlo Hhi] Hf.
  assert (Hb : 2 ^ 53 = 2 * 2 ^ 52) by reflexivity.
  destruct (integer_sample_count 2 sample_rate) as [Hfs H2]; [lia..|].
  destruct (generate_noisy_signal_run sample_rate [A; B] [fzero; fzero]
              [of_Z 0; of_Z 0] noise (of_Z 2) w (of_Z sample_rate) (2 * sample_rate))
    as (t & signal & Hrun & _); [done|done|done|done|lia|].
  unfold generate_sound. cbv zeta.
  destruct Hf as [Hf|Hf]; rewrite Hf.
  - by rewrite bind_run, Hrun.
  - destruct (float_of_int fA); by rewrite bind_run, Hrun.
Qed.

(** For every positive sample rate below [2^52], so at every position of
    the slider, integer frequencies from [0] to below [2^53] and a positive
    number of bands, the second [generate_sound] classifies and plots the
    features of the sound it plays: the spectrum of the [2*sample_rate]
    samples has [sample_rate + 1] bins, and entry [i] of the vector is the
    value of band [i] of that spectrum cut into [num_windows] bands. The
    vector has [num_windows] entries, so every position [f0] of the feature
    sliders ([0] to [num_windows - 1]) indexes it and the list of names. *)
Theorem sound_features_indexable (sample_rate num_windows : Z) (A B : float) (fA fB : Z)
    (noise : float) (w : World) :
  1 ≤ sample_rate < 2 ^ 52 → 0 ≤ fA < 2 ^ 53 → 0 ≤ fB < 2 ^ 53 → 1 ≤ num_windows →
  ∃ signal f,
    generate_sound sample_rate A B fA fB noise w
    = (Ok signal,
       mkWorld (rng_randn (Z.to_nat (2 * sample_rate)) (np_random w)).2 (rs w))
    ∧ sound_features sample_rate num_windows A B fA fB noise w
      = (Ok (f, f),
         mkWorld (rng_randn (Z.to_nat (2 * sample_rate)) (np_random w)).2 (rs w))
    ∧ Z.of_nat (length (np_fft_rfft signal)) = sample_rate + 1
    ∧ length f = Z.to_nat num_windows
    ∧ (∀ i : nat, (i < Z.to_nat num_windows)%nat →
         f !! i
         = Some (band_rms (magnitudes signal)
                   (band_lo (sample_rate + 1) num_windows i)
                   (band_hi (sample_rate + 1) num_windows i)))
    ∧ ∀ f0, 0 ≤ f0 ≤ num_windows - 1 →
        is_Some (f !! Z.to_nat f0)
        ∧ is_Some (feature_names num_windows !! Z.to_nat f0).
Proof.
  intros Hsr HfA HfB Hw.
  destruct (generate_sound_run sample_rate A B fA fB noise w (of_Z fA) (of_Z fB) Hsr
              (float_of_int_small fA HfA) (float_of_int_small fB HfB))
    as (signal & Hrun & Hlen & _).
  assert (Hs : signal ≠ []).
  { intros ->. simpl in Hlen. lia. }
  assert (HL : Z.of_nat (length (np_fft_rfft signal)) = sample_rate + 1).
  { rewrite rfft_length, Hlen by done.
    rewrite Nat2Z.inj_succ, Nat2Z.inj_div, Z2Nat.id by lia.
    change (Z.of_nat 2) with 2. rewrite (Z.mul_comm 2), Z.div_mul by done. lia. }
  pose proof (extract_features_unfold signal num_windows Hs Hw) as Hf.
  rewrite HL in Hf.
  eexists signal, _. split; [exact Hrun|]. split.
  { unfold sound_features. rewrite bind_run, Hrun, !bind_run. unfold lift.
    rewrite Hf. reflexivity. }
  split; [exact HL|]. split; [by rewrite length_fmap, length_seq|]. split.
  { intros i Hi. by rewrite list_lookup_fmap, lookup_seq_lt. }
  intros f0 Hf0. split.
  - apply lookup_lt_is_Some_2. rewrite length_fmap, length_seq. lia.
  - apply lookup_lt_is_Some_2. unfold feature_names.
    rewrite length_fmap, length_seqZ. lia.
Qed.

End SoundFacts.

(** ** The cells of the FFT notebooks *)

Section SpectraFacts.
Context {np : NumPy}.

Lemma argmax_from_bound (l : list float) :
  ∀ best mp i, (best < i)%nat → (argmax_from best mp i l < i + length l)%nat.
Proof.
  induction l as [|x l IH]; intros best mp i Hb; cbn [argmax_from length]; [lia|].
  destruct (SFleb x mp).
  - specialize (IH best mp (S i) ltac:(lia)). lia.
  - destruct (is_nan x); [lia|]. specialize (IH i x (S i) ltac:(lia)). lia.
Qed.

(** [np.argmax] refuses only the empty array and returns one of its
    indices. *)
Lemma np_argmax_bound (l : list float) :
  l ≠ [] → ∃ k, np_argmax l = Ok k ∧ (k < length l)%nat.
Proof.
  intros Hl. destruct l as [|x r]; [done|]. eexists. split; [reflexivity|].
  cbn [length]. destruct (is_nan x); [lia|].
  pose proof (argmax_from_bound r 0 x 1 ltac:(lia)). lia.
Qed.

Lemma np_fft_rfft_n_whole (a : list float) :
  a ≠ [] →
  np_fft_rfft_n a (Z.of_nat (length a)) = Ok (np_fft_rfft a)
  ∧ length (np_fft_rfft a) = Z.to_nat (Z.of_nat (length a) / 2 + 1).
Proof.
  intros Ha. unfold np_fft_rfft_n.
  assert (0 < length a)%nat by (destruct a; [done|simpl; lia]).
  rewrite (proj2 (Z.ltb_ge _ 1)) by lia.
  rewrite Nat2Z.id, Nat.sub_diag, firstn_all. cbn [replicate]. rewrite app_nil_r.
  split; [reflexivity|]. rewrite rfft_length by done.
  rewrite <- (Nat2Z.inj_div _ 2). lia.
Qed.

Lemma np_fft_rfft_n_empty (a : list float) : np_fft_rfft_n a 0 = Raise ValueError.
Proof. reflexivity. Qed.

Lemma axis_defined_spec (n sampling_rate : Z) :
  axis_defined n sampling_rate = true →
  ∃ d frequencies,
    py_reciprocal sampling_rate = Ok d
    ∧ np_fft_rfftfreq n d = Ok frequencies
    ∧ length frequencies = Z.to_nat (n / 2 + 1).
Proof.
  unfold axis_defined, py_reciprocal, np_fft_rfftfreq.
  destruct (float_of_int sampling_rate) as [x|]; [|done].
  destruct (float_of_int n) as [nf|]; [|done].
  intros [Hx Hnd]%andb_true_iff.
  apply negb_true_iff in Hx, Hnd. rewrite Hx.
  exists (fdiv fone x). cbv zeta. rewrite Hnd.
  eexists. split; [reflexivity|]. split; [reflexivity|].
  by rewrite length_fmap, length_seqZ.
Qed.

Lemma np_hamming_length (M : Z) : length (np_hamming M) = Z.to_nat M.
Proof.
  unfold np_hamming. destruct (M <? 1) eqn:H1.
  - apply Z.ltb_lt in H1. simpl. lia.
  - destruct (M =? 1) eqn:H2.
    + apply Z.eqb_eq in H2. by subst M.
    + by rewrite length_fmap, length_seqZ.
Qed.

End SpectraFacts.

Lemma generate_noisy_signal_integer_duration_witness :
  ∃ t signal,
    (generate_noisy_signal (np := Bench.numpy) (rng := Bench.generator)
       8 [fone] [ftwo] [fzero] fone (of_Z 2) (Bench.world 0 1)).1 = Ok (t, signal)
    ∧ Z.of_nat (length signal) = 2 * 8.
Proof.
  destruct (generate_noisy_signal_integer_duration (np := Bench.numpy)
              (rng := Bench.generator) 8 [fone] [ftwo] [fzero] fone 2 (Bench.world 0 1))
    as (t & signal & Hrun & _ & Hlen); [reflexivity | reflexivity | lia | lia | lia |].
  exists t, signal. rewrite Hrun. split; [reflexivity | exact Hlen].
Defined.

Lemma generate_sound_signal_witness :
  ∃ signal,
    (generate_sound (np := Bench.numpy) (rng := Bench.generator)
       40000 fone ftwo 100 10000 fone (Bench.world 0 1)).1 = Ok signal
    ∧ length signal = Z.to_nat (2 * 40000).
Proof.
  destruct (generate_sound_signal (np := Bench.numpy) (rng := Bench.generator)
              40000 fone ftwo 100 10000 fone (Bench.world 0 1))
    as (signal & Hrun & Hlen & _); [lia | lia | lia |].
  exists signal. rewrite Hrun. split; [reflexivity | exact Hlen].
Defined.

Lemma generate_sound_overflow_witness :
  generate_sound (np := Bench.numpy) (rng := Bench.generator)
    40000 fone ftwo (10 ^ 400) 10000 fone (Bench.world 0 1)
  = (Raise OverflowError,
     Bench.world (rng_randn (RandomState := Bench.generator) (Z.to_nat 80000) 0).2 1).
Proof.
  apply (generate_sound_overflow (np := Bench.numpy) (rng := Bench.generator)
           40000 fone ftwo (10 ^ 400) 10000 fone (Bench.world 0 1));
    [lia | left; vm_compute; reflexivity].
Defined.

Lemma sound_features_indexable_witness :
  ∃ signal f,
    (generate_sound (np := Bench.numpy) (rng := Bench.generator)
       40000 fone ftwo 100 10000 fone (Bench.world 0 1)).1 = Ok signal
    ∧ (sound_features (np := Bench.numpy) (rng := Bench.generator)
         40000 25 fone ftwo 100 10000 fone (Bench.world 0 1)).1 = Ok (f, f)
    ∧ f !! 24%nat
      = Some (band_rms (np := Bench.numpy) (magnitudes (np := Bench.numpy) signal)
                (band_lo 40001 25 24) (band_hi 40001 25 24)).
Proof.
  destruct (sound_features_indexable (np := Bench.numpy) (rng := Bench.generator)
              40000 25 fone ftwo 100 10000 fone (Bench.world 0 1))
    as (signal & f & Hs & Hrun & _ & _ & Hband & _); [lia | lia | lia | lia |].
  exists signal, f. rewrite Hs, Hrun. split; [reflexivity|]. split; [reflexivity|].
  apply (Hband 24%nat). apply Nat2Z.inj_lt. rewrite Z2Nat.id; lia.
Defined.

Lemma generate_noisy_signal_tenth_second_witness :
  ∃ t signal,
    (generate_noisy_signal (np := Bench.numpy) (rng := Bench.generator)
       10003 [fone] [ftwo] [fzero] fone py_0_1 (Bench.world 0 1)).1 = Ok (t, signal)
    ∧ Z.of_nat (length signal) = 10003 / 10.
Proof.
  destruct (generate_noisy_signal_tenth_second (np := Bench.numpy)
              (rng := Bench.generator) 10003 [fone] [ftwo] [fzero] fone (Bench.world 0 1))
    as (t & signal & Hrun & _ & Hlen); [reflexivity | reflexivity | lia |].
  exists t, signal. rewrite Hrun. split; [reflexivity | exact Hlen].
Defined.

Section FftCellFacts.
Context {np : NumPy} {sin : NumPySin} {rng : RandomState}.

(** A run of [compute_fft] on a grid of [N ≥ 1] points whose frequency
    axis is defined. *)
Lemma compute_fft_run T sampling_rate frequency noise_A w fs N :
  float_of_int sampling_rate = Ok fs → py_int (fmul T fs) = Ok N → 1 ≤ N →
  axis_defined N sampling_rate = true →
  ∃ view f,
    compute_fft T sampling_rate frequency noise_A w
    = (Ok view, mkWorld (rng_randn (Z.to_nat N) (np_random w)).2 (rs w))
    ∧ length (view_t view) = Z.to_nat N
    ∧ length (view_signal view) = Z.to_nat N
    ∧ length (view_noisy_signal view) = Z.to_nat N
    ∧ length (view_frequencies view) = Z.to_nat (N / 2 + 1)
    ∧ length (view_stem view) = Z.to_nat (N / 2 + 1)
    ∧ view_max_frequency view = Some f
    ∧ f ∈ view_frequencies view.
Proof.
  intros Hfs HN H1 Haxis.
  destruct (np_linspace_ok T N ltac:(lia)) as (t & Ht & Hlen & _).
  destruct (axis_defined_spec N sampling_rate Haxis) as (d & freqs & Hd & Hfreqs & Hfl).
  unfold compute_fft. rewrite bind_run. unfold lift at 1. rewrite Hfs.
  rewrite bind_run. unfold lift at 1. rewrite HN.
  rewrite bind_run. unfold lift at 1. rewrite Ht.
  rewrite bind_run. unfold np_random_randn at 1. rewrite length_fmap, Hlen.
  pose proof (randn_length (Z.to_nat N) (np_random w)) as Hz.
  destruct (rng_randn (Z.to_nat N) (np_random w)) as [z g] eqn:Hdraw.
  cbn [fst snd] in *.
  set (signal := (λ tk, np_cos (fmul (fmul (fmul ftwo np_pi) tk) frequency)) <$> t).
  set (noisy := zip_with fadd signal (fmul noise_A <$> z)).
  assert (Hsl : length signal = Z.to_nat N) by (unfold signal; by rewrite length_fmap).
  assert (Hnl : length noisy = Z.to_nat N).
  { unfold noisy. rewrite length_zip_with_l_eq; [done|]. by rewrite length_fmap, Hz. }
  assert (Hne : noisy ≠ []) by (intros Hnil; rewrite Hnil in Hnl; simpl in Hnl; lia).
  destruct (np_fft_rfft_n_whole noisy Hne) as [Hfft Hfftl].
  rewrite Hnl in Hfft, Hfftl. rewrite (Z2Nat.id N) in Hfft, Hfftl by lia.
  rewrite bind_run. unfold lift at 1. rewrite Z2Nat.id by lia. rewrite Hfft.
  rewrite bind_run. unfold lift at 1. rewrite Hd.
  rewrite bind_run. unfold lift at 1. rewrite Hfreqs.
  destruct (np_argmax_bound (np_abs <$> np_fft_rfft noisy)) as (k & Hk & Hkl).
  { intros Hnil. apply (f_equal length) in Hnil.
    rewrite length_fmap, Hfftl in Hnil. cbn [length] in Hnil.
    pose proof (Z.div_pos N 2). lia. }
  rewrite bind_run. unfold lift at 1. rewrite Hk.
  rewrite length_fmap, Hfftl, <- Hfl in Hkl.
  destruct (lookup_lt_is_Some_2 freqs k Hkl) as [f Hf].
  eexists _, f. split; [reflexivity|]. cbn [view_t view_signal view_noisy_signal
    view_frequencies view_stem view_max_frequency].
  repeat split; try done.
  - unfold stem_heights. by rewrite length_fmap.
  - apply list_elem_of_lookup. by exists k.
Qed.

(** With no grid point the spectrum is refused, after the (empty) draw of
    the noise. *)
Lemma compute_fft_empty T sampling_rate frequency noise_A w fs :
  float_of_int sampling_rate = Ok fs → py_int (fmul T fs) = Ok 0 →
  compute_fft T sampling_rate frequency noise_A w
  = (Raise ValueError, mkWorld (rng_randn 0 (np_random w)).2 (rs w)).
Proof.
  intros Hfs HN.
  destruct (np_linspace_ok T 0 ltac:(lia)) as (t & Ht & Hlen & _).
  destruct t; [|done].
  unfold compute_fft. rewrite bind_run. unfold lift at 1. rewrite Hfs.
  rewrite bind_run. unfold lift at 1. rewrite HN.
  rewrite bind_run. unfold lift at 1. rewrite Ht.
  rewrite bind_run. unfold np_random_randn at 1. cbn [fmap list_fmap length].
  by destruct (rng_randn 0 (np_random w)) as [z g].
Qed.

(** [compute_fft] for an integer duration [T] and a positive sampling
    rate, as its sliders give them ([0] to [10] and [6] to [256]; the
    statement holds while [T*sampling_rate] is below [2^53]): the duration
    [0], which the slider allows, makes the cell fail with the [ValueError]
    of [np.fft.rfft]; every other duration gives [T*sampling_rate] samples,
    a spectrum and a frequency axis of [T*sampling_rate // 2 + 1] entries,
    and the frequency that is printed is an entry of the axis. *)
Theorem compute_fft_integer_duration (T sampling_rate : Z) (frequency noise_A : float)
    (w : World) :
  0 ≤ T → 1 ≤ sampling_rate → T < 2 ^ 53 → sampling_rate < 2 ^ 53 →
  T * sampling_rate < 2 ^ 53 →
  (T = 0 →
   compute_fft (of_Z T) sampling_rate frequency noise_A w
   = (Raise ValueError, mkWorld (rng_randn 0 (np_random w)).2 (rs w)))
  ∧ (1 ≤ T →
     ∃ view f,
       compute_fft (of_Z T) sampling_rate frequency noise_A w
       = (Ok view,
          mkWorld (rng_randn (Z.to_nat (T * sampling_rate)) (np_random w)).2 (rs w))
       ∧ length (view_t view) = Z.to_nat (T * sampling_rate)
       ∧ length (view_signal view) = Z.to_nat (T * sampling_rate)
       ∧ length (view_noisy_signal view) = Z.to_nat (T * sampling_rate)
       ∧ length (view_frequencies view) = Z.to_nat (T * sampling_rate / 2 + 1)
       ∧ length (view_stem view) = Z.to_nat (T * sampling_rate / 2 + 1)
       ∧ view_max_frequency view = Some f
       ∧ f ∈ view_frequencies view).
Proof.
  intros HT Hr HT53 Hr53 Hp.
  destruct (integer_sample_count T sampling_rate) as [Hfs HN]; [lia..|].
  split.
  - intros ->. apply (compute_fft_empty _ _ _ _ _ (of_Z sampling_rate)); [done|].
    by rewrite HN, Z.mul_0_l.
  - intros H1. apply (compute_fft_run _ _ _ _ _ (of_Z sampling_rate)); [done|done|nia|].
    apply axis_defined_small; [nia|lia].
Qed.

(** A run of [generate_signal_and_fft] on a grid of [N ≥ 1] points whose
    frequency axis is defined. *)
Lemma generate_signal_and_fft_run T (use_hamming : bool) sampling_rate (noise : bool)
    w fs N :
  float_of_int sampling_rate = Ok fs → py_int (fmul T fs) = Ok N → 1 ≤ N →
  axis_defined N sampling_rate = true →
  ∃ t frequencies fft,
    let z := (rng_randn (Z.to_nat N) (np_random w)).1 in
    let noisy := zip_with fadd (two_tone <$> t)
                   (fmul (if noise then fone else fzero) <$> z) in
    let window := if use_hamming then np_hamming N else replicate (Z.to_nat N) fone in
    generate_signal_and_fft T use_hamming sampling_rate noise w
    = (Ok ((t, noisy, zip_with fmul noisy window), (frequencies, fft)),
       mkWorld (rng_randn (Z.to_nat N) (np_random w)).2 (rs w))
    ∧ np_linspace T N = Ok t
    ∧ length t = Z.to_nat N
    ∧ length noisy = Z.to_nat N
    ∧ length (zip_with fmul noisy window) = Z.to_nat N
    ∧ length frequencies = Z.to_nat (N / 2 + 1)
    ∧ length fft = Z.to_nat (N / 2 + 1).
Proof.
  intros Hfs HN H1 Haxis.
  destruct (np_linspace_ok T N ltac:(lia)) as (t & Ht & Hlen & _).
  destruct (axis_defined_spec N sampling_rate Haxis) as (d & freqs & Hd & Hfreqs & Hfl).
  unfold generate_signal_and_fft. rewrite bind_run. unfold lift at 1. rewrite Hfs.
  rewrite bind_run. unfold lift at 1. rewrite HN.
  rewrite bind_run. unfold lift at 1. rewrite Ht.
  rewrite bind_run. unfold np_random_randn at 1. rewrite Hlen, !Z2Nat.id by lia.
  pose proof (randn_length (Z.to_nat N) (np_random w)) as Hz.
  destruct (rng_randn (Z.to_nat N) (np_random w)) as [z g] eqn:Hdraw.
  cbn [fst snd] in *.
  set (noisy := zip_with fadd (two_tone <$> t)
                  (fmul (if noise then fone else fzero) <$> z)).
  set (window := if use_hamming then np_hamming N else replicate (Z.to_nat N) fone).
  set (windowed := zip_with fmul noisy window).
  assert (Hnl : length noisy = Z.to_nat N).
  { unfold noisy. rewrite length_zip_with_l_eq; rewrite !length_fmap; congruence. }
  assert (Hwl : length window = Z.to_nat N).
  { unfold window. destruct use_hamming; [apply np_hamming_length|apply length_replicate]. }
  assert (Hwsl : length windowed = Z.to_nat N).
  { unfold windowed. rewrite length_zip_with_l_eq; congruence. }
  assert (Hne : windowed ≠ []) by (intros Hnil; rewrite Hnil in Hwsl; simpl in Hwsl; lia).
  destruct (np_fft_rfft_n_whole windowed Hne) as [Hfft Hfftl].
  rewrite Hwsl in Hfft, Hfftl. rewrite (Z2Nat.id N) in Hfft, Hfftl by lia.
  rewrite bind_run. unfold lift at 1. rewrite Hfft.
  rewrite bind_run. unfold lift at 1. rewrite Hd.
  rewrite bind_run. unfold lift at 1. rewrite Hwsl, Z2Nat.id by lia. rewrite Hfreqs.
  exists t, freqs, (np_fft_rfft windowed). cbv zeta.
  split; [reflexivity|]. repeat split; done.
Qed.

(** [generate_signal_and_fft] for every positive sampling rate and every
    positive sample count [N = int(T*sampling_rate)] below [2^53] (the
    cell [FFT] uses the rates [16], [32] and [64] and up to [128] samples):
    the call returns a grid, a signal and a windowed signal of [N] values
    and a frequency axis and a spectrum of [N // 2 + 1] values. The signal
    is [2.3 cos + 4 sin] plus [1.0] or [0.0] times the [N] normal draws,
    which are taken from the global generator also when the noise is
    switched off; the window is [np.hamming(N)], or ones. *)
Theorem generate_signal_and_fft_shapes (T : float) (use_hamming : bool)
    (sampling_rate : Z) (noise : bool) (w : World) (N : Z) :
  1 ≤ sampling_rate < 2 ^ 53 →
  py_int (fmul T (of_Z sampling_rate)) = Ok N → 1 ≤ N < 2 ^ 53 →
  ∃ t frequencies fft,
    let z := (rng_randn (Z.to_nat N) (np_random w)).1 in
    let noisy := zip_with fadd (two_tone <$> t)
                   (fmul (if noise then fone else fzero) <$> z) in
    let window := if use_hamming then np_hamming N else replicate (Z.to_nat N) fone in
    generate_signal_and_fft T use_hamming sampling_rate noise w
    = (Ok ((t, noisy, zip_with fmul noisy window), (frequencies, fft)),
       mkWorld (rng_randn (Z.to_nat N) (np_random w)).2 (rs w))
    ∧ np_linspace T N = Ok t
    ∧ length t = Z.to_nat N
    ∧ length noisy = Z.to_nat N
    ∧ length (zip_with fmul noisy window) = Z.to_nat N
    ∧ length frequencies = Z.to_nat (N / 2 + 1)
    ∧ length fft = Z.to_nat (N / 2 + 1).
Proof.
  intros Hr HN HNb.
  apply (generate_signal_and_fft_run _ _ _ _ _ (of_Z sampling_rate));
    [apply float_of_int_small; lia|done|lia|by apply axis_defined_small].
Qed.

(** A duration too short for one sample ([int(T*sampling_rate) = 0]) makes
    [generate_signal_and_fft] fail with the [ValueError] of [np.fft.rfft],
    with or without the window. *)
Theorem generate_signal_and_fft_no_samples (T : float) (use_hamming : bool)
    (sampling_rate : Z) (noise : bool) (w : World) (fs : float) :
  float_of_int sampling_rate = Ok fs → py_int (fmul T fs) = Ok 0 →
  generate_signal_and_fft T use_hamming sampling_rate noise w
  = (Raise ValueError, mkWorld (rng_randn 0 (np_random w)).2 (rs w)).
Proof.
  intros Hfs HN.
  destruct (np_linspace_ok T 0 ltac:(lia)) as (t & Ht & Hlen & _).
  destruct t; [|done].
  unfold generate_signal_and_fft. rewrite bind_run. unfold lift at 1. rewrite Hfs.
  rewrite bind_run. unfold lift at 1. rewrite HN.
  rewrite bind_run. unfold lift at 1. rewrite Ht.
  rewrite bind_run. unfold np_random_randn at 1.
  change (Z.of_nat (length (@nil float))) with 0. change (Z.to_nat 0) with 0%nat.
  destruct (rng_randn 0 (np_random w)) as [z g].
  rewrite bind_run. unfold lift at 1. by rewrite np_fft_rfft_n_empty.
Qed.

End FftCellFacts.

Section HammingFacts.
Context {np : NumPy}.

(** [FFT_hamming] for every positive sampling rate and every sample count
    [N = int(T*sampling_rate)] below [2^53] (the sliders give rates [10] to
    [30] and [50] to [300] samples): the window, the windowed signal and
    the signal have one value per grid point, the two spectra one per
    frequency, and the two frequency axes are equal. With no grid point
    the call fails with the [ValueError] of [np.fft.rfft]. *)
Theorem FFT_hamming_plots (T : float) (sampling_rate : Z) (frequency : float) (N : Z) :
  1 ≤ sampling_rate < 2 ^ 53 →
  py_int (fmul T (of_Z sampling_rate)) = Ok N → 0 ≤ N < 2 ^ 53 →
  if N =? 0 then FFT_hamming T sampling_rate frequency = Raise ValueError
  else
    ∃ plots,
      FFT_hamming T sampling_rate frequency = Ok plots
      ∧ np_linspace T N = Ok (plot_ts plots)
      ∧ plot_hamming plots = np_hamming N
      ∧ plot_hamming_signal plots = zip_with fmul (np_hamming N) (plot_signal plots)
      ∧ length (plot_ts plots) = Z.to_nat N
      ∧ length (plot_signal plots) = Z.to_nat N
      ∧ length (plot_hamming_signal plots) = Z.to_nat N
      ∧ plot_frequencies_ham plots = plot_frequencies plots
      ∧ length (plot_frequencies plots) = Z.to_nat (N / 2 + 1)
      ∧ length (plot_fft plots) = Z.to_nat (N / 2 + 1)
      ∧ length (plot_fft_ham plots) = Z.to_nat (N / 2 + 1).
Proof.
  intros Hr HN HNb.
  assert (Hfs : float_of_int sampling_rate = Ok (of_Z sampling_rate))
    by (apply float_of_int_small; lia).
  destruct (np_linspace_ok T N ltac:(lia)) as (t & Ht & Hlen & _).
  unfold FFT_hamming. rewrite Hfs. cbn [bind_result]. rewrite HN. cbn [bind_result].
  rewrite Ht. cbn [bind_result]. rewrite length_fmap, Hlen, Z2Nat.id by lia.
  destruct (N =? 0) eqn:HN0.
  { apply Z.eqb_eq in HN0. subst N. reflexivity. }
  apply Z.eqb_neq in HN0.
  pose proof (axis_defined_small N sampling_rate ltac:(lia) Hr) as Haxis.
  destruct (axis_defined_spec N sampling_rate Haxis) as (d & freqs & Hd & Hfreqs & Hfl).
  set (signal := (λ tk, np_cos (fmul (fmul (fmul ftwo np_pi) tk) frequency)) <$> t).
  set (hs := zip_with fmul (np_hamming N) signal).
  assert (Hsl : length signal = Z.to_nat N) by (unfold signal; by rewrite length_fmap).
  assert (Hhl : length hs = Z.to_nat N).
  { unfold hs. rewrite length_zip_with_l_eq; rewrite np_hamming_length; congruence. }
  assert (Hs : signal ≠ []) by (intros Hnil; rewrite Hnil in Hsl; simpl in Hsl; lia).
  assert (Hh : hs ≠ []) by (intros Hnil; rewrite Hnil in Hhl; simpl in Hhl; lia).
  destruct (np_fft_rfft_n_whole hs Hh) as [Hfh Hfhl].
  destruct (np_fft_rfft_n_whole signal Hs) as [Hf Hfl'].
  rewrite Hhl in Hfh, Hfhl. rewrite (Z2Nat.id N) in Hfh, Hfhl by lia.
  rewrite Hsl in Hf, Hfl'. rewrite (Z2Nat.id N) in Hf, Hfl' by lia.
  rewrite Hfh. cbn [bind_result]. rewrite Hd. cbn [bind_result].
  rewrite Hfreqs. cbn [bind_result]. rewrite Hf. cbn [bind_result].
  eexists. split; [reflexivity|].
  cbn [plot_ts plot_hamming plot_hamming_signal plot_signal plot_frequencies plot_fft
       plot_frequencies_ham plot_fft_ham].
  unfold stem_heights. rewrite !length_fmap. repeat split; done.
Qed.

End HammingFacts.

(** ** The operation counts *)

(** The squares [N**2] of the counts below [stop] are the true squares as
    long as [stop] is at most [46341]: no entry of the [int32] array wraps.
    The notebook stops at [10^4]. *)
Theorem squared_counts_exact (stop : Z) :
  stop ≤ 46341 →
  counts stop = seqZ 1 (stop - 1)
  ∧ squared_counts stop = (λ n, n * n) <$> seqZ 1 (stop - 1).
Proof.
  intros Hstop.
  assert (Hc : counts stop = seqZ 1 (stop - 1)).
  { unfold counts. rewrite <- (list_fmap_id (seqZ 1 (stop - 1))) at 2.
    apply list_fmap_ext. intros i n Hn. apply lookup_seqZ in Hn as [-> Hi].
    unfold id. apply wrap32_id. change (2 ^ 31) with 2147483648. lia. }
  split; [done|]. unfold squared_counts. rewrite Hc.
  apply list_fmap_ext. intros i n Hn. apply lookup_seqZ in Hn as [-> Hi].
  apply wrap32_id. change (2 ^ 31) with 2147483648. nia.
Qed.

Lemma compute_fft_integer_duration_witness :
  compute_fft (np := Bench.numpy) (rng := Bench.generator)
    (of_Z 0) 22 (of_Z 3) fone (Bench.world 0 1)
  = (Raise ValueError,
     Bench.world (rng_randn (RandomState := Bench.generator) 0 0).2 1)
  ∧ ∃ view f,
      (compute_fft (np := Bench.numpy) (rng := Bench.generator)
         (of_Z 2) 22 (of_Z 3) fone (Bench.world 0 1)).1 = Ok view
      ∧ view_max_frequency view = Some f
      ∧ f ∈ view_frequencies view.
Proof.
  split.
  - apply (proj1 (compute_fft_integer_duration (np := Bench.numpy) (rng := Bench.generator)
                    0 22 (of_Z 3) fone (Bench.world 0 1)
                    ltac:(lia) ltac:(lia) ltac:(lia) ltac:(lia) ltac:(lia))).
    reflexivity.
  - destruct (proj2 (compute_fft_integer_duration (np := Bench.numpy) (rng := Bench.generator)
                       2 22 (of_Z 3) fone (Bench.world 0 1)
                       ltac:(lia) ltac:(lia) ltac:(lia) ltac:(lia) ltac:(lia))
                ltac:(lia))
      as (view & f & Hrun & _ & _ & _ & _ & _ & Hmax & Hin).
    exists view, f. rewrite Hrun. split; [reflexivity|]. split; [exact Hmax | exact Hin].
Defined.

Lemma generate_signal_and_fft_shapes_witness :
  ∃ t noisy windowed frequencies fft,
    (generate_signal_and_fft (np := Bench.numpy) (sin := BenchTrig.numpy_sin)
       (rng := Bench.generator) fone true 16 false (Bench.world 0 1)).1
    = Ok ((t, noisy, windowed), (frequencies, fft))
    ∧ length windowed = 16%nat
    ∧ length fft = 9%nat.
Proof.
  destruct (generate_signal_and_fft_shapes (np := Bench.numpy)
              (sin := BenchTrig.numpy_sin) (rng := Bench.generator)
              fone true 16 false (Bench.world 0 1) 16)
    as (t & frequencies & fft & Hrun & _ & _ & _ & Hw & _ & Hf);
    [lia | reflexivity | lia |].
  eexists t, _, _, frequencies, fft. rewrite Hrun.
  split; [reflexivity|]. split; [exact Hw | exact Hf].
Defined.

Lemma generate_signal_and_fft_no_samples_witness :
  generate_signal_and_fft (np := Bench.numpy) (sin := BenchTrig.numpy_sin)
    (rng := Bench.generator) fzero true 16 false (Bench.world 0 1)
  = (Raise ValueError,
     Bench.world (rng_randn (RandomState := Bench.generator) 0 0).2 1).
Proof.
  apply (generate_signal_and_fft_no_samples (np := Bench.numpy)
           (sin := BenchTrig.numpy_sin) (rng := Bench.generator)
           fzero true 16 false (Bench.world 0 1) (of_Z 16)); reflexivity.
Defined.

Lemma FFT_hamming_plots_witness :
  (∃ plots,
     FFT_hamming (np := Bench.numpy) (of_Z 5) 20 (of_Z 3) = Ok plots
     ∧ length (plot_hamming_signal plots) = 100%nat
     ∧ plot_frequencies_ham plots = plot_frequencies plots)
  ∧ FFT_hamming (np := Bench.numpy) fzero 20 (of_Z 3) = Raise ValueError.
Proof.
  split.
  - destruct (FFT_hamming_plots (np := Bench.numpy) (of_Z 5) 20 (of_Z 3) 100
                ltac:(lia) eq_refl ltac:(lia))
      as (plots & Hrun & _ & _ & _ & _ & _ & Hhs & Hax & _).
    exists plots. split; [exact Hrun|]. split; [exact Hhs | exact Hax].
  - exact (FFT_hamming_plots (np := Bench.numpy) fzero 20 (of_Z 3) 0
             ltac:(lia) eq_refl ltac:(lia)).
Defined.

Lemma squared_counts_exact_witness :
  squared_counts 10000 = (λ n, n * n) <$> seqZ 1 (10000 - 1).
Proof. apply (proj2 (squared_counts_exact 10000 ltac:(lia))). Defined.

(** ** The rows of the data set *)

Section DatabaseRows.
Context {np : NumPy} {rng : RandomState}.

Lemma py_slice_one {A} `{Inhabited A} (l : list A) (i : nat) :
  (i < length l)%nat → py_slice l (Z.of_nat i) (Z.of_nat i + 1) = [l !!! i].
Proof.
  intros Hi. rewrite py_slice_in_range by lia.
  replace (Z.to_nat (Z.of_nat i + 1 - Z.of_nat i)) with 1%nat by lia.
  rewrite Nat2Z.id.
  destruct (lookup_lt_is_Some_2 l i Hi) as [x Hx].
  rewrite (list_lookup_total_correct _ _ _ Hx).
  rewrite (drop_S _ _ _ Hx). reflexivity.
Qed.

Lemma for_each_seq_run {B} (body : nat → M B) (step : World → World)
    (P : nat → World → B → Prop) :
  (∀ i w, ∃ y, body i w = (Ok y, step w) ∧ P i w y) →
  ∀ n s w, ∃ ys,
    for_each body (seq s n) w = (Ok ys, Nat.iter n step w)
    ∧ length ys = n
    ∧ ∀ j y, ys !! j = Some y → P (s + j)%nat (Nat.iter j step w) y.
Proof.
  intros Hbody. induction n as [|n IH]; intros s w.
  - exists []. split; [reflexivity|]. split; [reflexivity|]. intros j y Hj. done.
  - destruct (Hbody s w) as (y & Hy & HP).
    destruct (IH (S s) (step w)) as (ys & Hys & Hlen & HPs).
    exists (y :: ys). cbn [seq for_each]. rewrite bind_run, Hy, bind_run, Hys.
    split; [by rewrite Nat.iter_succ_r|]. split; [simpl; by rewrite Hlen|].
    intros [|j] y' Hj.
    + injection Hj as <-. by rewrite Nat.add_0_r.
    + rewrite Nat.iter_succ_r, Nat.add_succ_r. by apply HPs.
Qed.

(** With labels that fit the [int32] array they are stored in, row [i] of
    the data set and label [i] come from the same drawn frequency: the row
    holds the features of a signal of [N] samples with one cosine of
    amplitude [A[i]], frequency [frequencies[i]] and phase
    [phase[i]] and noise scaled by [noise[i]], the normal values being the
    [i]-th draw of [N] from the global generator; the label is that of
    [frequencies[i]]. *)
Theorem generate_database_rows f_max label target_map sample_rate num_samples T
    num_windows fs N w :
  fits_int32 label → 0 ≤ num_samples → 1 ≤ num_windows →
  float_of_int sample_rate = Ok fs → py_int (fmul T fs) = Ok N → 1 ≤ N →
  ∃ features labels names tm w',
    generate_database_with f_max label target_map sample_rate num_samples T num_windows w
    = (Ok (features, labels, names, tm), w')
    ∧ ∀ i : nat, (i < Z.to_nat num_samples)%nat →
      let '(A, phase, noise, frequencies, _) :=
        drawn_parameters f_max num_samples (rs w) in
      let z := (rng_randn (Z.to_nat N)
                  (after_randn (Z.to_nat N) i (np_random w))).1 in
      ∃ signal row,
        features !! i = Some row
        ∧ labels !! i = Some (label (frequencies !!! i))
        ∧ extract_features signal num_windows = Ok row
        ∧ length signal = Z.to_nat N
        ∧ ∀ k : nat, (k < Z.to_nat N)%nat →
            signal !! k
            = Some (fadd (fmul (noise !!! i) (z !!! k))
                      (fadd fzero
                         (wave_at (grid_point T N k)
                            (A !!! i, (frequencies !!! i, phase !!! i))))).
Proof.
  intros Hfit Hn Hw Hfs HN H1.
  rewrite generate_database_with_unfold by done.
  pose proof (drawn_parameters_lengths f_max num_samples (rs w)) as Hlen.
  destruct (drawn_parameters f_max num_samples (rs w)) as [[[[A phase] noise] freqs] g5].
  destruct Hlen as (HA & Hp & Hf).
  rewrite (proj2 (Z.ltb_ge num_windows 0)) by lia.
  set (body := sample_row label sample_rate T num_windows A freqs phase noise).
  set (step := λ w0 : World, mkWorld (rng_randn (Z.to_nat N) (np_random w0)).2 (rs w0)).
  set (P := λ (i : nat) (w0 : World) (r : list float * Z),
    (i < Z.to_nat num_samples)%nat →
    ∃ signal,
      r.2 = label (freqs !!! i)
      ∧ extract_features signal num_windows = Ok r.1
      ∧ length signal = Z.to_nat N
      ∧ ∀ k : nat, (k < Z.to_nat N)%nat →
          signal !! k
          = Some (fadd (fmul (noise !!! i)
                          ((rng_randn (Z.to_nat N) (np_random w0)).1 !!! k))
                    (fadd fzero
                       (wave_at (grid_point T N k)
                          (A !!! i, (freqs !!! i, phase !!! i)))))).
  destruct (for_each_seq_run body step P) with (n := Z.to_nat num_samples) (s := 0%nat)
    (w := mkWorld (np_random w) g5) as (rows & Hrun & Hrl & Hrows).
  { intros i w0. unfold body, sample_row.
    destruct (decide (i < Z.to_nat num_samples)%nat) as [Hi|Hi].
    - rewrite !py_slice_one by lia.
      destruct (generate_noisy_signal_run sample_rate [A !!! i] [freqs !!! i]
                  [phase !!! i] (noise !!! i) T w0 fs N)
        as (t & signal & Hsig & _ & Hsl & Hk); [done|done|done|done|lia|].
      destruct (extract_features_row signal num_windows) as (row & Hrow & _); [|done|].
      { intros ->. simpl in Hsl. lia. }
      rewrite bind_run, Hsig, bind_run. unfold lift at 1. rewrite Hrow, bind_run.
      unfold lift. rewrite (store_int32_fits _ (Hfit _)).
      eexists. split; [reflexivity|]. intros _. exists signal.
      split; [reflexivity|]. split; [exact Hrow|]. split; [exact Hsl|].
      intros k Hlt. rewrite (Hk k Hlt). reflexivity.
    - destruct (row_signal label sample_rate T num_windows A freqs phase noise i w0 fs N)
        as (signal & Hsl & Hrow); [done|done|lia|congruence|congruence|].
      destruct (extract_features_row signal num_windows) as (row & Hrow' & _); [|done|].
      { intros ->. simpl in Hsl. lia. }
      unfold sample_row in Hrow. rewrite Hrow, Hrow', (store_int32_fits _ (Hfit _)).
      eexists. split; [reflexivity|]. intros Hlt. lia. }
  rewrite Hrun. eexists _, _, _, _, _. split; [reflexivity|].
  intros i Hi.
  destruct (lookup_lt_is_Some_2 rows i ltac:(lia)) as [r Hr].
  destruct (Hrows i r Hr Hi) as (signal & Hlabel & Hrow & Hsl & Hk).
  exists signal, r.1. rewrite !list_lookup_fmap, Hr. cbn [fmap option_fmap option_map].
  split; [reflexivity|]. split; [by rewrite Hlabel|]. split; [exact Hrow|].
  split; [exact Hsl|]. intros k Hlt. rewrite (Hk k Hlt).
  unfold step. rewrite iter_randn. reflexivity.
Qed.

(** The labels of the ANN notebook for any label values that fit [int32]
    and any threshold: with distinct values every label is the key that
    the returned map names after the sample's frequency; with
    [high = low] every sample carries that one value and the map names it
    "high", whatever the frequency. *)
Theorem ann_labels_with_parameters (sample_rate num_samples : Z) (T : float)
    (num_windows high low : Z) (threshold : float) (w : World) (labels : list Z) :
  - 2 ^ 31 ≤ high < 2 ^ 31 → - 2 ^ 31 ≤ low < 2 ^ 31 →
  labels_of (Ann.generate_database sample_rate num_samples T num_windows
               high low threshold w).1 = Some labels →
  (high ≠ low →
   Forall2 (λ f l, Ann.target_map high low !! l
                   = Some (if fgtb f threshold then "high" else "low"))
     (drawn_frequencies (of_Z (sample_rate / 2)) num_samples (rs w)) labels)
  ∧ (high = low →
     Forall (λ l, l = high ∧ Ann.target_map high low !! l = Some "high") labels).
Proof.
  intros Hh Hl. unfold Ann.generate_database.
  destruct (generate_database_with _ _ _ _ _ _ _ w) as [[[[[F ls] names] tm]|e] w'] eqn:Hrun;
    [|done].
  apply generate_database_with_labels in Hrun as [-> ->].
  simpl. intros [= <-]. split.
  - intros Hne. apply Forall2_fmap_r, Forall_Forall2_diag, Forall_forall.
    intros f _. by apply ann_label_named.
  - intros ->. apply Forall_fmap, Forall_forall. intros f _. simpl.
    unfold Ann.label, Ann.target_map.
    destruct (fgtb f threshold); rewrite wrap32_id by done;
      (split; [reflexivity|by rewrite lookup_insert_eq]).
Qed.

End DatabaseRows.

Lemma generate_database_rows_witness :
  ∃ features labels names tm w' row,
    Knn.generate_database (np := Bench.numpy) (rng := Bench.generator)
      8 2 fone 2 (Bench.world 0 1)
    = (Ok (features, labels, names, tm), w')
    ∧ features !! 1%nat = Some row
    ∧ labels !! 1%nat
      = Some (Knn.label (drawn_frequencies (rng := Bench.generator)
                           (of_Z 20000) 2 1 !!! 1%nat)).
Proof.
  destruct (generate_database_rows (np := Bench.numpy) (rng := Bench.generator)
              (of_Z 20000) Knn.label Knn.target_map 8 2 fone 2 (of_Z 8) 8
              (Bench.world 0 1))
    as (features & labels & names & tm & w' & Hrun & Hrows);
    [apply knn_label_fits | lia | lia | reflexivity | reflexivity | lia |].
  specialize (Hrows 1%nat ltac:(lia)).
  unfold drawn_frequencies.
  change (rs (Bench.world 0 1)) with (1 : rng_state (RandomState := Bench.generator))
    in Hrows.
  destruct (drawn_parameters (rng := Bench.generator) (of_Z 20000) 2 1)
    as [[[[A phase] noise] freqs] g5].
  destruct Hrows as (signal & row & Hrow & Hlabel & _).
  exists features, labels, names, tm, w', row.
  split; [exact Hrun|]. split; [exact Hrow | exact Hlabel].
Defined.

Lemma ann_labels_with_parameters_witness :
  Forall2 (λ f l, Ann.target_map 5 (-5) !! l
                  = Some (if fgtb f (of_Z 8000) then "high" else "low"))
    (drawn_frequencies (rng := Bench.generator) (of_Z (40000 / 2)) 2 1) [-5; 5].
Proof.
  apply (ann_labels_with_parameters (np := Bench.numpy) (rng := Bench.generator)
           40000 2 (fdiv fone (of_Z 5000)) 2 5 (-5) (of_Z 8000) (Bench.world 0 1) [-5; 5]).
  - lia.
  - lia.
  - vm_compute. reflexivity.
  - lia.
Defined.
